(** * nvrhi: resource-state tracking and barrier synthesis

    A shallow embedding of the parts of nvrhi that decide when a GPU
    resource changes state and how the resulting barriers are flushed:

    - [src/common/misc.cpp]: [TextureSubresourceSet::resolve],
      [TextureSubresourceSet::isEntireTexture], [BufferRange::resolve];
    - [src/d3d12/d3d12-backend.h]: the [TextureState] / [BufferState]
      records and [BindingSet];
    - [src/vulkan/vulkan-state-tracking.cpp]: the Vulkan command list's
      binding-set barrier insertion and [commitBarriers];
    - [src/vulkan/vulkan-staging-texture.cpp] and
      [src/d3d12/d3d12-buffer.cpp]: the copy / write / clear operations.

    Unsigned 32- and 64-bit integers are [Z] with the wrap-around written
    out.  Objects reached through pointers live in finite maps keyed by a
    handle, so that two references to one resource share its state. *)

From Stdlib Require Import ZArith Lia Bool List.
From Stdlib Require SpecFloat.
From stdpp Require Import base decidable option list gmap.

Local Open Scope Z_scope.

(** ** Machine integers *)

Definition u32 (z : Z) : Z := z mod 2 ^ 32.
Definition u64 (z : Z) : Z := z mod 2 ^ 64.

(** Conversion of an [unsigned int] to [int] (two's complement). *)
Definition to_int (z : Z) : Z := if z <? 2 ^ 31 then z else z - 2 ^ 32.

Definition is_u32 (z : Z) : Prop := 0 <= z < 2 ^ 32.
Definition is_u64 (z : Z) : Prop := 0 <= z < 2 ^ 64.

(** Object identity (the address a pointer holds). *)
Definition Handle := nat.

(** ** Resource states *)

(** [ResourceStates] is a bit set of usage flags, compared with [==]. *)
Definition ResourceStates := Z.

(** [c_ResourceStateUnknown = ~0u] (d3d12-backend.h): the sentinel for a
    subresource that is not tracked yet. *)
Definition c_ResourceStateUnknown : ResourceStates := u32 (Z.lnot 0).

(** Modelled from the spec: the enumerators of [ResourceStates] are
    declared in include/nvrhi/nvrhi.h, which is not among the sources.
    The spec describes them as flags of an opaque bit set; each one is
    given its own bit here.  Only their being pairwise distinct, and
    distinct from the sentinel, is ever used. *)
Module ResourceStates.
Definition Common : ResourceStates := 0x1.
Definition ConstantBuffer : ResourceStates := 0x2.
Definition VertexBuffer : ResourceStates := 0x4.
Definition IndexBuffer : ResourceStates := 0x8.
Definition IndirectArgument : ResourceStates := 0x10.
Definition ShaderResource : ResourceStates := 0x20.
Definition UnorderedAccess : ResourceStates := 0x40.
Definition RenderTarget : ResourceStates := 0x80.
Definition DepthWrite : ResourceStates := 0x100.
Definition DepthRead : ResourceStates := 0x200.
Definition CopyDest : ResourceStates := 0x800.
Definition CopySource : ResourceStates := 0x1000.
Definition AccelStructRead : ResourceStates := 0x10000.
End ResourceStates.

(** ** Descriptors and subresource sets (misc.cpp) *)

Inductive TextureDimension :=
| Texture1D | Texture1DArray | Texture2D | Texture2DArray
| TextureCube | TextureCubeArray | Texture2DMS | Texture2DMSArray
| Texture3D.

(** The dimensions listed by the [case] labels of [resolve] and
    [isEntireTexture]. *)
Definition isArrayDimension (d : TextureDimension) : bool :=
  match d with
  | Texture1DArray | Texture2DArray | TextureCube | TextureCubeArray
  | Texture2DMSArray => true
  | _ => false
  end.

(** The fields of [TextureDesc] that the tracked code reads; all of them
    are [uint32_t]. [hasDepth] and [hasStencil] stand for
    [getFormatInfo(desc.format)]. *)
Record TextureDesc := mkTextureDesc {
  mipLevels : Z;
  arraySize : Z;
  dimension : TextureDimension;
  hasDepth : bool;
  hasStencil : bool;
}.

Record TextureSubresourceSet := mkTextureSubresourceSet {
  baseMipLevel : Z;
  numMipLevels : Z;
  baseArraySlice : Z;
  numArraySlices : Z;
}.

(** [MipLevel(-1)] and [ArraySlice(-1)]: the whole-object wildcards. *)
Definition AllMipLevels : Z := u32 (-1).
Definition AllArraySlices : Z := u32 (-1).
Definition AllSubresources : TextureSubresourceSet :=
  mkTextureSubresourceSet 0 AllMipLevels 0 AllArraySlices.

(** [int last = std::min(base + num, limit);
     ret.num = T(std::max(0u, last - base));]
    The sum is an unsigned sum, the difference of an [int] and an
    unsigned is unsigned. *)
Definition clampCount (base num limit : Z) : Z :=
  let lastPlusOne := to_int (Z.min (u32 (base + num)) limit) in
  u32 (Z.max 0 (u32 (lastPlusOne - base))).

(** [TextureSubresourceSet::resolve] *)
Definition resolve (s : TextureSubresourceSet) (desc : TextureDesc)
    (singleMipLevel : bool) : TextureSubresourceSet :=
  let numMips :=
    if singleMipLevel then 1
    else clampCount (baseMipLevel s) (numMipLevels s) (mipLevels desc) in
  if isArrayDimension (dimension desc) then
    mkTextureSubresourceSet (baseMipLevel s) numMips (baseArraySlice s)
      (clampCount (baseArraySlice s) (numArraySlices s) (arraySize desc))
  else
    mkTextureSubresourceSet (baseMipLevel s) numMips 0 1.

(** [TextureSubresourceSet::isEntireTexture] *)
Definition isEntireTexture (s : TextureSubresourceSet) (desc : TextureDesc)
    : bool :=
  if (0 <? baseMipLevel s)
     || (u32 (baseMipLevel s + numMipLevels s) <? mipLevels desc)
  then false
  else if isArrayDimension (dimension desc)
          && ((0 <? baseArraySlice s)
              || (u32 (baseArraySlice s + numArraySlices s) <? arraySize desc))
  then false
  else true.

Record BufferDesc := mkBufferDesc {
  byteSize : Z;
  isVolatile : bool;
  canHaveUAVs : bool;
  cpuAccessNone : bool;
}.

Record BufferRange := mkBufferRange {
  byteOffset : Z;
  rangeByteSize : Z;
}.

(** [BufferRange::resolve]; both fields are [uint64_t]. *)
Definition BufferRange_resolve (r : BufferRange) (desc : BufferDesc)
    : BufferRange :=
  let off := Z.min (byteOffset r) (byteSize desc) in
  if rangeByteSize r =? 0 then
    mkBufferRange off (u64 (byteSize desc - off))
  else
    mkBufferRange off (Z.min (rangeByteSize r) (u64 (byteSize desc - off))).

(** A subresource set lies inside its texture. *)
Definition withinTexture (s : TextureSubresourceSet) (desc : TextureDesc)
    : Prop :=
  baseMipLevel s + numMipLevels s <= mipLevels desc
  /\ baseArraySlice s + numArraySlices s <= arraySize desc.


(* ------------------------------------------------------------------ *)
(** ** Per-resource state records (d3d12-backend.h) *)

Module TextureState.
Record t := mk {
  subresourceStates : list ResourceStates;
  enableUavBarriers : bool;
  firstUavBarrierPlaced : bool;
  permanentTransition : bool;
}.

(** [TextureState(uint32_t numSubresources)] *)
Definition create (numSubresources : nat) : t :=
  mk (replicate numSubresources c_ResourceStateUnknown) true false false.

Definition setStates (l : list ResourceStates) (s : t) : t :=
  mk l (enableUavBarriers s) (firstUavBarrierPlaced s)
     (permanentTransition s).
Definition setEnableUavBarriers (b : bool) (s : t) : t :=
  mk (subresourceStates s) b (firstUavBarrierPlaced s)
     (permanentTransition s).
Definition setFirstUavBarrierPlaced (b : bool) (s : t) : t :=
  mk (subresourceStates s) (enableUavBarriers s) b (permanentTransition s).
Definition setPermanentTransition (b : bool) (s : t) : t :=
  mk (subresourceStates s) (enableUavBarriers s)
     (firstUavBarrierPlaced s) b.
End TextureState.

Module BufferState.
Record t := mk {
  state : ResourceStates;
  enableUavBarriers : bool;
  firstUavBarrierPlaced : bool;
  volatileData : Z;
  permanentTransition : bool;
}.

Definition create : t := mk c_ResourceStateUnknown true false 0 false.

Definition setState (x : ResourceStates) (s : t) : t :=
  mk x (enableUavBarriers s) (firstUavBarrierPlaced s) (volatileData s)
     (permanentTransition s).
Definition setEnableUavBarriers (b : bool) (s : t) : t :=
  mk (state s) b (firstUavBarrierPlaced s) (volatileData s)
     (permanentTransition s).
Definition setFirstUavBarrierPlaced (b : bool) (s : t) : t :=
  mk (state s) (enableUavBarriers s) b (volatileData s)
     (permanentTransition s).
Definition setPermanentTransition (b : bool) (s : t) : t :=
  mk (state s) (enableUavBarriers s) (firstUavBarrierPlaced s)
     (volatileData s) b.
End BufferState.

(** A texture (resp. buffer) object: its descriptor and the state record
    it owns. *)
Record Texture := mkTexture {
  desc : TextureDesc;
  textureState : TextureState.t;
}.

Record Buffer := mkBuffer {
  bufferDesc : BufferDesc;
  bufferState : BufferState.t;
}.

(** ** Pending transition records

    The fields are those [commitBarriersInternal] reads from a
    [TextureBarrier] and a [BufferBarrier]: a texture record names either
    the entire texture or one (mip level, array slice). *)

Module TextureBarrier.
Record t := mk {
  texture : Handle;
  mipLevel : Z;
  arraySlice : Z;
  entireTexture : bool;
  stateBefore : ResourceStates;
  stateAfter : ResourceStates;
}.
End TextureBarrier.

Module BufferBarrier.
Record t := mk {
  buffer : Handle;
  stateBefore : ResourceStates;
  stateAfter : ResourceStates;
}.
End BufferBarrier.

(** Modelled from the spec: the diagnostics handed to the message
    callback (the callback type is declared in include/nvrhi/nvrhi.h,
    not among the sources): "PreconditionViolation -- out-of-range
    subresource index [...] surfaced as a diagnostic callback". *)
Inductive Message :=
| PreconditionViolation (resource : Handle).

(* ------------------------------------------------------------------ *)
(** ** The state tracker *)

(** Modelled from the spec: [CommandListResourceStateTracker] is declared
    in src/common/state-tracking.h, not among the sources; the two
    pending lists are the ones [getTextureBarriers()] and
    [getBufferBarriers()] return in vulkan-state-tracking.cpp.  The
    record holds the tracker of one recording together with the resource
    objects its requests reach: "the Subresource State Store is shared,
    mutable state owned by the resource object", so every reference to a
    resource sees one state record. *)
Record StateTracker := mkStateTracker {
  textures : gmap Handle Texture;
  buffers : gmap Handle Buffer;
  m_TextureBarriers : list TextureBarrier.t;
  m_BufferBarriers : list BufferBarrier.t;
  m_Messages : list Message;
}.

Definition setTextures (m : gmap Handle Texture) (t : StateTracker) :=
  mkStateTracker m (buffers t) (m_TextureBarriers t) (m_BufferBarriers t)
    (m_Messages t).
Definition setBuffers (m : gmap Handle Buffer) (t : StateTracker) :=
  mkStateTracker (textures t) m (m_TextureBarriers t) (m_BufferBarriers t)
    (m_Messages t).
Definition pushTextureBarriers (l : list TextureBarrier.t) (t : StateTracker) :=
  mkStateTracker (textures t) (buffers t) (m_TextureBarriers t ++ l)
    (m_BufferBarriers t) (m_Messages t).
Definition pushBufferBarriers (l : list BufferBarrier.t) (t : StateTracker) :=
  mkStateTracker (textures t) (buffers t) (m_TextureBarriers t)
    (m_BufferBarriers t ++ l) (m_Messages t).
Definition pushMessage (m : Message) (t : StateTracker) :=
  mkStateTracker (textures t) (buffers t) (m_TextureBarriers t)
    (m_BufferBarriers t) (m_Messages t ++ [m]).

(** Modelled from the spec: the flat index of a subresource in
    [subresourceStates] (the tracker's indexing code is in
    src/common/state-tracking.cpp, which is not among the sources):
    "flat array indexed by mipLevel * arraySliceCount + arraySlice". *)
Definition subresourceIndex (d : TextureDesc) (mip slice : Z) : nat :=
  Z.to_nat (mip * arraySize d + slice).

(** Modelled from the spec: the walk of [requireTextureState] over a
    resolved set (src/common/state-tracking.cpp, not among the sources):
    "resolves subresourceSet [...] into a concrete list of subresource
    indices"; the (mip level, array slice) pairs come in index order. *)
Definition subresourcesOf (s : TextureSubresourceSet) : list (Z * Z) :=
  m ← seqZ (baseMipLevel s) (numMipLevels s);
  a ← seqZ (baseArraySlice s) (numArraySlices s);
  [(m, a)].

(** Modelled from the spec: the bounds check of the tracker
    (src/common/state-tracking.cpp, not among the sources): "requiring a
    state on a subresource index outside the resource's descriptor bounds
    is a programmer error". *)
Definition withinTextureb (s : TextureSubresourceSet) (d : TextureDesc)
    : bool :=
  (baseMipLevel s + numMipLevels s <=? mipLevels d)
  && (baseArraySlice s + numArraySlices s <=? arraySize d).

(** Modelled from the spec: a transition decided for one subresource
    before coalescing (src/common/state-tracking.cpp, not among the
    sources): where, "stateBefore", "stateAfter". *)
Record SubresourceTransition := mkSubresourceTransition {
  st_mipLevel : Z;
  st_arraySlice : Z;
  st_before : ResourceStates;
  st_after : ResourceStates;
}.

(** Modelled from the spec: the per-subresource decision of
    [requireTextureState] (CommandListResourceStateTracker, in
    src/common/state-tracking.cpp, not among the sources).  "If equal and
    the state is not UnorderedAccess, skip.  If equal and the state is
    UnorderedAccess: if enableUavBarriers and not firstUavBarrierPlaced,
    synthesize a same-state UAV hazard transition and set
    firstUavBarrierPlaced = true; otherwise skip.  If different:
    synthesize a transition {stateBefore = stored, stateAfter =
    desiredState}, update the stored state, and set firstUavBarrierPlaced
    = (desiredState == UnorderedAccess)." *)
Definition requireSubresourceState (d : TextureDesc) (state : ResourceStates)
    (acc : TextureState.t * list SubresourceTransition) (sub : Z * Z)
    : TextureState.t * list SubresourceTransition :=
  let ts := acc.1 in
  let idx := subresourceIndex d sub.1 sub.2 in
  match TextureState.subresourceStates ts !! idx with
  | None => acc
  | Some stored =>
    if decide (stored = state) then
      if decide (state = ResourceStates.UnorderedAccess) then
        if TextureState.enableUavBarriers ts
           && negb (TextureState.firstUavBarrierPlaced ts)
        then (TextureState.setFirstUavBarrierPlaced true ts,
              acc.2 ++ [mkSubresourceTransition sub.1 sub.2 state state])
        else acc
      else acc
    else
      (TextureState.setFirstUavBarrierPlaced
         (bool_decide (state = ResourceStates.UnorderedAccess))
         (TextureState.setStates
            (<[idx := state]> (TextureState.subresourceStates ts)) ts),
       acc.2 ++ [mkSubresourceTransition sub.1 sub.2 stored state])
  end.

(** Modelled from the spec: "otherwise subresources are emitted
    individually" (src/common/state-tracking.cpp, not among the
    sources): the record of one subresource. *)
Definition singleBarrier (h : Handle) (x : SubresourceTransition)
    : TextureBarrier.t :=
  TextureBarrier.mk h (st_mipLevel x) (st_arraySlice x) false
    (st_before x) (st_after x).

(** Modelled from the spec: "the same {stateBefore, stateAfter} pair"
    (src/common/state-tracking.cpp, not among the sources). *)
Definition samePair (x y : SubresourceTransition) : bool :=
  bool_decide (st_before x = st_before y)
  && bool_decide (st_after x = st_after y).

(** Modelled from the spec: the coalescing step of [requireTextureState]
    (src/common/state-tracking.cpp, not among the sources).  "Adjacent
    subresources resolving to the same {stateBefore, stateAfter} pair
    should be coalesced into a single entire range transition when the
    whole resolved range shares that pair; otherwise subresources are
    emitted individually."  The record type is the one
    [commitBarriersInternal] consumes: it has an [entireTexture] flag and
    one (mipLevel, arraySlice) and no range, so the single record stands
    for the resolved range exactly when that range is the entire
    texture. *)
Definition coalesce (h : Handle) (d : TextureDesc)
    (resolved : TextureSubresourceSet) (count : nat)
    (out : list SubresourceTransition) : list TextureBarrier.t :=
  match out with
  | [] => []
  | x :: rest =>
    if forallb (samePair x) rest
       && (length out =? count)%nat
       && isEntireTexture resolved d
    then [TextureBarrier.mk h 0 0 true (st_before x) (st_after x)]
    else singleBarrier h <$> out
  end.

(** Modelled from the spec: [requireTextureState] of the tracker
    (src/common/state-tracking.cpp, not among the sources).  The set is
    resolved against the descriptor; a pinned texture is skipped with no
    diagnostic; a subresource outside the descriptor's bounds is a
    PreconditionViolation reported through the message callback. *)
Definition requireTextureState (h : Handle)
    (subresources : TextureSubresourceSet) (state : ResourceStates)
    (t : StateTracker) : StateTracker :=
  match textures t !! h with
  | None => t
  | Some tex =>
    if TextureState.permanentTransition (textureState tex) then t
    else
      let r := resolve subresources (desc tex) false in
      if negb (withinTextureb r (desc tex)) then
        pushMessage (PreconditionViolation h) t
      else
        let subs := subresourcesOf r in
        let res :=
          foldl (requireSubresourceState (desc tex) state)
                (textureState tex, []) subs in
        pushTextureBarriers (coalesce h (desc tex) r (length subs) res.2)
          (setTextures (<[h := mkTexture (desc tex) res.1]> (textures t)) t)
  end.

(** Modelled from the spec: [requireBufferState] of the tracker
    (src/common/state-tracking.cpp, not among the sources): "same logic,
    scalar (no subresources)". *)
Definition requireBufferState (h : Handle) (state : ResourceStates)
    (t : StateTracker) : StateTracker :=
  match buffers t !! h with
  | None => t
  | Some buf =>
    let bs := bufferState buf in
    if BufferState.permanentTransition bs then t
    else if decide (BufferState.state bs = state) then
      if decide (state = ResourceStates.UnorderedAccess) then
        if BufferState.enableUavBarriers bs
           && negb (BufferState.firstUavBarrierPlaced bs)
        then
          pushBufferBarriers [BufferBarrier.mk h state state]
            (setBuffers
               (<[h := mkBuffer (bufferDesc buf)
                         (BufferState.setFirstUavBarrierPlaced true bs)]>
                  (buffers t)) t)
        else t
      else t
    else
      pushBufferBarriers [BufferBarrier.mk h (BufferState.state bs) state]
        (setBuffers
           (<[h := mkBuffer (bufferDesc buf)
                     (BufferState.setFirstUavBarrierPlaced
                        (bool_decide (state = ResourceStates.UnorderedAccess))
                        (BufferState.setState state bs))]>
              (buffers t)) t)
  end.

(** Modelled from the spec: the forced transition of one subresource by
    [setPermanentTextureState] (src/common/state-tracking.cpp, not among
    the sources): "from the current stored state to stateBits (if
    different)". *)
Definition forceSubresourceState (d : TextureDesc) (state : ResourceStates)
    (acc : TextureState.t * list SubresourceTransition) (sub : Z * Z)
    : TextureState.t * list SubresourceTransition :=
  let ts := acc.1 in
  let idx := subresourceIndex d sub.1 sub.2 in
  match TextureState.subresourceStates ts !! idx with
  | None => acc
  | Some stored =>
    if decide (stored = state) then acc
    else
      (TextureState.setStates
         (<[idx := state]> (TextureState.subresourceStates ts)) ts,
       acc.2 ++ [mkSubresourceTransition sub.1 sub.2 stored state])
  end.

(** Modelled from the spec: [setPermanentTextureState] of the tracker
    (src/common/state-tracking.cpp, not among the sources): "force one
    final transition from the current stored state to stateBits (if
    different), mark permanentTransition = true". *)
Definition setPermanentTextureState (h : Handle)
    (subresources : TextureSubresourceSet) (state : ResourceStates)
    (t : StateTracker) : StateTracker :=
  match textures t !! h with
  | None => t
  | Some tex =>
    let r := resolve subresources (desc tex) false in
    if negb (withinTextureb r (desc tex)) then
      pushMessage (PreconditionViolation h) t
    else
      let subs := subresourcesOf r in
      let res :=
        foldl (forceSubresourceState (desc tex) state)
              (textureState tex, []) subs in
      pushTextureBarriers (coalesce h (desc tex) r (length subs) res.2)
        (setTextures
           (<[h := mkTexture (desc tex)
                     (TextureState.setPermanentTransition true res.1)]>
              (textures t)) t)
  end.

(** Modelled from the spec: [setPermanentBufferState] of the tracker
    (src/common/state-tracking.cpp, not among the sources). *)
Definition setPermanentBufferState (h : Handle)
    (state : ResourceStates) (t : StateTracker) : StateTracker :=
  match buffers t !! h with
  | None => t
  | Some buf =>
    let bs := bufferState buf in
    let pinned :=
      mkBuffer (bufferDesc buf)
        (BufferState.setPermanentTransition true
           (BufferState.setState state bs)) in
    let t' := setBuffers (<[h := pinned]> (buffers t)) t in
    if decide (BufferState.state bs = state) then t'
    else pushBufferBarriers [BufferBarrier.mk h (BufferState.state bs) state] t'
  end.

(** Modelled from the spec: [clearBarriers] of the tracker
    (src/common/state-tracking.cpp, not among the sources): "discards the
    pending-transition list without emitting anything". *)
Definition clearBarriers (t : StateTracker) : StateTracker :=
  mkStateTracker (textures t) (buffers t) [] [] (m_Messages t).

(** Modelled from the spec: the getters of the tracker
    (src/common/state-tracking.cpp, not among the sources):
    "getState(resource, subresourceIndex) -> state value". *)
Definition getTextureSubresourceState (h : Handle)
    (arraySlice mipLevel : Z) (t : StateTracker) : ResourceStates :=
  match textures t !! h with
  | None => c_ResourceStateUnknown
  | Some tex =>
    default c_ResourceStateUnknown
      (TextureState.subresourceStates (textureState tex)
         !! subresourceIndex (desc tex) mipLevel arraySlice)
  end.

(** Modelled from the spec: [getBufferState] of the tracker
    (src/common/state-tracking.cpp, not among the sources): the scalar
    state of a buffer. *)
Definition getBufferState (h : Handle) (t : StateTracker)
    : ResourceStates :=
  match buffers t !! h with
  | None => c_ResourceStateUnknown
  | Some buf => BufferState.state (bufferState buf)
  end.

(** Modelled from the spec: the store's "setState(resource, range,
    value)" (src/common/state-tracking.cpp, not among the sources): every
    subresource of the list is set to [state]. *)
Definition seedStates (d : TextureDesc) (state : ResourceStates)
    (l : list ResourceStates) (subs : list (Z * Z)) : list ResourceStates :=
  foldl (fun l sub => <[subresourceIndex d sub.1 sub.2 := state]> l) l subs.

(** Modelled from the spec: [beginTrackingTextureState] of the tracker
    (src/common/state-tracking.cpp, not among the sources): "seeds the
    stored state without emitting a transition". *)
Definition beginTrackingTextureState (h : Handle)
    (subresources : TextureSubresourceSet) (state : ResourceStates)
    (t : StateTracker) : StateTracker :=
  match textures t !! h with
  | None => t
  | Some tex =>
    let r := resolve subresources (desc tex) false in
    if negb (withinTextureb r (desc tex)) then
      pushMessage (PreconditionViolation h) t
    else
      let seeded :=
        seedStates (desc tex) state
          (TextureState.subresourceStates (textureState tex))
          (subresourcesOf r) in
      setTextures
        (<[h := mkTexture (desc tex)
                  (TextureState.setStates seeded (textureState tex))]>
           (textures t)) t
  end.

(** Modelled from the spec: [beginTrackingBufferState] of the tracker
    (src/common/state-tracking.cpp, not among the sources): the "buffer
    equivalent" of [beginTrackingTextureState]. *)
Definition beginTrackingBufferState (h : Handle)
    (state : ResourceStates) (t : StateTracker) : StateTracker :=
  match buffers t !! h with
  | None => t
  | Some buf =>
    setBuffers
      (<[h := mkBuffer (bufferDesc buf)
                (BufferState.setState state (bufferState buf))]>
         (buffers t)) t
  end.

(** ** Well-formed resources and ranges *)

(** The record of a texture has one entry per subresource of its
    descriptor ("resizing occurs only at resource creation, matching
    descriptor dimensions"), and the descriptor has at least one mip
    level and one array slice. *)
Definition wellFormedTexture (tex : Texture) : Prop :=
  0 < mipLevels (desc tex) < 2 ^ 32
  /\ 0 < arraySize (desc tex) < 2 ^ 32
  /\ length (TextureState.subresourceStates (textureState tex))
     = Z.to_nat (mipLevels (desc tex) * arraySize (desc tex)).

(** A resolved set whose bases and counts are unsigned and that lies
    inside the texture. *)
Definition resolvedInBounds (r : TextureSubresourceSet) (d : TextureDesc)
    : Prop :=
  0 <= baseMipLevel r /\ 0 <= numMipLevels r
  /\ 0 <= baseArraySlice r /\ 0 <= numArraySlices r
  /\ withinTexture r d.

(** Subresource (arraySlice, mipLevel) belongs to the set. *)
Definition contains (r : TextureSubresourceSet) (arraySlice mipLevel : Z)
    : Prop :=
  baseMipLevel r <= mipLevel < baseMipLevel r + numMipLevels r
  /\ baseArraySlice r <= arraySlice < baseArraySlice r + numArraySlices r.

(** Every subresource of the texture is recorded in state [s]. *)
Definition allSubresourcesIn (s : ResourceStates) (tex : Texture) : Prop :=
  forall i x,
    TextureState.subresourceStates (textureState tex) !! i = Some x -> x = s.

(** The tracker after [firstUavBarrierPlaced] of texture [h] has been
    set to [placed] (the flag "was reset" when [placed] is [false]). *)
Definition withFirstUavBarrierPlaced (h : Handle) (placed : bool)
    (t : StateTracker) : StateTracker :=
  match textures t !! h with
  | None => t
  | Some tex =>
    setTextures
      (<[h := mkTexture (desc tex)
                (TextureState.setFirstUavBarrierPlaced placed
                   (textureState tex))]> (textures t)) t
  end.

(** Texture [h], of descriptor [d], is pinned and every subresource that
    [AllSubresources] resolves to is recorded in state [P]. *)
Definition texturePinnedAt (h : Handle) (d : TextureDesc)
    (P : ResourceStates) (t : StateTracker) : Prop :=
  exists tex,
    textures t !! h = Some tex
    /\ desc tex = d
    /\ TextureState.permanentTransition (textureState tex) = true
    /\ forall arraySlice mipLevel,
         contains (resolve AllSubresources d false) arraySlice mipLevel ->
         TextureState.subresourceStates (textureState tex)
           !! subresourceIndex d mipLevel arraySlice = Some P.

(** Buffer [h] is pinned and recorded in state [P]. *)
Definition bufferPinnedAt (h : Handle) (P : ResourceStates)
    (t : StateTracker) : Prop :=
  exists buf,
    buffers t !! h = Some buf
    /\ BufferState.permanentTransition (bufferState buf) = true
    /\ BufferState.state (bufferState buf) = P.

(** The stored state records and the messages of [t'] are those of
    [t]. *)
Definition sameStoredStates (t t' : StateTracker) : Prop :=
  textures t' = textures t /\ buffers t' = buffers t
  /\ m_Messages t' = m_Messages t.

(** No transition is waiting to be committed. *)
Definition nothingPending (t : StateTracker) : Prop :=
  m_TextureBarriers t = [] /\ m_BufferBarriers t = [].

(* ------------------------------------------------------------------ *)
(** ** Binding sets *)

Inductive ResourceType :=
| None_ | Texture_SRV | Texture_UAV
| TypedBuffer_SRV | TypedBuffer_UAV
| StructuredBuffer_SRV | StructuredBuffer_UAV
| RawBuffer_SRV | RawBuffer_UAV
| ConstantBuffer | VolatileConstantBuffer | Sampler
| RayTracingAccelStruct | PushConstants.

Record BindingSetItem := mkBindingSetItem {
  type : ResourceType;
  resourceHandle : Handle;
  subresources : TextureSubresourceSet;
}.

(** What an [IBindingSet*] points to: a [BindingSet] with its descriptor,
    or a descriptor table, whose [getDesc()] is [nullptr] (bindless). *)
Inductive IBindingSet :=
| BindingSet (bindings : list BindingSetItem) (hasUavBindings : bool)
    (bindingsThatNeedTransitions : list nat)
| DescriptorTable.

(** A non-null [IBindingSet*]: the address, which [!=] compares, and the
    object behind it. *)
Record IBindingSetPtr := mkIBindingSetPtr {
  address : Handle;
  pointee : IBindingSet;
}.

Definition BindingSetVector := list IBindingSetPtr.

(** Modelled from the spec: [arrayDifferenceMask] is declared in
    include/nvrhi/common/misc.h, which is not among the sources: "a
    bitmask comparison (one bit per binding slot) determines exactly
    which binding slots changed since the previous call".  A slot that
    only one of the two vectors has counts as changed. *)
Definition arrayDifferenceMask (a b : BindingSetVector) : Z :=
  foldr (fun i mask =>
           if decide (address <$> a !! i = address <$> b !! i) then mask
           else Z.lor (u32 (Z.shiftl 1 (Z.of_nat i))) mask)
        0 (seq 0 (Nat.max (length a) (length b))).

(* ------------------------------------------------------------------ *)
(** ** The Vulkan command list (vulkan-state-tracking.cpp,
       vulkan-staging-texture.cpp) *)

Module vulkan.

(** The native (stage mask, access mask, image layout) triple that
    [convertResourceState] looks up for a state.  The table is in
    src/vulkan/vulkan-resource.cpp, not among the sources; a mapping
    is represented by the key it was looked up with. *)
Inductive ResourceStateMapping :=
| convertResourceState (state : ResourceStates) (isImage : bool).

(** [vk::ImageAspectFlagBits] *)
Definition eColor : Z := 0x1.
Definition eDepth : Z := 0x2.
Definition eStencil : Z := 0x4.

Record ImageSubresourceRange := mkImageSubresourceRange {
  aspectMask : Z;
  rangeBaseMipLevel : Z;
  levelCount : Z;
  baseArrayLayer : Z;
  layerCount : Z;
}.

(** [before] stands for the source access mask, source stage mask and old
    layout, [after] for the destination ones. *)
Record ImageMemoryBarrier2 := mkImageMemoryBarrier2 {
  imageBefore : ResourceStateMapping;
  imageAfter : ResourceStateMapping;
  image : Handle;
  subresourceRange : ImageSubresourceRange;
}.

Record BufferMemoryBarrier2 := mkBufferMemoryBarrier2 {
  bufferBefore : ResourceStateMapping;
  bufferAfter : ResourceStateMapping;
  nativeBuffer : Handle;
  offset : Z;
  size : Z;
}.

Record DependencyInfo := mkDependencyInfo {
  imageMemoryBarriers : list ImageMemoryBarrier2;
  bufferMemoryBarriers : list BufferMemoryBarrier2;
}.

(** The commands recorded into the native command buffer.  The copy
    regions play no part in state tracking; a copy keeps the image, the
    buffer and the subresource it touches. *)
Inductive Command :=
| endRendering
| pipelineBarrier2 (dep : DependencyInfo)
| copyImageToBuffer (srcImage dstBuffer : Handle) (mipLevel arraySlice : Z)
| copyBufferToImage (srcBuffer dstImage : Handle) (mipLevel arraySlice : Z).

Record ComputeState := mkComputeState {
  bindings : BindingSetVector;
  indirectParams : option Handle;
}.

Record rt_State := mk_rt_State {
  rt_bindings : BindingSetVector;
}.

(** The command list while it is open ([m_CurrentCmdBuf] is set, as
    [copyTexture] asserts).  [accelStructs] gives the [dataBuffer] of
    each acceleration structure. *)
Record CommandList := mkCommandList {
  m_StateTracker : StateTracker;
  m_EnableAutomaticBarriers : bool;
  m_BindingStatesDirty : bool;
  m_CurrentComputeState : ComputeState;
  m_CurrentRayTracingState : rt_State;
  accelStructs : gmap Handle Handle;
  renderPassActive : bool;
  cmdBuf : list Command;
  referencedResources : list Handle;
  referencedStagingBuffers : list Handle;
}.

Definition onTracker (f : StateTracker -> StateTracker) (cl : CommandList)
    : CommandList :=
  mkCommandList (f (m_StateTracker cl)) (m_EnableAutomaticBarriers cl)
    (m_BindingStatesDirty cl) (m_CurrentComputeState cl)
    (m_CurrentRayTracingState cl) (accelStructs cl) (renderPassActive cl)
    (cmdBuf cl) (referencedResources cl) (referencedStagingBuffers cl).

Definition record (c : Command) (cl : CommandList) : CommandList :=
  mkCommandList (m_StateTracker cl) (m_EnableAutomaticBarriers cl)
    (m_BindingStatesDirty cl) (m_CurrentComputeState cl)
    (m_CurrentRayTracingState cl) (accelStructs cl) (renderPassActive cl)
    (cmdBuf cl ++ [c]) (referencedResources cl) (referencedStagingBuffers cl).

Definition reference (h : Handle) (cl : CommandList) : CommandList :=
  mkCommandList (m_StateTracker cl) (m_EnableAutomaticBarriers cl)
    (m_BindingStatesDirty cl) (m_CurrentComputeState cl)
    (m_CurrentRayTracingState cl) (accelStructs cl) (renderPassActive cl)
    (cmdBuf cl) (referencedResources cl ++ [h]) (referencedStagingBuffers cl).

Definition referenceStagingBuffer (h : Handle) (cl : CommandList)
    : CommandList :=
  mkCommandList (m_StateTracker cl) (m_EnableAutomaticBarriers cl)
    (m_BindingStatesDirty cl) (m_CurrentComputeState cl)
    (m_CurrentRayTracingState cl) (accelStructs cl) (renderPassActive cl)
    (cmdBuf cl) (referencedResources cl) (referencedStagingBuffers cl ++ [h]).

Definition setBindingStatesDirty (b : bool) (cl : CommandList) : CommandList :=
  mkCommandList (m_StateTracker cl) (m_EnableAutomaticBarriers cl) b
    (m_CurrentComputeState cl) (m_CurrentRayTracingState cl)
    (accelStructs cl) (renderPassActive cl) (cmdBuf cl)
    (referencedResources cl) (referencedStagingBuffers cl).

Definition setRenderPassActive (b : bool) (cl : CommandList) : CommandList :=
  mkCommandList (m_StateTracker cl) (m_EnableAutomaticBarriers cl)
    (m_BindingStatesDirty cl) (m_CurrentComputeState cl)
    (m_CurrentRayTracingState cl) (accelStructs cl) b (cmdBuf cl)
    (referencedResources cl) (referencedStagingBuffers cl).

(** [CommandList::setEnableAutomaticBarriers] *)
Definition setEnableAutomaticBarriers (enable : bool) (cl : CommandList)
    : CommandList :=
  mkCommandList (m_StateTracker cl) enable (m_BindingStatesDirty cl)
    (m_CurrentComputeState cl) (m_CurrentRayTracingState cl)
    (accelStructs cl) (renderPassActive cl) (cmdBuf cl)
    (referencedResources cl) (referencedStagingBuffers cl).

(** [CommandList::requireTextureState], [CommandList::requireBufferState] *)
Definition requireTextureState (texture : Handle)
    (subresources : TextureSubresourceSet) (state : ResourceStates)
    (cl : CommandList) : CommandList :=
  onTracker (requireTextureState texture subresources state) cl.

Definition requireBufferState (buffer : Handle) (state : ResourceStates)
    (cl : CommandList) : CommandList :=
  onTracker (requireBufferState buffer state) cl.

(** One iteration of the loop of [setResourceStatesForBindingSet]: the
    [switch] over [binding.type].  The [RayTracingAccelStruct] case has no
    [break] and falls into the empty [default]. *)
Definition setResourceStatesForBinding (binding : BindingSetItem)
    (cl : CommandList) : CommandList :=
  match type binding with
  | Texture_SRV =>
    requireTextureState (resourceHandle binding) (subresources binding)
      ResourceStates.ShaderResource cl
  | Texture_UAV =>
    requireTextureState (resourceHandle binding) (subresources binding)
      ResourceStates.UnorderedAccess cl
  | TypedBuffer_SRV | StructuredBuffer_SRV | RawBuffer_SRV =>
    requireBufferState (resourceHandle binding)
      ResourceStates.ShaderResource cl
  | TypedBuffer_UAV | StructuredBuffer_UAV | RawBuffer_UAV =>
    requireBufferState (resourceHandle binding)
      ResourceStates.UnorderedAccess cl
  | ConstantBuffer =>
    requireBufferState (resourceHandle binding)
      ResourceStates.ConstantBuffer cl
  | RayTracingAccelStruct =>
    match accelStructs cl !! resourceHandle binding with
    | Some dataBuffer =>
      requireBufferState dataBuffer ResourceStates.AccelStructRead cl
    | None => cl
    end
  | _ => cl
  end.

(** [CommandList::setResourceStatesForBindingSet]; [None] is [nullptr]. *)
Definition setResourceStatesForBindingSet (bindingSet : option IBindingSet)
    (cl : CommandList) : CommandList :=
  match bindingSet with
  | None => cl
  | Some DescriptorTable => cl
  | Some (BindingSet bindings _ needTransitions) =>
    foldl (fun cl bindingIndex =>
             match bindings !! bindingIndex with
             | Some binding => setResourceStatesForBinding binding cl
             | None => cl
             end)
          cl needTransitions
  end.

(** The binding sets that the loop of
    [insertResourceBarriersForBindingSets] passes to
    [setResourceStatesForBindingSet], in order, for a given mask.  A
    binding set vector holds at most 32 sets, one per bit of the mask. *)
Fixpoint bindingSetsToUpdateFrom (i : Z) (bindingUpdateMask : Z)
    (newBindings : BindingSetVector) : list IBindingSetPtr :=
  match newBindings with
  | [] => []
  | p :: rest =>
    let tail := bindingSetsToUpdateFrom (i + 1) bindingUpdateMask rest in
    match pointee p with
    | DescriptorTable => tail
    | BindingSet _ hasUavBindings _ =>
      let updateThisSet :=
        negb (Z.land bindingUpdateMask (u32 (Z.shiftl 1 i)) =? 0) in
      if updateThisSet || hasUavBindings then p :: tail else tail
    end
  end.

(** The sets re-submitted by [insertResourceBarriersForBindingSets]: the
    mask is all ones when the binding states are dirty, else the
    difference mask; nothing is submitted when the mask is zero. *)
Definition bindingSetsToUpdate (dirty : bool)
    (newBindings oldBindings : BindingSetVector) : list IBindingSetPtr :=
  let bindingUpdateMask := if dirty then u32 (Z.lnot 0) else 0 in
  let bindingUpdateMask :=
    if bindingUpdateMask =? 0
    then arrayDifferenceMask newBindings oldBindings
    else bindingUpdateMask in
  if negb (bindingUpdateMask =? 0)
  then bindingSetsToUpdateFrom 0 bindingUpdateMask newBindings
  else [].

(** [CommandList::insertResourceBarriersForBindingSets] *)
Definition insertResourceBarriersForBindingSets
    (newBindings oldBindings : BindingSetVector) (cl : CommandList)
    : CommandList :=
  foldl (fun cl p => setResourceStatesForBindingSet (Some (pointee p)) cl)
        cl
        (bindingSetsToUpdate (m_BindingStatesDirty cl) newBindings oldBindings).

(** [CommandList::insertComputeResourceBarriers] *)
Definition insertComputeResourceBarriers (state : ComputeState)
    (cl : CommandList) : CommandList :=
  let cl1 :=
    insertResourceBarriersForBindingSets (bindings state)
      (bindings (m_CurrentComputeState cl)) cl in
  let cl2 :=
    match indirectParams state with
    | Some b =>
      if m_BindingStatesDirty cl1
         || negb (bool_decide
                    (indirectParams state
                     = indirectParams (m_CurrentComputeState cl1)))
      then requireBufferState b ResourceStates.IndirectArgument cl1
      else cl1
    | None => cl1
    end in
  setBindingStatesDirty false cl2.

(** [CommandList::insertRayTracingResourceBarriers] *)
Definition insertRayTracingResourceBarriers (state : rt_State)
    (cl : CommandList) : CommandList :=
  setBindingStatesDirty false
    (insertResourceBarriersForBindingSets (rt_bindings state)
       (rt_bindings (m_CurrentRayTracingState cl)) cl).

(** [CommandList::anyBarriers] *)
Definition anyBarriers (cl : CommandList) : bool :=
  negb (bool_decide (m_BufferBarriers (m_StateTracker cl) = []))
  || negb (bool_decide (m_TextureBarriers (m_StateTracker cl) = [])).

(** The image barrier built in the first loop of
    [commitBarriersInternal].  The [assert] on the new layout has no
    effect on what is recorded. *)
Definition imageBarrierOf (t : StateTracker) (barrier : TextureBarrier.t)
    : ImageMemoryBarrier2 :=
  let before := convertResourceState (TextureBarrier.stateBefore barrier) true in
  let after := convertResourceState (TextureBarrier.stateAfter barrier) true in
  let d := desc <$> textures t !! TextureBarrier.texture barrier in
  let aspect := 0 in
  let aspect := if default false (hasDepth <$> d) then Z.lor aspect eDepth else aspect in
  let aspect := if default false (hasStencil <$> d) then Z.lor aspect eStencil else aspect in
  let aspect := if aspect =? 0 then eColor else aspect in
  let entire := TextureBarrier.entireTexture barrier in
  mkImageMemoryBarrier2 before after (TextureBarrier.texture barrier)
    (mkImageSubresourceRange aspect
       (if entire then 0 else TextureBarrier.mipLevel barrier)
       (if entire then default 0 (mipLevels <$> d) else 1)
       (if entire then 0 else TextureBarrier.arraySlice barrier)
       (if entire then default 0 (arraySize <$> d) else 1)).

(** The buffer barrier built in the second loop. *)
Definition bufferBarrierOf (t : StateTracker) (barrier : BufferBarrier.t)
    : BufferMemoryBarrier2 :=
  mkBufferMemoryBarrier2
    (convertResourceState (BufferBarrier.stateBefore barrier) false)
    (convertResourceState (BufferBarrier.stateAfter barrier) false)
    (BufferBarrier.buffer barrier) 0
    (default 0
       (byteSize <$> (bufferDesc <$> buffers t !! BufferBarrier.buffer barrier))).

(** [CommandList::commitBarriersInternal] *)
Definition commitBarriersInternal (cl : CommandList) : CommandList :=
  let t := m_StateTracker cl in
  let imageBarriers := imageBarrierOf t <$> m_TextureBarriers t in
  let cl1 :=
    if negb (bool_decide (imageBarriers = []))
    then record (pipelineBarrier2 (mkDependencyInfo imageBarriers [])) cl
    else cl in
  let bufferBarriers := bufferBarrierOf t <$> m_BufferBarriers t in
  let cl2 :=
    if negb (bool_decide (bufferBarriers = []))
    then record (pipelineBarrier2 (mkDependencyInfo [] bufferBarriers)) cl1
    else cl1 in
  onTracker clearBarriers cl2.

(** Modelled from the spec: [endRenderPass] is defined in
    src/vulkan/vulkan-graphics.cpp, not among the sources: "any in-flight
    rendering pass construct must be ended first". *)
Definition endRenderPass (cl : CommandList) : CommandList :=
  if renderPassActive cl
  then setRenderPassActive false (record endRendering cl)
  else cl.

(** [CommandList::commitBarriers] *)
Definition commitBarriers (cl : CommandList) : CommandList :=
  if bool_decide (m_BufferBarriers (m_StateTracker cl) = [])
     && bool_decide (m_TextureBarriers (m_StateTracker cl) = [])
  then cl
  else commitBarriersInternal (endRenderPass cl).

(** [CommandList::setPermanentTextureState],
    [CommandList::setPermanentBufferState] *)
Definition setPermanentTextureState (texture : Handle)
    (stateBits : ResourceStates) (cl : CommandList) : CommandList :=
  reference texture
    (onTracker
       (setPermanentTextureState texture AllSubresources stateBits) cl).

Definition setPermanentBufferState (buffer : Handle)
    (stateBits : ResourceStates) (cl : CommandList) : CommandList :=
  reference buffer
    (onTracker (setPermanentBufferState buffer stateBits) cl).

(** [CommandList::getTextureSubresourceState],
    [CommandList::getBufferState] *)
Definition getTextureSubresourceState (texture : Handle)
    (arraySlice mipLevel : Z) (cl : CommandList) : ResourceStates :=
  getTextureSubresourceState texture arraySlice mipLevel
    (m_StateTracker cl).

Definition getBufferState (buffer : Handle) (cl : CommandList)
    : ResourceStates :=
  getBufferState buffer (m_StateTracker cl).

(** A staging texture and the buffer that backs it. *)
Record StagingTexture := mkStagingTexture {
  stagingAddress : Handle;
  buffer : Handle;
}.

(** The part of a [TextureSlice] that selects the subresource. *)
Record TextureSlice := mkTextureSlice {
  mipLevel : Z;
  arraySlice : Z;
}.

(** [CommandList::copyTexture(IStagingTexture* dst, ..., ITexture* src, ...)];
    [TextureSlice::resolve] leaves [mipLevel] and [arraySlice] as they
    are. *)
Definition copyTextureToStaging (dst : StagingTexture) (dstSlice : TextureSlice)
    (src : Handle) (srcSlice : TextureSlice) (cl : CommandList)
    : CommandList :=
  let srcSubresource :=
    mkTextureSubresourceSet (mipLevel srcSlice) 1 (arraySlice srcSlice) 1 in
  let cl1 :=
    if m_EnableAutomaticBarriers cl
    then requireTextureState src srcSubresource ResourceStates.CopySource
           (requireBufferState (buffer dst) ResourceStates.CopyDest cl)
    else cl in
  let cl2 := commitBarriers cl1 in
  let cl3 :=
    referenceStagingBuffer (buffer dst)
      (reference (stagingAddress dst) (reference src cl2)) in
  record (copyImageToBuffer src (buffer dst) (mipLevel srcSlice)
            (arraySlice srcSlice)) cl3.

(** [CommandList::copyTexture(ITexture* dst, ..., IStagingTexture* src, ...)] *)
Definition copyTextureFromStaging (dst : Handle) (dstSlice : TextureSlice)
    (src : StagingTexture) (srcSlice : TextureSlice) (cl : CommandList)
    : CommandList :=
  let dstSubresource :=
    mkTextureSubresourceSet (mipLevel dstSlice) 1 (arraySlice dstSlice) 1 in
  let cl1 :=
    if m_EnableAutomaticBarriers cl
    then requireTextureState dst dstSubresource ResourceStates.CopyDest
           (requireBufferState (buffer src) ResourceStates.CopySource cl)
    else cl in
  let cl2 := commitBarriers cl1 in
  let cl3 :=
    referenceStagingBuffer (buffer src)
      (reference dst (reference (stagingAddress src) cl2)) in
  record (copyBufferToImage (buffer src) dst (mipLevel dstSlice)
            (arraySlice dstSlice)) cl3.

(** The calls a client may make between two points of a recording, as
    far as state tracking goes. *)
Inductive Request :=
| RequireTextureState (texture : Handle) (subresources : TextureSubresourceSet)
    (state : ResourceStates)
| RequireBufferState (buffer : Handle) (state : ResourceStates)
| CommitBarriers.

Definition perform (cl : CommandList) (r : Request) : CommandList :=
  match r with
  | RequireTextureState texture subresources state =>
    requireTextureState texture subresources state cl
  | RequireBufferState buffer state => requireBufferState buffer state cl
  | CommitBarriers => commitBarriers cl
  end.

End vulkan.

(* ------------------------------------------------------------------ *)
(** ** The D3D12 command list (d3d12-buffer.cpp) *)

Module d3d12.

(** Modelled from the spec: the native barrier description that the
    D3D12 [commitBarriers] (src/d3d12/d3d12-state-tracking.cpp, not among
    the sources) builds: "every TransitionRecord is translated into
    exactly one native barrier description". *)
Inductive D3D12_RESOURCE_BARRIER :=
| textureBarrier (b : TextureBarrier.t)
| bufferBarrier (b : BufferBarrier.t).

(** The commands recorded into [m_ActiveCommandList->commandList]. *)
Inductive Command :=
| ResourceBarrier (barriers : list D3D12_RESOURCE_BARRIER)
| SetDescriptorHeaps
| CopyBufferRegion (dst : Handle) (dstOffset : Z) (src : Handle)
    (srcOffset : Z) (numBytes : Z)
| ClearUnorderedAccessViewUint (resource : Handle) (value : Z).

(** The messages passed to [m_Context.error]. *)
Inductive Error :=
| CouldNotSuballocate
| CannotClearBuffer (b : Handle).

(** What [m_UploadManager.suballocateBuffer] hands back on success. *)
Record UploadAllocation := mkUploadAllocation {
  uploadBuffer : Handle;
  offsetInUploadBuffer : Z;
  gpuVA : Z;
}.

Record CommandList := mkCommandList {
  m_StateTracker : StateTracker;
  m_EnableAutomaticBarriers : bool;
  m_CurrentUploadBuffer : option Handle;
  m_VolatileConstantBufferAddresses : gmap Handle Z;
  m_AnyVolatileBufferWrites : bool;
  commandList : list Command;
  referencedResources : list Handle;
  referencedStagingBuffers : list Handle;
  referencedNativeResources : list Handle;
  errors : list Error;
}.

Definition onTracker (f : StateTracker -> StateTracker) (cl : CommandList)
    : CommandList :=
  mkCommandList (f (m_StateTracker cl)) (m_EnableAutomaticBarriers cl)
    (m_CurrentUploadBuffer cl) (m_VolatileConstantBufferAddresses cl)
    (m_AnyVolatileBufferWrites cl) (commandList cl) (referencedResources cl)
    (referencedStagingBuffers cl) (referencedNativeResources cl) (errors cl).

Definition record (c : Command) (cl : CommandList) : CommandList :=
  mkCommandList (m_StateTracker cl) (m_EnableAutomaticBarriers cl)
    (m_CurrentUploadBuffer cl) (m_VolatileConstantBufferAddresses cl)
    (m_AnyVolatileBufferWrites cl) (commandList cl ++ [c])
    (referencedResources cl) (referencedStagingBuffers cl)
    (referencedNativeResources cl) (errors cl).

Definition reference (h : Handle) (cl : CommandList) : CommandList :=
  mkCommandList (m_StateTracker cl) (m_EnableAutomaticBarriers cl)
    (m_CurrentUploadBuffer cl) (m_VolatileConstantBufferAddresses cl)
    (m_AnyVolatileBufferWrites cl) (commandList cl)
    (referencedResources cl ++ [h]) (referencedStagingBuffers cl)
    (referencedNativeResources cl) (errors cl).

Definition referenceStagingBuffer (h : Handle) (cl : CommandList)
    : CommandList :=
  mkCommandList (m_StateTracker cl) (m_EnableAutomaticBarriers cl)
    (m_CurrentUploadBuffer cl) (m_VolatileConstantBufferAddresses cl)
    (m_AnyVolatileBufferWrites cl) (commandList cl) (referencedResources cl)
    (referencedStagingBuffers cl ++ [h]) (referencedNativeResources cl)
    (errors cl).

Definition error (e : Error) (cl : CommandList) : CommandList :=
  mkCommandList (m_StateTracker cl) (m_EnableAutomaticBarriers cl)
    (m_CurrentUploadBuffer cl) (m_VolatileConstantBufferAddresses cl)
    (m_AnyVolatileBufferWrites cl) (commandList cl) (referencedResources cl)
    (referencedStagingBuffers cl) (referencedNativeResources cl)
    (errors cl ++ [e]).

(** [if (uploadBuffer != m_CurrentUploadBuffer) { ... }] *)
Definition useUploadBuffer (u : Handle) (cl : CommandList) : CommandList :=
  if decide (m_CurrentUploadBuffer cl = Some u) then cl
  else
    mkCommandList (m_StateTracker cl) (m_EnableAutomaticBarriers cl)
      (Some u) (m_VolatileConstantBufferAddresses cl)
      (m_AnyVolatileBufferWrites cl) (commandList cl) (referencedResources cl)
      (referencedStagingBuffers cl) (referencedNativeResources cl ++ [u])
      (errors cl).

(** [m_VolatileConstantBufferAddresses[buffer] = gpuVA;
     m_AnyVolatileBufferWrites = true;] *)
Definition writeVolatile (b : Handle) (va : Z) (cl : CommandList)
    : CommandList :=
  mkCommandList (m_StateTracker cl) (m_EnableAutomaticBarriers cl)
    (m_CurrentUploadBuffer cl) (<[b := va]> (m_VolatileConstantBufferAddresses cl))
    true (commandList cl) (referencedResources cl)
    (referencedStagingBuffers cl) (referencedNativeResources cl) (errors cl).

(** [CommandList::setEnableAutomaticBarriers] *)
Definition setEnableAutomaticBarriers (enable : bool) (cl : CommandList)
    : CommandList :=
  mkCommandList (m_StateTracker cl) enable
    (m_CurrentUploadBuffer cl) (m_VolatileConstantBufferAddresses cl)
    (m_AnyVolatileBufferWrites cl) (commandList cl) (referencedResources cl)
    (referencedStagingBuffers cl) (referencedNativeResources cl) (errors cl).

Definition requireBufferState (buffer : Handle) (state : ResourceStates)
    (cl : CommandList) : CommandList :=
  onTracker (requireBufferState buffer state) cl.

(** Modelled from the spec: the D3D12 [commitBarriers]
    (src/d3d12/d3d12-state-tracking.cpp, not among the sources): "if the
    pending-transition list (texture + buffer) is empty, this is a no-op.
    Otherwise [...] every TransitionRecord is translated into exactly one
    native barrier description and submitted as a single batched call,
    then the pending list is cleared."  The D3D12 command list has no
    render-pass construct to end. *)
Definition commitBarriers (cl : CommandList) : CommandList :=
  let t := m_StateTracker cl in
  match m_TextureBarriers t, m_BufferBarriers t with
  | [], [] => cl
  | tb, bb =>
    onTracker clearBarriers
      (record (ResourceBarrier ((textureBarrier <$> tb) ++ (bufferBarrier <$> bb)))
         cl)
  end.

(** [CommandList::writeBuffer].  [alloc] is the outcome of
    [m_UploadManager.suballocateBuffer]; the [memcpy] into the upload
    buffer is CPU-side and leaves no trace here. *)
Definition writeBuffer (b : Handle) (dataSize destOffsetBytes : Z)
    (alloc : option UploadAllocation) (cl : CommandList) : CommandList :=
  match alloc with
  | None => error CouldNotSuballocate cl
  | Some a =>
    let cl1 := useUploadBuffer (uploadBuffer a) cl in
    match buffers (m_StateTracker cl1) !! b with
    | None => cl1
    | Some buf =>
      if isVolatile (bufferDesc buf) then writeVolatile b (gpuVA a) cl1
      else
        let cl2 :=
          if m_EnableAutomaticBarriers cl1
          then requireBufferState b ResourceStates.CopyDest cl1
          else cl1 in
        let cl3 := commitBarriers cl2 in
        record (CopyBufferRegion b destOffsetBytes (uploadBuffer a)
                  (offsetInUploadBuffer a) dataSize)
          (reference b cl3)
    end
  end.

(** [CommandList::clearBufferUInt].  [heapsChanged] is the outcome of
    [commitDescriptorHeaps], which binds the descriptor heaps when they
    differ from the bound ones. *)
Definition clearBufferUInt (b : Handle) (clearValue : Z) (heapsChanged : bool)
    (cl : CommandList) : CommandList :=
  match buffers (m_StateTracker cl) !! b with
  | None => cl
  | Some buf =>
    if negb (canHaveUAVs (bufferDesc buf)) then error (CannotClearBuffer b) cl
    else
      let cl1 :=
        if m_EnableAutomaticBarriers cl
        then requireBufferState b ResourceStates.UnorderedAccess cl
        else cl in
      let cl2 := commitBarriers cl1 in
      let cl3 := if heapsChanged then record SetDescriptorHeaps cl2 else cl2 in
      record (ClearUnorderedAccessViewUint b clearValue) (reference b cl3)
  end.

(** [src->desc.cpuAccess != CpuAccessMode::None ? staging : resource] *)
Definition referenceBuffer (h : Handle) (cl : CommandList) : CommandList :=
  match buffers (m_StateTracker cl) !! h with
  | Some buf =>
    if cpuAccessNone (bufferDesc buf) then reference h cl
    else referenceStagingBuffer h cl
  | None => cl
  end.

(** [CommandList::copyBuffer] *)
Definition copyBuffer (dest : Handle) (destOffsetBytes : Z) (src : Handle)
    (srcOffsetBytes dataSizeBytes : Z) (cl : CommandList) : CommandList :=
  let cl1 :=
    if m_EnableAutomaticBarriers cl
    then requireBufferState src ResourceStates.CopySource
           (requireBufferState dest ResourceStates.CopyDest cl)
    else cl in
  let cl2 := commitBarriers cl1 in
  record (CopyBufferRegion dest destOffsetBytes src srcOffsetBytes dataSizeBytes)
    (referenceBuffer dest (referenceBuffer src cl2)).

End d3d12.

(* ------------------------------------------------------------------ *)
(** ** What a commit records *)

(** What a D3D12 commit records for tracker [t]. *)
Abbreviation d3d12_flush t :=
  (if bool_decide (m_TextureBarriers t = [])
      && bool_decide (m_BufferBarriers t = [])
   then []
   else [d3d12.ResourceBarrier
           ((d3d12.textureBarrier <$> m_TextureBarriers t)
            ++ (d3d12.bufferBarrier <$> m_BufferBarriers t))]).

(** What a Vulkan commit records for tracker [t] when a render pass is
    active or not. *)
Abbreviation vulkan_flush active t :=
  ((if (negb (bool_decide (m_BufferBarriers t = []))
        || negb (bool_decide (m_TextureBarriers t = []))) && active
    then [vulkan.endRendering] else [])
   ++ (if bool_decide (vulkan.imageBarrierOf t <$> m_TextureBarriers t = [])
       then []
       else [vulkan.pipelineBarrier2
               (vulkan.mkDependencyInfo
                  (vulkan.imageBarrierOf t <$> m_TextureBarriers t) [])])
   ++ (if bool_decide (vulkan.bufferBarrierOf t <$> m_BufferBarriers t = [])
       then []
       else [vulkan.pipelineBarrier2
               (vulkan.mkDependencyInfo []
                  (vulkan.bufferBarrierOf t <$> m_BufferBarriers t))])).

(* ------------------------------------------------------------------ *)
(** ** Concrete resources and command lists *)

Module Scenario.

Definition desc4Mips : TextureDesc := mkTextureDesc 4 1 Texture2D false false.
Definition desc1Mip : TextureDesc := mkTextureDesc 1 1 Texture2D false false.
Definition bufferDesc64 : BufferDesc := mkBufferDesc 64 false true true.

(** A 4-mip texture with every mip in [ShaderResource]. *)
Definition texture4Mips : Texture :=
  mkTexture desc4Mips
    (TextureState.mk (replicate 4 ResourceStates.ShaderResource)
       true false false).

(** A single-subresource texture already in [UnorderedAccess], with no
    UAV barrier placed yet. *)
Definition textureUav : Texture :=
  mkTexture desc1Mip
    (TextureState.mk [ResourceStates.UnorderedAccess] true false false).

(** A single-subresource texture pinned to [ShaderResource]. *)
Definition texturePinned : Texture :=
  mkTexture desc1Mip
    (TextureState.mk [ResourceStates.ShaderResource] true false true).

Definition bufferIn (s : ResourceStates) : Buffer :=
  mkBuffer bufferDesc64 (BufferState.mk s true false 0 false).

Definition mips0To1 : TextureSubresourceSet := mkTextureSubresourceSet 0 2 0 1.

(** Texture 1 has four mips, texture 2 is the UAV texture, texture 3 the
    pinned one; buffers 10 and 11 are in [ShaderResource]. *)
Definition tracker : StateTracker :=
  mkStateTracker
    (<[1%nat := texture4Mips]>
       (<[2%nat := textureUav]> (<[3%nat := texturePinned]> ∅)))
    (<[10%nat := bufferIn ResourceStates.ShaderResource]>
       (<[11%nat := bufferIn ResourceStates.ShaderResource]> ∅))
    [] [] [].

(** One texture record and one buffer record waiting to be committed. *)
Definition trackerBothPending : StateTracker :=
  mkStateTracker (textures tracker) (buffers tracker)
    [TextureBarrier.mk 1%nat 0 0 true ResourceStates.ShaderResource
       ResourceStates.RenderTarget]
    [BufferBarrier.mk 10%nat ResourceStates.ShaderResource
       ResourceStates.CopyDest]
    [].

(** A binding set with one UAV binding, of texture 2. *)
Definition uavBindingSet : IBindingSetPtr :=
  mkIBindingSetPtr 20%nat
    (BindingSet
       [mkBindingSetItem Texture_UAV 2%nat AllSubresources] true [0%nat]).

Definition vulkanCommandList (t : StateTracker) : vulkan.CommandList :=
  vulkan.mkCommandList t true false
    (vulkan.mkComputeState [uavBindingSet] None)
    (vulkan.mk_rt_State [uavBindingSet]) ∅ false [] [] [].

Definition d3d12CommandList (t : StateTracker) (automaticBarriers : bool)
    : d3d12.CommandList :=
  d3d12.mkCommandList t automaticBarriers None ∅ false [] [] [] [] [].

(** A volatile constant buffer. *)
Definition volatileBufferDesc : BufferDesc := mkBufferDesc 64 true false true.

(** The transition of buffer 10 to [CopyDest]. *)
Definition buffer10ToCopyDest : BufferBarrier.t :=
  BufferBarrier.mk 10%nat ResourceStates.ShaderResource
    ResourceStates.CopyDest.

(** The tracker with buffer 12, which is volatile, and the transition of
    buffer 10 waiting to be committed. *)
Definition trackerVolatilePending : StateTracker :=
  mkStateTracker (textures tracker)
    (<[12%nat := mkBuffer volatileBufferDesc
                   (BufferState.mk ResourceStates.ConstantBuffer true false 0
                      false)]>
       (buffers tracker))
    [] [buffer10ToCopyDest] [].

End Scenario.

(* ------------------------------------------------------------------ *)
(** ** Texture slices (misc.cpp) *)

(** The fields of [FormatInfo] that the code below reads, both
    [uint8_t]; the table behind [getFormatInfo] is not among the
    sources, so the entry of the format at hand is an argument. *)
Record FormatInfo := mkFormatInfo {
  blockSize : Z;
  bytesPerBlock : Z;
}.

(** The extent fields of a [TextureDesc] ([width], [height], [depth],
    all [uint32_t]), which the state-tracking code never reads. *)
Record TextureExtent := mkTextureExtent {
  extentWidth : Z;
  extentHeight : Z;
  extentDepth : Z;
}.

Module TextureSlice.

Record t := mk {
  x : Z;
  y : Z;
  z : Z;
  width : Z;
  height : Z;
  depth : Z;
  mipLevel : Z;
  arraySlice : Z;
}.

(** [std::max(extent >> mipLevel, 1u)] *)
Definition mipExtent (extent mipLevel : Z) : Z :=
  Z.max (Z.shiftr extent mipLevel) 1.

(** [v = std::max(v, blockSize);
     if (blockSize != 1) v = (v + blockSize - 1) / blockSize * blockSize;] *)
Definition toBlocks (v blockSize : Z) : Z :=
  let v := Z.max v blockSize in
  if negb (blockSize =? 1)
  then u32 (u32 (v + blockSize - 1) / blockSize * blockSize)
  else v.

(** [TextureSlice::resolve] *)
Definition resolve (s : t) (desc : TextureDesc) (extent : TextureExtent)
    (formatInfo : FormatInfo) : t :=
  let w :=
    if width s =? u32 (-1) then mipExtent (extentWidth extent) (mipLevel s)
    else width s in
  let h :=
    if height s =? u32 (-1) then mipExtent (extentHeight extent) (mipLevel s)
    else height s in
  let d :=
    if depth s =? u32 (-1) then
      match dimension desc with
      | Texture3D => mipExtent (extentDepth extent) (mipLevel s)
      | _ => 1
      end
    else depth s in
  mk (x s) (y s) (z s)
     (toBlocks w (blockSize formatInfo)) (toBlocks h (blockSize formatInfo))
     d (mipLevel s) (arraySlice s).

End TextureSlice.

(* ------------------------------------------------------------------ *)
(** ** Staging texture footprints (vulkan-staging-texture.cpp) *)

Module StagingFootprints.

(** The fields that [computeCopyableFootprints] fills in, apart from
    [format], which is the descriptor's.  [offset] and [totalBytes] are
    [size_t], as the values they are given. *)
Record PlacedSubresourceFootprint := mk {
  offset : Z;
  totalBytes : Z;
  rowSizeInBytes : Z;
  numRows : Z;
  rowPitch : Z;
  width : Z;
  height : Z;
  depth : Z;
}.

(** [alignBufferOffset], on [size_t] *)
Definition alignBufferOffset (off : Z) : Z :=
  u64 (u64 (off + (4 - 1)) / 4 * 4).

(** The layout that one iteration of the mip loop prepares, before the
    array loop gives it its offsets. *)
Definition layoutOfMip (formatInfo : FormatInfo) (width height depth : Z)
    : PlacedSubresourceFootprint :=
  let wInBlocks :=
    Z.max (u32 (width + blockSize formatInfo - 1) / blockSize formatInfo) 1 in
  let hInBlocks :=
    Z.max (u32 (height + blockSize formatInfo - 1) / blockSize formatInfo) 1 in
  let rowSize := u32 (wInBlocks * bytesPerBlock formatInfo) in
  mk 0 (u64 (u64 (depth * hInBlocks) * rowSize)) rowSize hInBlocks rowSize
     width height depth.

Definition placeAt (off : Z) (layout : PlacedSubresourceFootprint)
    : PlacedSubresourceFootprint :=
  mk off (totalBytes layout) (rowSizeInBytes layout) (numRows layout)
     (rowPitch layout) (width layout) (height layout) (depth layout).

(** The array loop: [arraySize] copies of the layout, each at the
    aligned running offset; the running offset advances by the size. *)
Fixpoint placeSlices (arraySize : nat) (layout : PlacedSubresourceFootprint)
    (offset : Z) (placed : list PlacedSubresourceFootprint)
    : Z * list PlacedSubresourceFootprint :=
  match arraySize with
  | O => (offset, placed)
  | S n =>
    placeSlices n layout (u64 (offset + totalBytes layout))
      (placed ++ [placeAt (alignBufferOffset offset) layout])
  end.

(** The mip loop. *)
Fixpoint placeMips (numMips : nat) (formatInfo : FormatInfo) (arraySize : nat)
    (width height depth : Z) (offset : Z)
    (placed : list PlacedSubresourceFootprint)
    : Z * list PlacedSubresourceFootprint :=
  match numMips with
  | O => (offset, placed)
  | S n =>
    let r :=
      placeSlices arraySize (layoutOfMip formatInfo width height depth)
        offset placed in
    placeMips n formatInfo arraySize
      (Z.max (Z.shiftr width 1) 1) (Z.max (Z.shiftr height 1) 1)
      (Z.max (Z.shiftr depth 1) 1) r.1 r.2
  end.

(** [StagingTexture::computeCopyableFootprints]: the total size and the
    footprints pushed to [placedFootprints], which is empty before. *)
Definition computeCopyableFootprints (desc : TextureDesc)
    (extent : TextureExtent) (formatInfo : FormatInfo)
    : Z * list PlacedSubresourceFootprint :=
  let depth :=
    match dimension desc with Texture3D => extentDepth extent | _ => 1 end in
  let arraySize :=
    match dimension desc with Texture3D => 1 | _ => arraySize desc end in
  placeMips (Z.to_nat (mipLevels desc)) formatInfo (Z.to_nat arraySize)
    (extentWidth extent) (extentHeight extent) depth 0 [].

(** [StagingTexture::getCopyableFootprint]; [None] where the vector is
    indexed past its end. *)
Definition getCopyableFootprint (desc : TextureDesc)
    (placedFootprints : list PlacedSubresourceFootprint)
    (mipLevel arraySlice : Z) : option PlacedSubresourceFootprint :=
  placedFootprints !! Z.to_nat (u32 (mipLevel * arraySize desc + arraySlice)).

(** The extent of mip level [m]: [m] times [std::max(v >> 1u, 1u)]. *)
Fixpoint mipChain (m : nat) (v : Z) : Z :=
  match m with
  | O => v
  | S n => mipChain n (Z.max (Z.shiftr v 1) 1)
  end.

(** The bytes that a list of footprints takes, without padding. *)
Definition sumBytes (l : list PlacedSubresourceFootprint) : Z :=
  foldr (fun fp acc => totalBytes fp + acc) 0 l.

(** What the two loops keep true of the running offset and of the
    footprints placed so far: the running offset is the plain sum of the
    sizes, and each footprint sits at the aligned sum of the sizes before
    it. *)
Definition placedInvariant (running : Z)
    (placed : list PlacedSubresourceFootprint) : Prop :=
  running = u64 (sumBytes placed)
  /\ forall k fp,
       placed !! k = Some fp ->
       offset fp = alignBufferOffset (u64 (sumBytes (take k placed))).

End StagingFootprints.

(* ------------------------------------------------------------------ *)
(** ** Buffer views (d3d12-buffer.cpp) *)

Module BufferViews.

Inductive DXGI_FORMAT :=
| DXGI_FORMAT_UNKNOWN
| DXGI_FORMAT_R32_TYPELESS
| srvFormat.

(** The [Buffer] part of a [D3D12_SHADER_RESOURCE_VIEW_DESC] or
    [D3D12_UNORDERED_ACCESS_VIEW_DESC]: [FirstElement] is a [UINT64],
    [NumElements] and [StructureByteStride] are [UINT]. *)
Record BufferView := mk {
  Format : DXGI_FORMAT;
  FirstElement : Z;
  NumElements : Z;
  StructureByteStride : Z;
  raw : bool;
}.

(** [Buffer::createSRV]: the view description handed to
    [CreateShaderResourceView], or [None] where the [default] branch
    returns without creating a view.  [structStride] is
    [desc.structStride]; [bytesPerBlock] is that of the view's
    format. *)
Definition createSRV (desc : BufferDesc) (structStride bytesPerBlock : Z)
    (range : BufferRange) (type : ResourceType) : option BufferView :=
  let range := BufferRange_resolve range desc in
  match type with
  | StructuredBuffer_SRV =>
    Some (mk DXGI_FORMAT_UNKNOWN (byteOffset range / structStride)
            (u32 (rangeByteSize range / structStride)) structStride false)
  | RawBuffer_SRV =>
    Some (mk DXGI_FORMAT_R32_TYPELESS (byteOffset range / 4)
            (u32 (rangeByteSize range / 4)) 0 true)
  | TypedBuffer_SRV =>
    Some (mk srvFormat (byteOffset range / bytesPerBlock)
            (u32 (rangeByteSize range / bytesPerBlock)) 0 false)
  | _ => None
  end.

(** [Buffer::createUAV] *)
Definition createUAV (desc : BufferDesc) (structStride bytesPerBlock : Z)
    (range : BufferRange) (type : ResourceType) : option BufferView :=
  let range := BufferRange_resolve range desc in
  match type with
  | StructuredBuffer_UAV =>
    Some (mk DXGI_FORMAT_UNKNOWN (byteOffset range / structStride)
            (u32 (rangeByteSize range / structStride)) structStride false)
  | RawBuffer_UAV =>
    Some (mk DXGI_FORMAT_R32_TYPELESS (byteOffset range / 4)
            (u32 (rangeByteSize range / 4)) 0 true)
  | TypedBuffer_UAV =>
    Some (mk srvFormat (byteOffset range / bytesPerBlock)
            (u32 (rangeByteSize range / bytesPerBlock)) 0 false)
  | _ => None
  end.

(** The size in bytes of one element of a view of the given type. *)
Definition elementSize (structStride bytesPerBlock : Z) (type : ResourceType)
    : Z :=
  match type with
  | StructuredBuffer_SRV | StructuredBuffer_UAV => structStride
  | RawBuffer_SRV | RawBuffer_UAV => 4
  | TypedBuffer_SRV | TypedBuffer_UAV => bytesPerBlock
  | _ => 0
  end.

End BufferViews.

(* ------------------------------------------------------------------ *)
(** ** Bindless sets (vulkan-state-tracking.cpp) *)

(** [newBindings[i]->getDesc() == nullptr]: the set is a descriptor
    table. *)
Definition isBindless (p : IBindingSetPtr) : bool :=
  match pointee p with
  | DescriptorTable => true
  | BindingSet _ _ _ => false
  end.

(* ------------------------------------------------------------------ *)
(** ** Single-precision floats *)

(** [float] as IEEE 754 binary32, with the operations of the standard
    library's specification of floating-point arithmetic (round to
    nearest, ties to even). *)
Module Float32.

Definition prec : Z := 24.
Definition emax : Z := 128.

Definition t := SpecFloat.spec_float.

(** [0.f] *)
Definition zero : t := SpecFloat.S754_zero false.

(** [float(n)] for a [uint32_t] [n] *)
Definition of_uint32 (n : Z) : t :=
  SpecFloat.binary_normalize prec emax n 0 false.

(** [x * y] *)
Definition mul (x y : t) : t := SpecFloat.SFmul prec emax x y.

(** [1e-9f]: the nearest [float], [9007199 * 2 ^ -53]. *)
Definition nano : t := SpecFloat.S754_finite false 9007199 (-53).

End Float32.

(* ------------------------------------------------------------------ *)
(** ** Timer queries (vulkan-queries.cpp) *)

Module TimerQueries.

(** What [getQueryPoolResults] answers: the result code and, on success,
    the two 32-bit timestamps it writes. *)
Inductive QueryPoolResults :=
| eSuccess (timestamps0 timestamps1 : Z)
| eNotReady
| eErrorDeviceLost.

(** The fields of [TimerQuery] that the functions read and write.  The
    indices are [int]s; [time] is a [float]. *)
Record TimerQuery := mk {
  beginQueryIndex : Z;
  endQueryIndex : Z;
  started : bool;
  resolved : bool;
  time : Float32.t;
}.

Definition setIndices (b e : Z) (q : TimerQuery) : TimerQuery :=
  mk b e (started q) (resolved q) (time q).

Definition setStarted (b : bool) (q : TimerQuery) : TimerQuery :=
  mk (beginQueryIndex q) (endQueryIndex q) b (resolved q) (time q).

Definition setResolved (b : bool) (q : TimerQuery) : TimerQuery :=
  mk (beginQueryIndex q) (endQueryIndex q) (started q) b (time q).

Definition setTime (t : Float32.t) (q : TimerQuery) : TimerQuery :=
  mk (beginQueryIndex q) (endQueryIndex q) (started q) (resolved q) t.

(** [Device::createTimerQuery], once the pool exists: [queryIndex] is
    what [m_TimerQueryAllocator.allocate()] returns and [query] the
    newly constructed object; [None] is [nullptr].  The two indices are
    the numbers of the pool slots, the values that [resetQueryPool] and
    [writeTimestamp] receive as [uint32_t].  The code computes them as
    [int] products, which hold these values for an index below
    [2 ^ 30] and overflow, with no defined result, from there on: what
    is proved of the indices as [int]s assumes that bound. *)
Definition createTimerQuery (queryIndex : Z) (query : TimerQuery)
    : option TimerQuery :=
  if queryIndex <? 0 then None
  else Some (setIndices (queryIndex * 2) (queryIndex * 2 + 1) query).

(** [TimerQuery::~TimerQuery]: the index passed to
    [m_QueryAllocator.release] and the fields as the destructor leaves
    them.  [/] on [int] truncates. *)
Definition destroy (q : TimerQuery) : Z * TimerQuery :=
  (Z.quot (beginQueryIndex q) 2, setIndices (-1) (-1) q).

(** The commands that the timer query functions record, on the timer
    query pool. *)
Inductive Command :=
| endRendering
| resetQueryPool (firstQuery queryCount : Z)
| writeTimestamp (query : Z).

(** The part of the command list that the timer query functions
    touch. *)
Record CommandList := mkCommandList {
  renderPassActive : bool;
  cmdBuf : list Command;
}.

(** Modelled from the spec: [endRenderPass] is defined in
    src/vulkan/vulkan-graphics.cpp, not among the sources: "any in-flight
    rendering pass construct must be ended first". *)
Definition endRenderPass (cl : CommandList) : CommandList :=
  if renderPassActive cl
  then mkCommandList false (cmdBuf cl ++ [endRendering])
  else cl.

(** [CommandList::beginTimerQuery] *)
Definition beginTimerQuery (q : TimerQuery) (cl : CommandList)
    : TimerQuery * CommandList :=
  let cl1 := endRenderPass cl in
  (setResolved false q,
   mkCommandList (renderPassActive cl1)
     (cmdBuf cl1 ++ [resetQueryPool (beginQueryIndex q) 2;
                     writeTimestamp (beginQueryIndex q)])).

(** [CommandList::endTimerQuery] *)
Definition endTimerQuery (q : TimerQuery) (cl : CommandList)
    : TimerQuery * CommandList :=
  let cl1 := endRenderPass cl in
  (setStarted true q,
   mkCommandList (renderPassActive cl1)
     (cmdBuf cl1 ++ [writeTimestamp (endQueryIndex q)])).

(** The query slots of the pool that a command resets or writes. *)
Definition slotsTouched (c : Command) : list Z :=
  match c with
  | endRendering => []
  | resetQueryPool firstQuery queryCount => seqZ firstQuery queryCount
  | writeTimestamp query => [query]
  end.

(** [float(timestamps[1] - timestamps[0]) * scale] with
    [scale = 1e-9f * timestampPeriod]: the difference is taken in
    [uint32_t], converted to [float] and multiplied in [float]. *)
Definition elapsedTime (timestampPeriod : Float32.t)
    (timestamps0 timestamps1 : Z) : Float32.t :=
  let scale := Float32.mul Float32.nano timestampPeriod in
  Float32.mul (Float32.of_uint32 (u32 (timestamps1 - timestamps0))) scale.

(** [Device::pollTimerQuery]; [timestampPeriod] is the limit of the
    physical device, [device] what [getQueryPoolResults] answers if it
    is asked. *)
Definition pollTimerQuery (timestampPeriod : Float32.t)
    (device : QueryPoolResults) (q : TimerQuery) : bool * TimerQuery :=
  if negb (started q) then (false, q)
  else if resolved q then (true, q)
  else
    match device with
    | eNotReady | eErrorDeviceLost => (false, q)
    | eSuccess timestamps0 timestamps1 =>
      (true,
       setResolved true
         (setTime (elapsedTime timestampPeriod timestamps0 timestamps1) q))
    end.

(** The loop [while(!pollTimerQuery(query));] of [getTimerQueryTime],
    which is entered with a started, unresolved query and asks the
    device once per round: the query and the answers left over when it
    ends, [None] when the answers run out while it is still polling. *)
Fixpoint pollUntilResolved (timestampPeriod : Float32.t)
    (answers : list QueryPoolResults) (q : TimerQuery)
    : option (TimerQuery * list QueryPoolResults) :=
  match answers with
  | [] => None
  | device :: rest =>
    let r := pollTimerQuery timestampPeriod device q in
    if r.1 then Some (r.2, rest)
    else pollUntilResolved timestampPeriod rest r.2
  end.

(** [Device::getTimerQueryTime]: the time returned, the query and the
    answers of the device left over. *)
Definition getTimerQueryTime (timestampPeriod : Float32.t)
    (answers : list QueryPoolResults) (q : TimerQuery)
    : option (Float32.t * TimerQuery * list QueryPoolResults) :=
  if negb (started q) then Some (Float32.zero, q, answers)
  else
    let polled :=
      if negb (resolved q) then pollUntilResolved timestampPeriod answers q
      else Some (q, answers) in
    match polled with
    | None => None
    | Some (q', rest) => Some (time q', setStarted false q', rest)
    end.

(** [Device::resetTimerQuery] *)
Definition resetTimerQuery (q : TimerQuery) : TimerQuery :=
  mk (beginQueryIndex q) (endQueryIndex q) false false Float32.zero.

Definition isSuccess (device : QueryPoolResults) : bool :=
  match device with
  | eSuccess _ _ => true
  | _ => false
  end.

(** A new query, and the timestamp period of a device whose ticks are
    nanoseconds. *)
Definition newQuery : TimerQuery := mk 0 0 false false Float32.zero.
Definition startedQuery : TimerQuery := mk 6 7 true false Float32.zero.
Definition onePerTick : Float32.t := Float32.of_uint32 1.

End TimerQueries.

(* ------------------------------------------------------------------ *)
(** ** What inserting resource barriers leaves alone *)

(** [cl'] differs from [cl] in the state tracker and the dirty flag at
    most: nothing was recorded, referenced or switched. *)
Definition onlyTrackerChanged (cl cl' : vulkan.CommandList) : Prop :=
  vulkan.cmdBuf cl' = vulkan.cmdBuf cl
  /\ vulkan.renderPassActive cl' = vulkan.renderPassActive cl
  /\ vulkan.referencedResources cl' = vulkan.referencedResources cl
  /\ vulkan.referencedStagingBuffers cl' = vulkan.referencedStagingBuffers cl
  /\ vulkan.m_EnableAutomaticBarriers cl' = vulkan.m_EnableAutomaticBarriers cl
  /\ vulkan.m_CurrentComputeState cl' = vulkan.m_CurrentComputeState cl
  /\ vulkan.m_CurrentRayTracingState cl' = vulkan.m_CurrentRayTracingState cl
  /\ vulkan.accelStructs cl' = vulkan.accelStructs cl.

(* ------------------------------------------------------------------ *)
(** ** Framebuffers and graphics state (misc.cpp,
       vulkan-state-tracking.cpp) *)

Module Graphics.

(** The fields of [FramebufferAttachment] that state tracking reads. *)
Record FramebufferAttachment := mkFramebufferAttachment {
  texture : Handle;
  subresources : TextureSubresourceSet;
  isReadOnly : bool;
}.

(** [FramebufferDesc]; [depthAttachment] is [None] when it is not
    [valid()]. *)
Record FramebufferDesc := mkFramebufferDesc {
  colorAttachments : list FramebufferAttachment;
  depthAttachment : option FramebufferAttachment;
}.

(** A non-null [IFramebuffer*]: the address, which [!=] compares, and
    the descriptor behind it. *)
Record IFramebuffer := mkIFramebuffer {
  framebufferAddress : Handle;
  getDesc : FramebufferDesc;
}.

(** [CommandList::setTextureState], [CommandList::setBufferState] and
    [CommandList::setAccelStructState] of the Vulkan command list, while
    it is open. *)
Definition setTextureState (texture : Handle)
    (subresources : TextureSubresourceSet) (stateBits : ResourceStates)
    (cl : vulkan.CommandList) : vulkan.CommandList :=
  vulkan.reference texture
    (vulkan.requireTextureState texture subresources stateBits cl).

Definition setBufferState (buffer : Handle) (stateBits : ResourceStates)
    (cl : vulkan.CommandList) : vulkan.CommandList :=
  vulkan.reference buffer (vulkan.requireBufferState buffer stateBits cl).

Definition setAccelStructState (accelStruct : Handle)
    (stateBits : ResourceStates) (cl : vulkan.CommandList)
    : vulkan.CommandList :=
  match vulkan.accelStructs cl !! accelStruct with
  | Some dataBuffer =>
    vulkan.reference accelStruct
      (vulkan.requireBufferState dataBuffer stateBits cl)
  | None => cl
  end.

(** [ICommandList::setResourceStatesForFramebuffer] (misc.cpp), on the
    Vulkan command list. *)
Definition setResourceStatesForFramebuffer (framebuffer : IFramebuffer)
    (cl : vulkan.CommandList) : vulkan.CommandList :=
  let desc := getDesc framebuffer in
  let cl1 :=
    foldl (fun cl attachment =>
             setTextureState (texture attachment) (subresources attachment)
               ResourceStates.RenderTarget cl)
          cl (colorAttachments desc) in
  match depthAttachment desc with
  | Some attachment =>
    setTextureState (texture attachment) (subresources attachment)
      (if isReadOnly attachment then ResourceStates.DepthRead
       else ResourceStates.DepthWrite)
      cl1
  | None => cl1
  end.

(** The fields of [GraphicsState] that
    [insertGraphicsResourceBarriers] reads; [vertexBuffers] keeps the
    buffer of each binding.  The framebuffer is not null: the function
    dereferences it. *)
Record GraphicsState := mkGraphicsState {
  bindings : BindingSetVector;
  indexBuffer : option Handle;
  vertexBuffers : list Handle;
  framebuffer : IFramebuffer;
  indirectParams : option Handle;
  indirectCountParams : option Handle;
}.

Record MeshletState := mkMeshletState {
  meshletBindings : BindingSetVector;
  meshletFramebuffer : IFramebuffer;
  meshletIndirectParams : option Handle;
}.

(** [if (buffer && (m_BindingStatesDirty || buffer != current))
    requireBufferState(buffer, state)] *)
Definition requireIfChanged (buffer current : option Handle)
    (state : ResourceStates) (cl : vulkan.CommandList) : vulkan.CommandList :=
  match buffer with
  | Some b =>
    if vulkan.m_BindingStatesDirty cl || negb (bool_decide (buffer = current))
    then vulkan.requireBufferState b state cl
    else cl
  | None => cl
  end.

(** [if (m_BindingStatesDirty || current.framebuffer != state.framebuffer)
    setResourceStatesForFramebuffer(state.framebuffer)] *)
Definition framebufferIfChanged (fb current : IFramebuffer)
    (cl : vulkan.CommandList) : vulkan.CommandList :=
  if vulkan.m_BindingStatesDirty cl
     || negb (bool_decide (framebufferAddress current = framebufferAddress fb))
  then setResourceStatesForFramebuffer fb cl
  else cl.

(** [CommandList::insertGraphicsResourceBarriers]; [current] is
    [m_CurrentGraphicsState], and [vertexBuffersDiffer] what
    [arraysAreDifferent] answers for the two vertex buffer arrays. *)
Definition insertGraphicsResourceBarriers (state current : GraphicsState)
    (vertexBuffersDiffer : bool) (cl : vulkan.CommandList)
    : vulkan.CommandList :=
  let cl1 :=
    vulkan.insertResourceBarriersForBindingSets (bindings state)
      (bindings current) cl in
  let cl2 :=
    requireIfChanged (indexBuffer state) (indexBuffer current)
      ResourceStates.IndexBuffer cl1 in
  let cl3 :=
    if vulkan.m_BindingStatesDirty cl2 || vertexBuffersDiffer
    then foldl (fun cl vb =>
                  vulkan.requireBufferState vb ResourceStates.VertexBuffer cl)
               cl2 (vertexBuffers state)
    else cl2 in
  let cl4 := framebufferIfChanged (framebuffer state) (framebuffer current) cl3 in
  let cl5 :=
    requireIfChanged (indirectParams state) (indirectParams current)
      ResourceStates.IndirectArgument cl4 in
  let cl6 :=
    requireIfChanged (indirectCountParams state) (indirectCountParams current)
      ResourceStates.IndirectArgument cl5 in
  vulkan.setBindingStatesDirty false cl6.

(** [CommandList::insertMeshletResourceBarriers]; [current] is
    [m_CurrentMeshletState]. *)
Definition insertMeshletResourceBarriers (state current : MeshletState)
    (cl : vulkan.CommandList) : vulkan.CommandList :=
  let cl1 :=
    vulkan.insertResourceBarriersForBindingSets (meshletBindings state)
      (meshletBindings current) cl in
  let cl2 :=
    framebufferIfChanged (meshletFramebuffer state)
      (meshletFramebuffer current) cl1 in
  let cl3 :=
    requireIfChanged (meshletIndirectParams state)
      (meshletIndirectParams current) ResourceStates.IndirectArgument cl2 in
  vulkan.setBindingStatesDirty false cl3.

(** The textures of the attachments, colour first, in the order of
    [setResourceStatesForFramebuffer]. *)
Definition attachmentTextures (desc : FramebufferDesc) : list Handle :=
  (texture <$> colorAttachments desc)
  ++ match depthAttachment desc with
     | Some attachment => [texture attachment]
     | None => []
     end.

(** A framebuffer with one colour attachment, texture 1, and a
    read-only depth attachment, texture 2. *)
Definition exampleFramebuffer : IFramebuffer :=
  mkIFramebuffer 30%nat
    (mkFramebufferDesc
       [mkFramebufferAttachment 1%nat AllSubresources false]
       (Some (mkFramebufferAttachment 2%nat AllSubresources true))).

Definition exampleGraphicsState : GraphicsState :=
  mkGraphicsState [Scenario.uavBindingSet] (Some 10%nat) [11%nat]
    exampleFramebuffer None None.

Definition exampleMeshletState : MeshletState :=
  mkMeshletState [Scenario.uavBindingSet] exampleFramebuffer (Some 10%nat).

End Graphics.

(** [cl'] holds the commands, the render pass and the switches of [cl]:
    only the state tracker, the dirty flag and the referenced resources
    may differ. *)
Definition nothingRecorded (cl cl' : vulkan.CommandList) : Prop :=
  vulkan.cmdBuf cl' = vulkan.cmdBuf cl
  /\ vulkan.renderPassActive cl' = vulkan.renderPassActive cl
  /\ vulkan.m_EnableAutomaticBarriers cl' = vulkan.m_EnableAutomaticBarriers cl
  /\ vulkan.referencedStagingBuffers cl' = vulkan.referencedStagingBuffers cl.

(* ------------------------------------------------------------------ *)
(** ** Blend states (misc.cpp) *)

Module BlendState.

(** [BlendFactor]: the two enumerators that the code names, and the
    others. *)
Inductive BlendFactor :=
| ConstantColor
| OneMinusConstantColor
| OtherBlendFactor (value : Z).

(** The blend factors of [BlendState::RenderTarget]. *)
Record RenderTarget := mkRenderTarget {
  srcBlend : BlendFactor;
  destBlend : BlendFactor;
  srcBlendAlpha : BlendFactor;
  destBlendAlpha : BlendFactor;
}.

(** [f == BlendFactor::ConstantColor
     || f == BlendFactor::OneMinusConstantColor] *)
Definition isConstantColor (f : BlendFactor) : bool :=
  match f with
  | ConstantColor | OneMinusConstantColor => true
  | OtherBlendFactor _ => false
  end.

(** [BlendState::RenderTarget::usesConstantColor] *)
Definition RenderTarget_usesConstantColor (t : RenderTarget) : bool :=
  isConstantColor (srcBlend t) || isConstantColor (destBlend t)
  || isConstantColor (srcBlendAlpha t) || isConstantColor (destBlendAlpha t).

(** The loop of [BlendState::usesConstantColor], from target [rt] on,
    with [n] targets to go.  The array [targets] is not read past its
    end by a caller that keeps [numTargets] within it. *)
Fixpoint usesConstantColorFrom (targets : list RenderTarget) (rt n : nat)
    : bool :=
  match n with
  | O => false
  | S n' =>
    match targets !! rt with
    | Some t =>
      if RenderTarget_usesConstantColor t then true
      else usesConstantColorFrom targets (S rt) n'
    | None => false
    end
  end.

(** [BlendState::usesConstantColor] *)
Definition usesConstantColor (targets : list RenderTarget) (numTargets : Z)
    : bool :=
  usesConstantColorFrom targets 0 (Z.to_nat numTargets).

End BlendState.

(* ------------------------------------------------------------------ *)
(** ** Properties of the resolvers *)

Lemma u32_small z : is_u32 z -> u32 z = z.
Proof. intros H. apply Z.mod_small. exact H. Qed.

Lemma u32_range z : is_u32 (u32 z).
Proof. unfold is_u32, u32. apply Z.mod_pos_bound. lia. Qed.

Lemma u32_to_int_sub x b : u32 (to_int (u32 x) - b) = u32 (u32 x - b).
Proof.
  unfold to_int. destruct (u32 x <? 2 ^ 31); [reflexivity|].
  generalize (u32 x). intros y. unfold u32.
  replace (y - 2 ^ 32 - b) with (y - b + (-1) * 2 ^ 32) by ring.
  now rewrite Z.mod_add by lia.
Qed.

(** Without wrap-around in [base + num], the count is clamped to what is
    left of the object after [base]. *)
Lemma clampCount_no_wrap base num limit :
  is_u32 base -> is_u32 num -> is_u32 limit ->
  base + num < 2 ^ 32 -> base <= limit ->
  clampCount base num limit = Z.min num (limit - base).
Proof.
  unfold is_u32, clampCount. intros Hb Hn Hl Hs Hle.
  rewrite (u32_small (base + num)) by (unfold is_u32; lia).
  set (m := Z.min (base + num) limit).
  assert (Hm : is_u32 m) by (unfold is_u32, m; lia).
  rewrite <- (u32_small m Hm), u32_to_int_sub, (u32_small m Hm).
  rewrite (u32_small (m - base)) by (unfold is_u32, m; lia).
  rewrite Z.max_r by (unfold m; lia).
  rewrite u32_small by (unfold is_u32, m; lia).
  unfold m. lia.
Qed.

(** With wrap-around the count comes back unclamped. *)
Lemma clampCount_wrap base num limit :
  is_u32 base -> is_u32 num -> is_u32 limit ->
  2 ^ 32 <= base + num -> base <= limit ->
  clampCount base num limit = num.
Proof.
  unfold is_u32, clampCount. intros Hb Hn Hl Hs Hle.
  assert (Hw : u32 (base + num) = base + num - 2 ^ 32).
  { unfold u32. symmetry. apply (Z.mod_unique _ _ 1); lia. }
  rewrite Hw, Z.min_l by lia.
  rewrite <- Hw, u32_to_int_sub, Hw.
  assert (Hd : u32 (base + num - 2 ^ 32 - base) = num).
  { unfold u32. symmetry. apply (Z.mod_unique _ _ (-1)); lia. }
  rewrite Hd, Z.max_r by lia. apply u32_small. exact Hn.
Qed.

Lemma AllMipLevels_value : AllMipLevels = 2 ^ 32 - 1.
Proof. reflexivity. Qed.

(** When neither sum wraps around, the resolved set lies inside the
    texture. *)
Lemma resolve_within_no_wrap (s : TextureSubresourceSet) (d : TextureDesc) :
  is_u32 (baseMipLevel s) -> is_u32 (numMipLevels s) ->
  is_u32 (baseArraySlice s) -> is_u32 (numArraySlices s) ->
  is_u32 (mipLevels d) -> is_u32 (arraySize d) -> 0 < arraySize d ->
  baseMipLevel s < mipLevels d ->
  (isArrayDimension (dimension d) = true -> baseArraySlice s < arraySize d) ->
  baseMipLevel s + numMipLevels s < 2 ^ 32 ->
  baseArraySlice s + numArraySlices s < 2 ^ 32 ->
  withinTexture (resolve s d false) d.
Proof.
  intros Hbm Hnm Hba Hna Hm Ha Hpos Hlt Harr Hw1 Hw2.
  unfold withinTexture, resolve.
  rewrite (clampCount_no_wrap _ _ _ Hbm Hnm Hm Hw1) by lia.
  destruct (isArrayDimension (dimension d)) eqn:E; cbn.
  - specialize (Harr eq_refl).
    rewrite (clampCount_no_wrap _ _ _ Hba Hna Ha Hw2) by lia. lia.
  - lia.
Qed.

(** A texture that is not an array resolves to array slice 0 alone. *)
Lemma resolve_non_array (s : TextureSubresourceSet) (d : TextureDesc) b :
  isArrayDimension (dimension d) = false ->
  baseArraySlice (resolve s d b) = 0 /\ numArraySlices (resolve s d b) = 1.
Proof. intros E. unfold resolve. rewrite E. now destruct b. Qed.

(** C9, at the input where the code leaves what the claim says: mips 1
    and up of a 4-mip texture, asked for with the [AllMipLevels]
    wildcard.  [baseMipLevel + numMipLevels] wraps around to 0 in 32
    bits, the clamp against [desc.mipLevels] then keeps 0, and the
    unsigned difference [0 - 1] gives the wildcard back: the resolved set
    still has [numMipLevels = AllMipLevels] and does not lie inside the
    texture. *)
Theorem resolve_wildcard_above_mip0_not_clamped :
  let d := mkTextureDesc 4 1 Texture2D false false in
  let s := mkTextureSubresourceSet 1 AllMipLevels 0 1 in
  baseMipLevel s < mipLevels d
  /\ resolve s d false = mkTextureSubresourceSet 1 AllMipLevels 0 1
  /\ ~ withinTexture (resolve s d false) d.
Proof.
  cbn zeta. split; [cbn; lia|]. split; [reflexivity|].
  unfold withinTexture. vm_compute. intros [H _]. apply H. reflexivity.
Qed.

(** C10: [BufferRange::resolve] never leaves the buffer: the resolved
    offset is at most the buffer size, offset plus size is at most the
    buffer size, and a zero [byteSize] resolves to all that remains of
    the buffer after the offset. *)
Theorem BufferRange_resolve_within (r : BufferRange) (d : BufferDesc) :
  is_u64 (byteOffset r) -> is_u64 (rangeByteSize r) -> is_u64 (byteSize d) ->
  let r' := BufferRange_resolve r d in
  byteOffset r' <= byteSize d
  /\ byteOffset r' + rangeByteSize r' <= byteSize d
  /\ (rangeByteSize r = 0 ->
      rangeByteSize r' = byteSize d - byteOffset r').
Proof.
  unfold is_u64. intros Ho Hs Hd. cbn zeta. unfold BufferRange_resolve.
  set (off := Z.min (byteOffset r) (byteSize d)).
  assert (Hu : u64 (byteSize d - off) = byteSize d - off).
  { unfold u64. apply Z.mod_small. unfold off. lia. }
  destruct (rangeByteSize r =? 0) eqn:E; cbn; rewrite Hu; unfold off.
  - repeat split; lia.
  - apply Z.eqb_neq in E. repeat split; lia.
Qed.

Lemma BufferRange_resolve_within_witness :
  let r := mkBufferRange 16 0 in
  let d := mkBufferDesc 64 false false true in
  let r' := BufferRange_resolve r d in
  byteOffset r' <= byteSize d
  /\ byteOffset r' + rangeByteSize r' <= byteSize d
  /\ (rangeByteSize r = 0 ->
      rangeByteSize r' = byteSize d - byteOffset r').
Proof.
  apply (BufferRange_resolve_within (mkBufferRange 16 0)
           (mkBufferDesc 64 false false true));
    unfold is_u64; cbn; lia.
Defined.

(* ------------------------------------------------------------------ *)
(** ** The per-subresource walk of [requireTextureState] *)

Section subresource_walk.
Context (d : TextureDesc) (S : ResourceStates).

Local Abbreviation idx sub := (subresourceIndex d (fst sub) (snd sub)).
Local Abbreviation step := (requireSubresourceState d S).
Local Abbreviation states := TextureState.subresourceStates.

Lemma seedStates_length l subs :
  length (seedStates d S l subs) = length l.
Proof.
  revert l. induction subs as [|x xs IH]; intros l; cbn; [reflexivity|].
  unfold seedStates in IH. rewrite IH. apply length_insert.
Qed.

Lemma seedStates_keeps l subs i :
  l !! i = Some S -> seedStates d S l subs !! i = Some S.
Proof.
  revert l. induction subs as [|x xs IH]; intros l Hl; cbn; [exact Hl|].
  apply IH. destruct (decide (idx x = i)) as [->|Hne].
  - apply list_lookup_insert_eq. eapply lookup_lt_Some, Hl.
  - rewrite list_lookup_insert_ne by exact Hne. exact Hl.
Qed.

Lemma seedStates_lookup_in l subs sub :
  sub ∈ subs -> (idx sub < length l)%nat ->
  seedStates d S l subs !! idx sub = Some S.
Proof.
  revert l. induction subs as [|x xs IH]; intros l Hin Hlt.
  - inversion Hin.
  - cbn. apply elem_of_cons in Hin as [->|Hin].
    + apply seedStates_keeps. now apply list_lookup_insert_eq.
    + apply IH; [exact Hin|]. now rewrite length_insert.
Qed.

Lemma seedStates_lookup_notin l subs i :
  (forall sub, sub ∈ subs -> idx sub <> i) ->
  seedStates d S l subs !! i = l !! i.
Proof.
  revert l. induction subs as [|x xs IH]; intros l Hno; cbn; [reflexivity|].
  unfold seedStates in IH. rewrite IH.
  - apply list_lookup_insert_ne. apply Hno. left.
  - intros sub Hsub. apply Hno. now right.
Qed.

(** One step always leaves the visited subresource in the required
    state and touches no other entry. *)
Lemma requireSubresourceState_states acc sub :
  states (step acc sub).1 = <[idx sub := S]> (states acc.1).
Proof.
  unfold requireSubresourceState.
  destruct (states acc.1 !! idx sub) as [stored|] eqn:E.
  - destruct (decide (stored = S)) as [->|Hne].
    + rewrite (list_insert_id _ _ _ E).
      destruct (decide (S = ResourceStates.UnorderedAccess));
        [destruct (_ && _)|]; reflexivity.
    + reflexivity.
  - symmetry. apply list_insert_ge. now apply lookup_ge_None.
Qed.

Lemma requireSubresourceState_flags acc sub :
  TextureState.enableUavBarriers (step acc sub).1
  = TextureState.enableUavBarriers acc.1
  /\ TextureState.permanentTransition (step acc sub).1
     = TextureState.permanentTransition acc.1.
Proof.
  unfold requireSubresourceState.
  destruct (states acc.1 !! idx sub) as [stored|]; [|easy].
  destruct (decide (stored = S)); [|easy].
  destruct (decide (S = ResourceStates.UnorderedAccess)); [|easy].
  now destruct (_ && _).
Qed.

Lemma walk_states subs acc :
  states (foldl step acc subs).1 = seedStates d S (states acc.1) subs.
Proof.
  revert acc. induction subs as [|x xs IH]; intros acc; cbn; [reflexivity|].
  rewrite IH, requireSubresourceState_states. reflexivity.
Qed.

Lemma walk_flags subs acc :
  TextureState.enableUavBarriers (foldl step acc subs).1
  = TextureState.enableUavBarriers acc.1
  /\ TextureState.permanentTransition (foldl step acc subs).1
     = TextureState.permanentTransition acc.1.
Proof.
  revert acc. induction subs as [|x xs IH]; intros acc; cbn; [easy|].
  destruct (IH (step acc x)) as [-> ->].
  apply requireSubresourceState_flags.
Qed.

(** Every visited subresource starts in one state [s0] other than the
    required one: each gets its own transition [s0 -> S], in order. *)
Lemma walk_all_different s0 subs ts out :
  s0 <> S ->
  NoDup ((fun sub => idx sub) <$> subs) ->
  (forall sub, sub ∈ subs -> states ts !! idx sub = Some s0) ->
  (foldl step (ts, out) subs).2
  = out ++ ((fun sub => mkSubresourceTransition sub.1 sub.2 s0 S) <$> subs)
  /\ (subs <> [] ->
      TextureState.firstUavBarrierPlaced (foldl step (ts, out) subs).1
      = bool_decide (S = ResourceStates.UnorderedAccess)).
Proof.
  intros Hne. revert ts out.
  induction subs as [|x xs IH]; intros ts out Hnd Hall; cbn.
  - split; [now rewrite app_nil_r|congruence].
  - rewrite fmap_cons in Hnd. apply NoDup_cons in Hnd as [Hx Hnd].
    assert (Hstep : step (ts, out) x
      = (TextureState.setFirstUavBarrierPlaced
           (bool_decide (S = ResourceStates.UnorderedAccess))
           (TextureState.setStates (<[idx x := S]> (states ts)) ts),
         out ++ [mkSubresourceTransition x.1 x.2 s0 S])).
    { unfold requireSubresourceState. cbn.
      rewrite (Hall x) by left. now destruct (decide (s0 = S)). }
    rewrite Hstep.
    set (ts1 := TextureState.setFirstUavBarrierPlaced _ _).
    destruct (IH ts1 (out ++ [mkSubresourceTransition x.1 x.2 s0 S]) Hnd)
      as [Hout Hflag].
    { intros sub Hsub. cbn. rewrite list_lookup_insert_ne.
      - apply Hall. now right.
      - intros Heq. apply Hx. rewrite Heq.
        apply (list_elem_of_fmap_2 (fun sub => idx sub)). exact Hsub. }
    split.
    + rewrite Hout, <- app_assoc. reflexivity.
    + intros _. destruct xs as [|y ys]; [reflexivity|].
      apply Hflag. congruence.
Qed.

(** Every visited subresource is already in the required state, and no
    UAV hazard is due: the walk changes nothing. *)
Lemma walk_all_equal_skip subs ts out :
  (forall sub, sub ∈ subs -> states ts !! idx sub = Some S) ->
  (S = ResourceStates.UnorderedAccess ->
   TextureState.enableUavBarriers ts
   && negb (TextureState.firstUavBarrierPlaced ts) = false) ->
  foldl step (ts, out) subs = (ts, out).
Proof.
  intros Hall Hflag. induction subs as [|x xs IH]; cbn; [reflexivity|].
  assert (Hstep : step (ts, out) x = (ts, out)).
  { unfold requireSubresourceState. cbn. rewrite (Hall x) by left.
    destruct (decide (S = S)); [|congruence].
    destruct (decide (S = ResourceStates.UnorderedAccess)) as [Hu|];
      [rewrite (Hflag Hu)|]; reflexivity. }
  rewrite Hstep. apply IH. intros sub Hsub. apply Hall. now right.
Qed.

(** Every visited subresource is already in [UnorderedAccess] and the
    hazard is due: the first one gets the same-state transition, which
    sets the flag, and the others are skipped. *)
Lemma walk_all_equal_hazard x xs ts out :
  S = ResourceStates.UnorderedAccess ->
  (forall sub, sub ∈ x :: xs -> states ts !! idx sub = Some S) ->
  TextureState.enableUavBarriers ts
  && negb (TextureState.firstUavBarrierPlaced ts) = true ->
  foldl step (ts, out) (x :: xs)
  = (TextureState.setFirstUavBarrierPlaced true ts,
     out ++ [mkSubresourceTransition x.1 x.2 S S]).
Proof.
  intros Hu Hall Hflag. cbn [foldl].
  assert (Hstep : step (ts, out) x
    = (TextureState.setFirstUavBarrierPlaced true ts,
       out ++ [mkSubresourceTransition x.1 x.2 S S])).
  { unfold requireSubresourceState. cbn. rewrite (Hall x) by left.
    destruct (decide (S = S)); [|congruence].
    destruct (decide (S = ResourceStates.UnorderedAccess)); [|congruence].
    now rewrite Hflag. }
  rewrite Hstep. apply walk_all_equal_skip.
  - intros sub Hsub. cbn. apply Hall. now right.
  - intros _. cbn. apply andb_false_r.
Qed.

End subresource_walk.

(* ------------------------------------------------------------------ *)
(** ** Subresource ranges and the flat index *)

Lemma elem_of_subresourcesOf r m a :
  (m, a) ∈ subresourcesOf r <-> contains r a m.
Proof.
  unfold subresourcesOf, contains. rewrite list_elem_of_bind. split.
  - intros (m' & Hin & Hm). apply list_elem_of_bind in Hin as (a' & Hin & Ha).
    apply list_elem_of_singleton in Hin. inversion Hin; subst.
    apply elem_of_seqZ in Hm, Ha. lia.
  - intros [Hm Ha]. exists m. split; [|apply elem_of_seqZ; lia].
    apply list_elem_of_bind. exists a. split; [|apply elem_of_seqZ; lia].
    apply list_elem_of_singleton. reflexivity.
Qed.

Lemma NoDup_subresourcesOf r : NoDup (subresourcesOf r).
Proof.
  unfold subresourcesOf. apply NoDup_bind; [| |apply NoDup_seqZ].
  - intros m1 m2 [m a] _ _ H1 H2.
    apply list_elem_of_bind in H1 as (a1 & H1 & _).
    apply list_elem_of_bind in H2 as (a2 & H2 & _).
    apply list_elem_of_singleton in H1, H2. congruence.
  - intros m _. apply NoDup_bind; [| |apply NoDup_seqZ].
    + intros a1 a2 y _ _ H1 H2.
      apply list_elem_of_singleton in H1, H2. congruence.
    + intros a _. apply NoDup_singleton.
Qed.

Lemma subresourceIndex_inj d m a m' a' :
  0 <= m -> 0 <= m' -> 0 <= a < arraySize d -> 0 <= a' < arraySize d ->
  subresourceIndex d m a = subresourceIndex d m' a' -> m = m' /\ a = a'.
Proof.
  unfold subresourceIndex. intros Hm Hm' Ha Ha' Heq.
  apply Z2Nat.inj in Heq; [|nia|nia].
  assert (m = m') by nia. subst. lia.
Qed.

Lemma subresourceIndex_lt tex m a :
  wellFormedTexture tex ->
  0 <= m < mipLevels (desc tex) -> 0 <= a < arraySize (desc tex) ->
  (subresourceIndex (desc tex) m a
   < length (TextureState.subresourceStates (textureState tex)))%nat.
Proof.
  intros (HM & HA & Hlen) Hm Ha. rewrite Hlen. unfold subresourceIndex.
  apply Z2Nat.inj_lt; nia.
Qed.

Lemma NoDup_subresource_indices d r :
  resolvedInBounds r d ->
  NoDup ((fun sub => subresourceIndex d sub.1 sub.2) <$> subresourcesOf r).
Proof.
  intros (Hbm & Hnm & Hba & Hna & Hwm & Hwa).
  apply NoDup_fmap_2_strong; [|apply NoDup_subresourcesOf].
  intros [m a] [m' a'] H1 H2 Heq.
  apply elem_of_subresourcesOf in H1 as [? ?], H2 as [? ?]. cbn in Heq.
  apply subresourceIndex_inj in Heq as [-> ->]; [reflexivity|lia..].
Qed.

Lemma withinTextureb_true r d :
  withinTextureb r d = true <-> withinTexture r d.
Proof.
  unfold withinTextureb, withinTexture.
  rewrite andb_true_iff, !Z.leb_le. reflexivity.
Qed.

Lemma subresourcesOf_nonempty r :
  0 < numMipLevels r -> 0 < numArraySlices r -> subresourcesOf r <> [].
Proof.
  intros Hm Ha Hnil.
  assert (Hin : (baseMipLevel r, baseArraySlice r) ∈ subresourcesOf r).
  { apply elem_of_subresourcesOf. unfold contains. lia. }
  rewrite Hnil in Hin. inversion Hin.
Qed.

(* ------------------------------------------------------------------ *)
(** ** [requireTextureState] on a tracked, unpinned texture *)

Lemma requireTextureState_unpinned t h tex R S :
  textures t !! h = Some tex ->
  TextureState.permanentTransition (textureState tex) = false ->
  withinTexture (resolve R (desc tex) false) (desc tex) ->
  requireTextureState h R S t
  = let r := resolve R (desc tex) false in
    let subs := subresourcesOf r in
    let res := foldl (requireSubresourceState (desc tex) S)
                     (textureState tex, []) subs in
    pushTextureBarriers (coalesce h (desc tex) r (length subs) res.2)
      (setTextures (<[h := mkTexture (desc tex) res.1]> (textures t)) t).
Proof.
  intros Hh Hp Hw. unfold requireTextureState. rewrite Hh, Hp.
  apply withinTextureb_true in Hw. rewrite Hw. reflexivity.
Qed.

Lemma requireTextureState_pinned t h tex R S :
  textures t !! h = Some tex ->
  TextureState.permanentTransition (textureState tex) = true ->
  requireTextureState h R S t = t.
Proof.
  intros Hh Hp. unfold requireTextureState. now rewrite Hh, Hp.
Qed.

Lemma requireTextureState_other t h h' R S :
  h <> h' ->
  textures (requireTextureState h R S t) !! h' = textures t !! h'.
Proof.
  intros Hne. unfold requireTextureState.
  destruct (textures t !! h) as [tex|]; [|reflexivity].
  destruct (TextureState.permanentTransition _); [reflexivity|].
  destruct (negb _); [reflexivity|]. cbn. now apply lookup_insert_ne.
Qed.

Lemma requireTextureState_buffers t h R S :
  buffers (requireTextureState h R S t) = buffers t.
Proof.
  unfold requireTextureState.
  destruct (textures t !! h) as [tex|]; [|reflexivity].
  destruct (TextureState.permanentTransition _); [reflexivity|].
  now destruct (negb _).
Qed.

Lemma requireBufferState_textures t h S :
  textures (requireBufferState h S t) = textures t.
Proof.
  unfold requireBufferState.
  destruct (buffers t !! h) as [buf|]; [|reflexivity].
  destruct (BufferState.permanentTransition _); [reflexivity|].
  destruct (decide _); [|reflexivity].
  destruct (decide _); [|reflexivity].
  now destruct (_ && _).
Qed.

(** The stored state of a subresource after the call: the required
    state inside the resolved set, the old one outside. *)
Lemma requireTextureState_lookup t h tex R S :
  textures t !! h = Some tex ->
  TextureState.permanentTransition (textureState tex) = false ->
  wellFormedTexture tex ->
  resolvedInBounds (resolve R (desc tex) false) (desc tex) ->
  exists tex',
    textures (requireTextureState h R S t) !! h = Some tex'
    /\ desc tex' = desc tex
    /\ TextureState.subresourceStates (textureState tex')
       = seedStates (desc tex) S
           (TextureState.subresourceStates (textureState tex))
           (subresourcesOf (resolve R (desc tex) false))
    /\ TextureState.enableUavBarriers (textureState tex')
       = TextureState.enableUavBarriers (textureState tex)
    /\ TextureState.permanentTransition (textureState tex') = false.
Proof.
  intros Hh Hp Hwf Hr.
  rewrite (requireTextureState_unpinned _ _ _ _ _ Hh Hp) by apply Hr.
  cbn zeta. eexists. split; [cbn; apply lookup_insert_eq|].
  cbn. split; [reflexivity|]. rewrite walk_states. split; [reflexivity|].
  destruct (walk_flags (desc tex) S
              (subresourcesOf (resolve R (desc tex) false))
              (textureState tex, [])) as [-> ->].
  now split.
Qed.

(* ------------------------------------------------------------------ *)
(** ** The commit protocol *)

Lemma clearBarriers_id t :
  m_TextureBarriers t = [] -> m_BufferBarriers t = [] -> clearBarriers t = t.
Proof. destruct t; cbn. intros -> ->. reflexivity. Qed.

(** Whatever was pending, the tracker after a Vulkan commit is the
    tracker with its pending lists cleared. *)
Lemma vulkan_commitBarriers_tracker cl :
  vulkan.m_StateTracker (vulkan.commitBarriers cl)
  = clearBarriers (vulkan.m_StateTracker cl).
Proof.
  unfold vulkan.commitBarriers.
  destruct (bool_decide _ && bool_decide _) eqn:E.
  - apply andb_true_iff in E as [E1 E2].
    apply bool_decide_eq_true in E1, E2.
    symmetry. now apply clearBarriers_id.
  - unfold vulkan.commitBarriersInternal, vulkan.endRenderPass.
    destruct (vulkan.renderPassActive cl); cbn;
      repeat (destruct (negb _); cbn); reflexivity.
Qed.

Lemma vulkan_commitBarriers_flag cl :
  vulkan.m_EnableAutomaticBarriers (vulkan.commitBarriers cl)
  = vulkan.m_EnableAutomaticBarriers cl.
Proof.
  unfold vulkan.commitBarriers.
  destruct (bool_decide _ && bool_decide _); [reflexivity|].
  unfold vulkan.commitBarriersInternal, vulkan.endRenderPass.
  destruct (vulkan.renderPassActive cl); cbn;
    repeat (destruct (negb _); cbn); reflexivity.
Qed.

(** The commands a Vulkan commit records: the end of the render pass if
    one is active, one batch with an image barrier per pending texture
    record, one batch with a buffer barrier per pending buffer record. *)
Lemma vulkan_commitBarriers_commands cl :
  let t := vulkan.m_StateTracker cl in
  let images := vulkan.imageBarrierOf t <$> m_TextureBarriers t in
  let buffers := vulkan.bufferBarrierOf t <$> m_BufferBarriers t in
  vulkan.cmdBuf (vulkan.commitBarriers cl)
  = vulkan.cmdBuf cl
    ++ (if vulkan.anyBarriers cl && vulkan.renderPassActive cl
        then [vulkan.endRendering] else [])
    ++ (if bool_decide (images = []) then []
        else [vulkan.pipelineBarrier2 (vulkan.mkDependencyInfo images [])])
    ++ (if bool_decide (buffers = []) then []
        else [vulkan.pipelineBarrier2 (vulkan.mkDependencyInfo [] buffers)]).
Proof.
  cbn zeta. unfold vulkan.commitBarriers, vulkan.anyBarriers.
  destruct (m_BufferBarriers (vulkan.m_StateTracker cl)) as [|b bs] eqn:Eb;
  destruct (m_TextureBarriers (vulkan.m_StateTracker cl)) as [|x xs] eqn:Et.
  - cbn. now rewrite app_nil_r.
  - unfold vulkan.commitBarriersInternal, vulkan.endRenderPass.
    destruct (vulkan.renderPassActive cl); cbn; rewrite Et, Eb; cbn;
      rewrite <- ?app_assoc; reflexivity.
  - unfold vulkan.commitBarriersInternal, vulkan.endRenderPass.
    destruct (vulkan.renderPassActive cl); cbn; rewrite Et, Eb; cbn;
      rewrite <- ?app_assoc; reflexivity.
  - unfold vulkan.commitBarriersInternal, vulkan.endRenderPass.
    destruct (vulkan.renderPassActive cl); cbn; rewrite Et, Eb; cbn;
      rewrite <- ?app_assoc; reflexivity.
Qed.

(** C3, as amended: a Vulkan commit with nothing pending changes
    nothing.  Otherwise it ends the active render pass first, then
    records one batch holding exactly one image barrier per pending
    texture record (if there are any) and one batch holding exactly one
    buffer barrier per pending buffer record (if there are any); it
    leaves both pending lists empty and touches no stored state, so a
    second commit records nothing. *)
Theorem commitBarriers_flushes_each_kind_once (cl : vulkan.CommandList) :
  let t := vulkan.m_StateTracker cl in
  let imageBarriers := vulkan.imageBarrierOf t <$> m_TextureBarriers t in
  let bufferBarriers := vulkan.bufferBarrierOf t <$> m_BufferBarriers t in
  let cl' := vulkan.commitBarriers cl in
  (if vulkan.anyBarriers cl then
     vulkan.cmdBuf cl'
     = vulkan.cmdBuf cl
       ++ (if vulkan.renderPassActive cl then [vulkan.endRendering] else [])
       ++ (if bool_decide (imageBarriers = []) then []
           else [vulkan.pipelineBarrier2 (vulkan.mkDependencyInfo imageBarriers [])])
       ++ (if bool_decide (bufferBarriers = []) then []
           else [vulkan.pipelineBarrier2 (vulkan.mkDependencyInfo [] bufferBarriers)])
     /\ vulkan.renderPassActive cl' = false
   else cl' = cl)
  /\ length imageBarriers = length (m_TextureBarriers t)
  /\ length bufferBarriers = length (m_BufferBarriers t)
  /\ m_TextureBarriers (vulkan.m_StateTracker cl') = []
  /\ m_BufferBarriers (vulkan.m_StateTracker cl') = []
  /\ textures (vulkan.m_StateTracker cl') = textures t
  /\ buffers (vulkan.m_StateTracker cl') = buffers t
  /\ vulkan.commitBarriers cl' = cl'.
Proof.
  cbn zeta. split; [|split; [|split]].
  - pose proof (vulkan_commitBarriers_commands cl) as Hc. cbn zeta in Hc.
    destruct (vulkan.anyBarriers cl) eqn:Ea.
    + split; [exact Hc|].
      unfold vulkan.commitBarriers, vulkan.anyBarriers in *.
      destruct (bool_decide (m_BufferBarriers _ = []));
        destruct (bool_decide (m_TextureBarriers _ = []));
        try discriminate; cbn;
        unfold vulkan.commitBarriersInternal, vulkan.endRenderPass;
        destruct (vulkan.renderPassActive cl) eqn:Er; cbn;
        repeat (destruct (negb _); cbn); try reflexivity; exact Er.
    + unfold vulkan.commitBarriers, vulkan.anyBarriers in *.
      destruct (bool_decide (m_BufferBarriers _ = []));
        destruct (bool_decide (m_TextureBarriers _ = []));
        try discriminate; reflexivity.
  - apply length_fmap.
  - apply length_fmap.
  - rewrite vulkan_commitBarriers_tracker. cbn.
    repeat (split; [reflexivity|]).
    unfold vulkan.commitBarriers at 1.
    rewrite vulkan_commitBarriers_tracker. reflexivity.
Qed.

(** C3, the input at which the claim as stated fails: with one texture
    record and one buffer record pending, the commit records two
    [pipelineBarrier2] calls, not one. *)
Lemma commitBarriers_two_batches :
  vulkan.cmdBuf
    (vulkan.commitBarriers
       (Scenario.vulkanCommandList Scenario.trackerBothPending))
  = [ vulkan.pipelineBarrier2
        (vulkan.mkDependencyInfo
           [vulkan.mkImageMemoryBarrier2
              (vulkan.convertResourceState ResourceStates.ShaderResource true)
              (vulkan.convertResourceState ResourceStates.RenderTarget true)
              1%nat (vulkan.mkImageSubresourceRange vulkan.eColor 0 4 0 1)]
           []);
      vulkan.pipelineBarrier2
        (vulkan.mkDependencyInfo []
           [vulkan.mkBufferMemoryBarrier2
              (vulkan.convertResourceState ResourceStates.ShaderResource false)
              (vulkan.convertResourceState ResourceStates.CopyDest false)
              10%nat 0 64]) ].
Proof. vm_compute. reflexivity. Qed.

(* ------------------------------------------------------------------ *)
(** ** Coverage *)

Lemma getTextureSubresourceState_after_commit t arraySlice mipLevel cl :
  vulkan.getTextureSubresourceState t arraySlice mipLevel
    (vulkan.commitBarriers cl)
  = vulkan.getTextureSubresourceState t arraySlice mipLevel cl.
Proof.
  unfold vulkan.getTextureSubresourceState.
  now rewrite vulkan_commitBarriers_tracker.
Qed.

(** C4, as amended: for a texture that is not pinned, after
    [requireTextureState(t, R, S)] followed by [commitBarriers()], every
    subresource inside the resolved range R reads back as S, and every
    other subresource of the texture keeps the state it had. *)
Theorem requireTextureState_commit_coverage (cl : vulkan.CommandList)
    (t : Handle) (tex : Texture) (R : TextureSubresourceSet)
    (S : ResourceStates) (arraySlice mipLevel : Z) :
  textures (vulkan.m_StateTracker cl) !! t = Some tex ->
  TextureState.permanentTransition (textureState tex) = false ->
  wellFormedTexture tex ->
  resolvedInBounds (resolve R (desc tex) false) (desc tex) ->
  0 <= mipLevel < mipLevels (desc tex) ->
  0 <= arraySlice < arraySize (desc tex) ->
  let cl' := vulkan.commitBarriers (vulkan.requireTextureState t R S cl) in
  (contains (resolve R (desc tex) false) arraySlice mipLevel ->
   vulkan.getTextureSubresourceState t arraySlice mipLevel cl' = S)
  /\ (~ contains (resolve R (desc tex) false) arraySlice mipLevel ->
      vulkan.getTextureSubresourceState t arraySlice mipLevel cl'
      = vulkan.getTextureSubresourceState t arraySlice mipLevel cl).
Proof.
  intros Hh Hp Hwf Hr Hm Ha. cbn zeta.
  rewrite getTextureSubresourceState_after_commit.
  unfold vulkan.getTextureSubresourceState, vulkan.requireTextureState,
    getTextureSubresourceState. cbn.
  destruct (requireTextureState_lookup _ _ _ R S Hh Hp Hwf Hr)
    as (tex' & Hh' & Hd & Hs & _).
  rewrite Hh', Hh, Hd, Hs. split.
  - intros Hc.
    rewrite (seedStates_lookup_in (desc tex) S _ _ (mipLevel, arraySlice)).
    + reflexivity.
    + now apply elem_of_subresourcesOf.
    + now apply subresourceIndex_lt.
  - intros Hc. rewrite seedStates_lookup_notin; [reflexivity|].
    intros [m a] Hin Heq. apply elem_of_subresourcesOf in Hin.
    destruct Hr as (? & ? & ? & ? & ? & ?), Hin as [? ?]. cbn in Heq.
    apply subresourceIndex_inj in Heq as [-> ->]; [|lia..].
    apply Hc. split; assumption.
Qed.

Lemma requireTextureState_commit_coverage_witness :
  vulkan.getTextureSubresourceState 1%nat 0 1
    (vulkan.commitBarriers
       (vulkan.requireTextureState 1%nat Scenario.mips0To1
          ResourceStates.UnorderedAccess
          (Scenario.vulkanCommandList Scenario.tracker)))
  = ResourceStates.UnorderedAccess.
Proof.
  refine (proj1 (requireTextureState_commit_coverage
                   (Scenario.vulkanCommandList Scenario.tracker) 1%nat
                   Scenario.texture4Mips Scenario.mips0To1
                   ResourceStates.UnorderedAccess 0 1 _ _ _ _ _ _) _).
  - reflexivity.
  - reflexivity.
  - unfold wellFormedTexture. cbn. repeat split; lia.
  - unfold resolvedInBounds, withinTexture. vm_compute.
    repeat split; discriminate.
  - cbn. lia.
  - cbn. lia.
  - unfold contains. vm_compute. repeat split; discriminate.
Defined.

(** C4, the input at which the claim as stated fails: texture 3 is
    pinned to [ShaderResource]; after requiring [CopyDest] on all of it
    and committing, its subresource still reads [ShaderResource]. *)
Lemma requireTextureState_commit_pinned_not_covered :
  contains (resolve AllSubresources Scenario.desc1Mip false) 0 0
  /\ vulkan.getTextureSubresourceState 3%nat 0 0
       (vulkan.commitBarriers
          (vulkan.requireTextureState 3%nat AllSubresources
             ResourceStates.CopyDest
             (Scenario.vulkanCommandList Scenario.tracker)))
     = ResourceStates.ShaderResource
  /\ ResourceStates.ShaderResource <> ResourceStates.CopyDest.
Proof.
  split; [|split].
  - unfold contains. vm_compute. repeat split; discriminate.
  - vm_compute. reflexivity.
  - discriminate.
Qed.

(* ------------------------------------------------------------------ *)
(** ** Coalescing and idempotence *)

Lemma forallb_samePair_uniform x s0 S (subs : list (Z * Z)) :
  st_before x = s0 -> st_after x = S ->
  forallb (samePair x)
    ((fun sub => mkSubresourceTransition sub.1 sub.2 s0 S) <$> subs) = true.
Proof.
  intros Hb Ha. induction subs as [|y ys IH]; cbn; [reflexivity|].
  rewrite IH, andb_true_r. unfold samePair. cbn.
  now rewrite !bool_decide_eq_true_2.
Qed.

Lemma coalesce_uniform_entire h d r s0 S (subs : list (Z * Z)) :
  subs <> [] -> isEntireTexture r d = true ->
  coalesce h d r (length subs)
    ((fun sub => mkSubresourceTransition sub.1 sub.2 s0 S) <$> subs)
  = [TextureBarrier.mk h 0 0 true s0 S].
Proof.
  intros Hne He. destruct subs as [|x xs]; [congruence|].
  unfold coalesce. rewrite fmap_cons, He.
  rewrite forallb_samePair_uniform by reflexivity.
  cbn [length]. rewrite length_fmap, Nat.eqb_refl. reflexivity.
Qed.

Lemma coalesce_partial h d r n out :
  isEntireTexture r d = false ->
  coalesce h d r n out = singleBarrier h <$> out.
Proof.
  intros He. unfold coalesce. destruct out as [|x xs]; [reflexivity|].
  now rewrite He, andb_false_r.
Qed.

Lemma coalesce_singleton h d r n x :
  exists b,
    coalesce h d r n [x] = [b]
    /\ TextureBarrier.texture b = h
    /\ TextureBarrier.stateBefore b = st_before x
    /\ TextureBarrier.stateAfter b = st_after x.
Proof.
  unfold coalesce. destruct (_ && _ && _); eexists; (split; [reflexivity|]);
    cbn; auto.
Qed.

(** A resolved set that passes [isEntireTexture] and lies inside a
    well-formed texture starts at 0 and is not empty. *)
Lemma entire_resolved_nonempty tex W :
  wellFormedTexture tex ->
  resolvedInBounds (resolve W (desc tex) false) (desc tex) ->
  isEntireTexture (resolve W (desc tex) false) (desc tex) = true ->
  subresourcesOf (resolve W (desc tex) false) <> [].
Proof.
  intros (HM & HA & _) (Hbm & Hnm & Hba & Hna & Hwm & Hwa) He.
  assert (Hslices : 0 < numArraySlices (resolve W (desc tex) false)).
  { unfold isEntireTexture in He.
    destruct (_ || _) eqn:E1 in He; [discriminate|].
    destruct (isArrayDimension (dimension (desc tex))) eqn:Earr.
    - cbn in He. destruct (_ || _) eqn:E2 in He; [discriminate|].
      apply orb_false_iff in E2 as [E2 E3].
      apply Z.ltb_ge in E2, E3.
      rewrite u32_small in E3 by (unfold is_u32; lia). lia.
    - destruct (resolve_non_array W (desc tex) false Earr) as [_ ->]. lia. }
  apply subresourcesOf_nonempty; [|exact Hslices].
  unfold isEntireTexture in He.
  destruct (_ || _) eqn:E1 in He; [discriminate|].
  apply orb_false_iff in E1 as [E1 E2]. apply Z.ltb_ge in E1, E2.
  rewrite u32_small in E2 by (unfold is_u32; lia). lia.
Qed.

(** A call on a texture whose visited subresources are all in the
    required state already: nothing is appended, unless the state is
    [UnorderedAccess], UAV barriers are enabled and none has been placed
    yet; then exactly one same-state record is appended and the flag is
    set. *)
Lemma requireTextureState_repeat t h tex W S :
  textures t !! h = Some tex ->
  TextureState.permanentTransition (textureState tex) = false ->
  wellFormedTexture tex ->
  resolvedInBounds (resolve W (desc tex) false) (desc tex) ->
  subresourcesOf (resolve W (desc tex) false) <> [] ->
  (forall sub, sub ∈ subresourcesOf (resolve W (desc tex) false) ->
     TextureState.subresourceStates (textureState tex)
       !! subresourceIndex (desc tex) sub.1 sub.2 = Some S) ->
  let t' := requireTextureState h W S t in
  if bool_decide (S = ResourceStates.UnorderedAccess)
     && (TextureState.enableUavBarriers (textureState tex)
         && negb (TextureState.firstUavBarrierPlaced (textureState tex)))
  then
    (exists b,
       m_TextureBarriers t' = m_TextureBarriers t ++ [b]
       /\ TextureBarrier.texture b = h
       /\ TextureBarrier.stateBefore b = ResourceStates.UnorderedAccess
       /\ TextureBarrier.stateAfter b = ResourceStates.UnorderedAccess)
    /\ (TextureState.firstUavBarrierPlaced ∘ textureState)
         <$> textures t' !! h = Some true
  else m_TextureBarriers t' = m_TextureBarriers t.
Proof.
  intros Hh Hp Hwf Hr Hne Hall. cbn zeta.
  rewrite (requireTextureState_unpinned _ _ _ _ _ Hh Hp) by apply Hr.
  cbn zeta.
  destruct (bool_decide (S = ResourceStates.UnorderedAccess)) eqn:Eu; cbn [andb].
  - apply bool_decide_eq_true in Eu.
    destruct (TextureState.enableUavBarriers (textureState tex)
              && negb (TextureState.firstUavBarrierPlaced (textureState tex)))
      eqn:Ef.
    + destruct (subresourcesOf (resolve W (desc tex) false)) as [|x xs] eqn:Es;
        [congruence|].
      rewrite (walk_all_equal_hazard _ _ x xs _ _ Eu Hall Ef).
      cbn [fst snd app length].
      destruct (coalesce_singleton h (desc tex) (resolve W (desc tex) false)
                  (Datatypes.S (length xs))
                  (mkSubresourceTransition x.1 x.2 S S))
        as (b & -> & Hb0 & Hb1 & Hb2).
      unfold pushTextureBarriers, setTextures.
      cbn [m_TextureBarriers textures]. split.
      * exists b. cbn in Hb1, Hb2. rewrite <- Eu. auto.
      * now rewrite lookup_insert_eq.
    + rewrite (walk_all_equal_skip _ _ _ _ _ Hall (fun _ => Ef)). cbn.
      apply app_nil_r.
  - apply bool_decide_eq_false in Eu.
    rewrite (walk_all_equal_skip _ _ _ _ _ Hall) by congruence. cbn.
    apply app_nil_r.
Qed.

Lemma subresource_in_range_lt tex r sub :
  wellFormedTexture tex -> resolvedInBounds r (desc tex) ->
  sub ∈ subresourcesOf r ->
  (subresourceIndex (desc tex) sub.1 sub.2
   < length (TextureState.subresourceStates (textureState tex)))%nat.
Proof.
  intros Hwf (? & ? & ? & ? & ? & ?) Hin. destruct sub as [m a].
  apply elem_of_subresourcesOf in Hin as [? ?].
  apply subresourceIndex_lt; [exact Hwf|cbn; lia..].
Qed.

Lemma allSubresourcesIn_lookup tex r s0 sub :
  wellFormedTexture tex -> resolvedInBounds r (desc tex) ->
  allSubresourcesIn s0 tex -> sub ∈ subresourcesOf r ->
  TextureState.subresourceStates (textureState tex)
    !! subresourceIndex (desc tex) sub.1 sub.2 = Some s0.
Proof.
  intros Hwf Hr Hall Hin.
  destruct (lookup_lt_is_Some_2 _ _
              (subresource_in_range_lt _ _ _ Hwf Hr Hin)) as [x Hx].
  rewrite Hx. f_equal. eapply Hall, Hx.
Qed.

(** A call on an unpinned texture whose visited subresources all hold
    one state [s0] other than the required one: the records appended are
    the coalescing of one transition [s0 -> S] per visited subresource,
    and the texture afterwards holds S there. *)
Lemma requireTextureState_first t h tex W S s0 :
  textures t !! h = Some tex ->
  TextureState.permanentTransition (textureState tex) = false ->
  wellFormedTexture tex ->
  resolvedInBounds (resolve W (desc tex) false) (desc tex) ->
  (forall sub, sub ∈ subresourcesOf (resolve W (desc tex) false) ->
     TextureState.subresourceStates (textureState tex)
       !! subresourceIndex (desc tex) sub.1 sub.2 = Some s0) ->
  s0 <> S ->
  let r := resolve W (desc tex) false in
  let t' := requireTextureState h W S t in
  m_TextureBarriers t'
  = m_TextureBarriers t
    ++ coalesce h (desc tex) r (length (subresourcesOf r))
         ((fun sub => mkSubresourceTransition sub.1 sub.2 s0 S)
            <$> subresourcesOf r)
  /\ exists ts',
       textures t' !! h = Some (mkTexture (desc tex) ts')
       /\ TextureState.subresourceStates ts'
          = seedStates (desc tex) S
              (TextureState.subresourceStates (textureState tex))
              (subresourcesOf r)
       /\ TextureState.enableUavBarriers ts'
          = TextureState.enableUavBarriers (textureState tex)
       /\ TextureState.permanentTransition ts' = false
       /\ (subresourcesOf r <> [] ->
           TextureState.firstUavBarrierPlaced ts'
           = bool_decide (S = ResourceStates.UnorderedAccess)).
Proof.
  intros Hh Hp Hwf Hr Hall Hne. cbn zeta.
  rewrite (requireTextureState_unpinned _ _ _ _ _ Hh Hp) by apply Hr.
  cbn zeta.
  destruct (walk_all_different (desc tex) S s0
              (subresourcesOf (resolve W (desc tex) false))
              (textureState tex) [] Hne
              (NoDup_subresource_indices _ _ Hr) Hall) as [Hout Hflag].
  rewrite Hout. cbn [app]. split; [reflexivity|].
  eexists. split; [cbn; apply lookup_insert_eq|].
  rewrite walk_states.
  destruct (walk_flags (desc tex) S
              (subresourcesOf (resolve W (desc tex) false))
              (textureState tex, [])) as [-> ->].
  cbn [fst]. repeat split; try assumption.
Qed.

Lemma withFirstUavBarrierPlaced_lookup t h tex placed :
  textures t !! h = Some tex ->
  textures (withFirstUavBarrierPlaced h placed t) !! h
  = Some (mkTexture (desc tex)
            (TextureState.setFirstUavBarrierPlaced placed (textureState tex)))
  /\ m_TextureBarriers (withFirstUavBarrierPlaced h placed t)
     = m_TextureBarriers t.
Proof.
  intros Hh. unfold withFirstUavBarrierPlaced. rewrite Hh. cbn.
  split; [apply lookup_insert_eq|reflexivity].
Qed.

(** C2, as amended: on a texture that is not pinned and whose
    subresources all hold one state other than S, the first
    [requireTextureState(t, wholeTexture, S)] appends exactly one record;
    the identical call repeated at once appends nothing.  When S is
    [UnorderedAccess], a repeated call made with [firstUavBarrierPlaced]
    set to [placed] appends exactly one same-state record
    ([UnorderedAccess -> UnorderedAccess]) and sets the flag if
    [enableUavBarriers] holds and [placed] is false, and appends nothing
    otherwise. *)
Theorem requireTextureState_idempotent (t : StateTracker) (h : Handle)
    (tex : Texture) (W : TextureSubresourceSet) (S s0 : ResourceStates) :
  textures t !! h = Some tex ->
  TextureState.permanentTransition (textureState tex) = false ->
  wellFormedTexture tex ->
  resolvedInBounds (resolve W (desc tex) false) (desc tex) ->
  isEntireTexture (resolve W (desc tex) false) (desc tex) = true ->
  allSubresourcesIn s0 tex ->
  s0 <> S ->
  let t1 := requireTextureState h W S t in
  (exists b,
     m_TextureBarriers t1 = m_TextureBarriers t ++ [b]
     /\ TextureBarrier.texture b = h
     /\ TextureBarrier.stateBefore b = s0
     /\ TextureBarrier.stateAfter b = S)
  /\ m_TextureBarriers (requireTextureState h W S t1) = m_TextureBarriers t1
  /\ (S = ResourceStates.UnorderedAccess ->
      forall placed : bool,
        let t2 :=
          requireTextureState h W S (withFirstUavBarrierPlaced h placed t1) in
        if TextureState.enableUavBarriers (textureState tex) && negb placed
        then
          (exists b,
             m_TextureBarriers t2 = m_TextureBarriers t1 ++ [b]
             /\ TextureBarrier.texture b = h
             /\ TextureBarrier.stateBefore b = ResourceStates.UnorderedAccess
             /\ TextureBarrier.stateAfter b = ResourceStates.UnorderedAccess)
          /\ (TextureState.firstUavBarrierPlaced ∘ textureState)
               <$> textures t2 !! h = Some true
        else m_TextureBarriers t2 = m_TextureBarriers t1).
Proof.
  intros Hh Hp Hwf Hr He Hall Hne. cbn zeta.
  pose proof (entire_resolved_nonempty _ _ Hwf Hr He) as Hsubs.
  destruct (requireTextureState_first t h tex W S s0 Hh Hp Hwf Hr
              (fun sub => allSubresourcesIn_lookup _ _ _ sub Hwf Hr Hall) Hne)
    as (Hb & ts1 & Hh1 & Hs1 & He1 & Hp1 & Hf1).
  cbn zeta in Hb, Hh1, Hs1, Hf1. specialize (Hf1 Hsubs).
  set (t1 := requireTextureState h W S t) in *.
  set (tex1 := mkTexture (desc tex) ts1) in *.
  assert (Hwf1 : forall ts, TextureState.subresourceStates ts
                            = TextureState.subresourceStates ts1 ->
                  wellFormedTexture (mkTexture (desc tex) ts)).
  { intros ts Hts. destruct Hwf as (HM & HA & Hlen).
    unfold wellFormedTexture. cbn [desc textureState].
    split; [exact HM|split; [exact HA|]].
    rewrite Hts, Hs1, seedStates_length. exact Hlen. }
  assert (Hall1 : forall sub,
             sub ∈ subresourcesOf (resolve W (desc tex) false) ->
             TextureState.subresourceStates ts1
               !! subresourceIndex (desc tex) sub.1 sub.2 = Some S).
  { intros sub Hin. rewrite Hs1. apply seedStates_lookup_in; [exact Hin|].
    now apply (subresource_in_range_lt tex (resolve W (desc tex) false)). }
  split; [|split].
  - rewrite Hb, coalesce_uniform_entire by assumption.
    eexists. split; [reflexivity|]. cbn. auto.
  - pose proof (requireTextureState_repeat t1 h tex1 W S Hh1 Hp1
                  (Hwf1 ts1 eq_refl) Hr Hsubs Hall1) as Hrep.
    cbn zeta in Hrep. cbn [tex1 textureState] in Hrep. rewrite Hf1 in Hrep.
    destruct (bool_decide (S = ResourceStates.UnorderedAccess));
      cbn in Hrep; [rewrite andb_false_r in Hrep|]; exact Hrep.
  - intros Hu placed.
    destruct (withFirstUavBarrierPlaced_lookup t1 h tex1 placed Hh1)
      as [Hh2 Hb2].
    cbn [tex1 desc textureState] in Hh2.
    pose proof (requireTextureState_repeat
                  (withFirstUavBarrierPlaced h placed t1) h _ W S Hh2 Hp1
                  (Hwf1 _ eq_refl) Hr Hsubs Hall1) as Hrep.
    cbn zeta in Hrep. cbn [desc textureState] in Hrep.
    rewrite (bool_decide_eq_true_2 _ Hu), Hb2 in Hrep.
    cbn [andb TextureState.setFirstUavBarrierPlaced
         TextureState.enableUavBarriers
         TextureState.firstUavBarrierPlaced] in Hrep.
    rewrite He1 in Hrep. exact Hrep.
Qed.

Lemma allSubresourcesIn_replicate n s d flags1 flags2 flags3 :
  allSubresourcesIn s
    (mkTexture d (TextureState.mk (replicate n s) flags1 flags2 flags3)).
Proof.
  intros i x H. cbn in H. now apply lookup_replicate in H as [-> _].
Qed.

Lemma requireTextureState_idempotent_witness :
  exists b,
    m_TextureBarriers
      (requireTextureState 1%nat AllSubresources
         ResourceStates.UnorderedAccess Scenario.tracker)
    = m_TextureBarriers Scenario.tracker ++ [b]
    /\ TextureBarrier.texture b = 1%nat
    /\ TextureBarrier.stateBefore b = ResourceStates.ShaderResource
    /\ TextureBarrier.stateAfter b = ResourceStates.UnorderedAccess.
Proof.
  refine (proj1 (requireTextureState_idempotent Scenario.tracker 1%nat
                   Scenario.texture4Mips AllSubresources
                   ResourceStates.UnorderedAccess
                   ResourceStates.ShaderResource _ _ _ _ _ _ _)).
  - reflexivity.
  - reflexivity.
  - unfold wellFormedTexture. cbn. repeat split; lia.
  - unfold resolvedInBounds, withinTexture. vm_compute.
    repeat split; discriminate.
  - vm_compute. reflexivity.
  - apply allSubresourcesIn_replicate.
  - discriminate.
Defined.

(** C2, the input at which the claim as stated fails: texture 3 is
    recorded in [ShaderResource], which differs from [CopyDest], but it
    is pinned: the first [requireTextureState] on the whole texture
    appends no record at all. *)
Lemma requireTextureState_pinned_appends_nothing :
  getTextureSubresourceState 3%nat 0 0 Scenario.tracker
  = ResourceStates.ShaderResource
  /\ ResourceStates.ShaderResource <> ResourceStates.CopyDest
  /\ m_TextureBarriers
       (requireTextureState 3%nat AllSubresources ResourceStates.CopyDest
          Scenario.tracker)
     = m_TextureBarriers Scenario.tracker.
Proof.
  split; [vm_compute; reflexivity|]. split; [discriminate|].
  vm_compute. reflexivity.
Qed.

(* ------------------------------------------------------------------ *)
(** ** Pinning *)

Lemma forceSubresourceState_states d P acc sub :
  TextureState.subresourceStates (forceSubresourceState d P acc sub).1
  = <[subresourceIndex d sub.1 sub.2 := P]>
      (TextureState.subresourceStates acc.1).
Proof.
  unfold forceSubresourceState.
  destruct (TextureState.subresourceStates acc.1
              !! subresourceIndex d sub.1 sub.2) as [stored|] eqn:E.
  - destruct (decide (stored = P)) as [->|Hne]; [|reflexivity].
    now rewrite (list_insert_id _ _ _ E).
  - symmetry. apply list_insert_ge. now apply lookup_ge_None.
Qed.

Lemma force_walk_states d P subs acc :
  TextureState.subresourceStates
    (foldl (forceSubresourceState d P) acc subs).1
  = seedStates d P (TextureState.subresourceStates acc.1) subs.
Proof.
  revert acc. induction subs as [|x xs IH]; intros acc; cbn; [reflexivity|].
  rewrite IH, forceSubresourceState_states. reflexivity.
Qed.

Lemma resolve_AllSubresources_inBounds tex :
  wellFormedTexture tex ->
  resolvedInBounds (resolve AllSubresources (desc tex) false) (desc tex).
Proof.
  intros (HM & HA & _). unfold resolvedInBounds, withinTexture, resolve.
  cbn [AllSubresources baseMipLevel numMipLevels baseArraySlice
       numArraySlices].
  rewrite (clampCount_no_wrap 0 AllMipLevels (mipLevels (desc tex)))
    by (unfold is_u32; rewrite ?AllMipLevels_value; lia).
  destruct (isArrayDimension (dimension (desc tex))); cbn.
  - rewrite (clampCount_no_wrap 0 AllArraySlices (arraySize (desc tex)))
      by (unfold is_u32; change AllArraySlices with (2 ^ 32 - 1); lia).
    rewrite AllMipLevels_value. change AllArraySlices with (2 ^ 32 - 1). lia.
  - rewrite AllMipLevels_value. lia.
Qed.

Lemma setPermanentTextureState_pins t h tex P :
  textures t !! h = Some tex -> wellFormedTexture tex ->
  texturePinnedAt h (desc tex) P
    (setPermanentTextureState h AllSubresources P t).
Proof.
  intros Hh Hwf.
  pose proof (resolve_AllSubresources_inBounds tex Hwf) as Hr.
  unfold setPermanentTextureState. rewrite Hh.
  destruct Hr as (H1 & H2 & H3 & H4 & Hw).
  rewrite (proj2 (withinTextureb_true _ _) Hw). cbn [negb].
  eexists. split; [cbn; apply lookup_insert_eq|].
  split; [reflexivity|]. split; [reflexivity|]. cbn [desc textureState].
  intros a m Hc. cbn [TextureState.setPermanentTransition
                      TextureState.subresourceStates].
  rewrite force_walk_states.
  apply (seedStates_lookup_in (desc tex) P _ _ (m, a)).
  - now apply elem_of_subresourcesOf.
  - apply (subresource_in_range_lt tex
             (resolve AllSubresources (desc tex) false) (m, a) Hwf).
    + repeat split; assumption || apply Hw.
    + now apply elem_of_subresourcesOf.
Qed.

Lemma setPermanentBufferState_pins t h buf P :
  buffers t !! h = Some buf ->
  bufferPinnedAt h P (setPermanentBufferState h P t).
Proof.
  intros Hh. unfold setPermanentBufferState. rewrite Hh.
  exists (mkBuffer (bufferDesc buf)
            (BufferState.setPermanentTransition true
               (BufferState.setState P (bufferState buf)))).
  destruct (decide _); cbn; (split; [apply lookup_insert_eq|now split]).
Qed.

Lemma requireBufferState_pinned t h P Q :
  bufferPinnedAt h P t -> requireBufferState h Q t = t.
Proof.
  intros (buf & Hh & Hp & _). unfold requireBufferState.
  now rewrite Hh, Hp.
Qed.

Lemma requireBufferState_other t h h' S :
  h <> h' -> buffers (requireBufferState h S t) !! h' = buffers t !! h'.
Proof.
  intros Hne. unfold requireBufferState.
  destruct (buffers t !! h) as [buf|]; [|reflexivity].
  destruct (BufferState.permanentTransition _); [reflexivity|].
  destruct (decide _).
  - destruct (decide _); [|reflexivity].
    destruct (_ && _); [|reflexivity]. cbn. now apply lookup_insert_ne.
  - cbn. now apply lookup_insert_ne.
Qed.

Lemma vulkan_onTracker_id f cl :
  f (vulkan.m_StateTracker cl) = vulkan.m_StateTracker cl ->
  vulkan.onTracker f cl = cl.
Proof. intros H. unfold vulkan.onTracker. rewrite H. now destruct cl. Qed.

(** Pinned resources stay pinned, in the same state, whatever is
    required or committed afterwards. *)
Lemma perform_keeps_texture_pinned h d P cl r :
  texturePinnedAt h d P (vulkan.m_StateTracker cl) ->
  texturePinnedAt h d P (vulkan.m_StateTracker (vulkan.perform cl r)).
Proof.
  intros (tex & Hh & Hd & Hp & Hall). destruct r as [h' R Q|b Q|]; cbn.
  - destruct (decide (h' = h)) as [->|Hne].
    + rewrite (requireTextureState_pinned _ _ _ _ _ Hh Hp). now exists tex.
    + exists tex. now rewrite requireTextureState_other.
  - exists tex. now rewrite requireBufferState_textures.
  - rewrite vulkan_commitBarriers_tracker. now exists tex.
Qed.

Lemma perform_keeps_buffer_pinned h P cl r :
  bufferPinnedAt h P (vulkan.m_StateTracker cl) ->
  bufferPinnedAt h P (vulkan.m_StateTracker (vulkan.perform cl r)).
Proof.
  intros Hpin. destruct r as [h' R Q|b Q|]; cbn.
  - destruct Hpin as (buf & Hh & Hp & Hs). exists buf.
    now rewrite requireTextureState_buffers.
  - destruct (decide (b = h)) as [->|Hne].
    + now rewrite (requireBufferState_pinned _ _ _ _ Hpin).
    + destruct Hpin as (buf & Hh & Hp & Hs). exists buf.
      now rewrite requireBufferState_other.
  - rewrite vulkan_commitBarriers_tracker.
    destruct Hpin as (buf & Hh & Hp & Hs). now exists buf.
Qed.

(** C5: once [setPermanentTextureState(t, P)] (resp.
    [setPermanentBufferState(b, P)]) has pinned a resource, then after
    any later sequence of require and commit calls the resource still
    reads back as P, and a further [requireTextureState] (resp.
    [requireBufferState]) on it with any state leaves the whole command
    list as it is: no stored state changes, no record is appended, no
    message is produced. *)
Theorem pinned_resource_ignores_requireState (cl : vulkan.CommandList)
    (t b : Handle) (tex : Texture) (buf : Buffer) (P Pb : ResourceStates)
    (later : list vulkan.Request) :
  textures (vulkan.m_StateTracker cl) !! t = Some tex ->
  wellFormedTexture tex ->
  buffers (vulkan.m_StateTracker cl) !! b = Some buf ->
  let clT := foldl vulkan.perform (vulkan.setPermanentTextureState t P cl) later in
  let clB := foldl vulkan.perform (vulkan.setPermanentBufferState b Pb cl) later in
  (forall arraySlice mipLevel,
     contains (resolve AllSubresources (desc tex) false) arraySlice mipLevel ->
     vulkan.getTextureSubresourceState t arraySlice mipLevel clT = P)
  /\ (forall R Q, vulkan.requireTextureState t R Q clT = clT)
  /\ vulkan.getBufferState b clB = Pb
  /\ (forall Q, vulkan.requireBufferState b Q clB = clB).
Proof.
  intros Hh Hwf Hb. cbn zeta.
  assert (HT : forall cl0,
    texturePinnedAt t (desc tex) P (vulkan.m_StateTracker cl0) ->
    texturePinnedAt t (desc tex) P
      (vulkan.m_StateTracker (foldl vulkan.perform cl0 later))).
  { induction later as [|r rs IH]; intros cl0 H0; cbn; [exact H0|].
    apply IH. now apply perform_keeps_texture_pinned. }
  assert (HB : forall cl0,
    bufferPinnedAt b Pb (vulkan.m_StateTracker cl0) ->
    bufferPinnedAt b Pb
      (vulkan.m_StateTracker (foldl vulkan.perform cl0 later))).
  { clear HT. induction later as [|r rs IH]; intros cl0 H0; cbn;
      [exact H0|]. apply IH. now apply perform_keeps_buffer_pinned. }
  specialize (HT (vulkan.setPermanentTextureState t P cl)
                (setPermanentTextureState_pins _ _ tex _ Hh Hwf)).
  specialize (HB (vulkan.setPermanentBufferState b Pb cl)
                (setPermanentBufferState_pins _ _ buf _ Hb)).
  split; [|split; [|split]].
  - intros a m Hc. destruct HT as (tex' & Hh' & Hd' & Hp' & Hall').
    unfold vulkan.getTextureSubresourceState,
      getTextureSubresourceState.
    rewrite Hh', Hd', (Hall' a m Hc). reflexivity.
  - intros R Q. destruct HT as (tex' & Hh' & Hd' & Hp' & Hall').
    apply vulkan_onTracker_id.
    apply (requireTextureState_pinned _ _ _ _ _ Hh' Hp').
  - destruct HB as (buf' & Hb' & Hp' & Hs').
    unfold vulkan.getBufferState, getBufferState.
    now rewrite Hb'.
  - intros Q. apply vulkan_onTracker_id.
    apply (requireBufferState_pinned _ _ _ _ HB).
Qed.

Lemma pinned_resource_ignores_requireState_witness :
  vulkan.getBufferState 10%nat
    (foldl vulkan.perform
       (vulkan.setPermanentBufferState 10%nat ResourceStates.AccelStructRead
          (Scenario.vulkanCommandList Scenario.tracker))
       [vulkan.RequireBufferState 10%nat ResourceStates.CopyDest;
        vulkan.CommitBarriers])
  = ResourceStates.AccelStructRead.
Proof.
  refine (proj1 (proj2 (proj2
    (pinned_resource_ignores_requireState
       (Scenario.vulkanCommandList Scenario.tracker) 1%nat 10%nat
       Scenario.texture4Mips
       (Scenario.bufferIn ResourceStates.ShaderResource)
       ResourceStates.ShaderResource ResourceStates.AccelStructRead
       [vulkan.RequireBufferState 10%nat ResourceStates.CopyDest;
        vulkan.CommitBarriers] _ _ _)))).
  - reflexivity.
  - unfold wellFormedTexture. cbn. repeat split; lia.
  - reflexivity.
Defined.

(* ------------------------------------------------------------------ *)
(** ** Minimality *)

(** What one pending texture record becomes in [commitBarriersInternal]:
    the whole texture when [entireTexture] is set, one mip level of one
    array slice otherwise. *)
Lemma imageBarrierOf_range t b tex :
  textures t !! TextureBarrier.texture b = Some tex ->
  let range := vulkan.subresourceRange (vulkan.imageBarrierOf t b) in
  if TextureBarrier.entireTexture b then
    vulkan.rangeBaseMipLevel range = 0
    /\ vulkan.levelCount range = mipLevels (desc tex)
    /\ vulkan.baseArrayLayer range = 0
    /\ vulkan.layerCount range = arraySize (desc tex)
  else
    vulkan.rangeBaseMipLevel range = TextureBarrier.mipLevel b
    /\ vulkan.levelCount range = 1
    /\ vulkan.baseArrayLayer range = TextureBarrier.arraySlice b
    /\ vulkan.layerCount range = 1.
Proof.
  intros Hh. unfold vulkan.imageBarrierOf. rewrite Hh. cbn.
  destruct (TextureBarrier.entireTexture b); cbn; auto.
Qed.

(** C6, as amended: when every subresource of the resolved range holds
    one state other than the required one, an unpinned texture gets
    exactly one record, with [entireTexture] set, if the range is the
    entire texture, and one single-subresource record per subresource of
    the range otherwise.  A record becomes a native barrier over the
    whole texture or over one mip level of one array slice, never over a
    part of the texture larger than one subresource. *)
Theorem requireTextureState_coalesces_entire_texture_only (t : StateTracker)
    (h : Handle) (tex : Texture) (W : TextureSubresourceSet)
    (S s0 : ResourceStates) :
  textures t !! h = Some tex ->
  TextureState.permanentTransition (textureState tex) = false ->
  wellFormedTexture tex ->
  resolvedInBounds (resolve W (desc tex) false) (desc tex) ->
  (forall sub, sub ∈ subresourcesOf (resolve W (desc tex) false) ->
     TextureState.subresourceStates (textureState tex)
       !! subresourceIndex (desc tex) sub.1 sub.2 = Some s0) ->
  s0 <> S ->
  let r := resolve W (desc tex) false in
  let t' := requireTextureState h W S t in
  m_TextureBarriers t'
  = m_TextureBarriers t
    ++ (if isEntireTexture r (desc tex)
        then [TextureBarrier.mk h 0 0 true s0 S]
        else (fun sub => TextureBarrier.mk h sub.1 sub.2 false s0 S)
               <$> subresourcesOf r)
  /\ forall b,
       b ∈ m_TextureBarriers t' -> TextureBarrier.texture b = h ->
       let range := vulkan.subresourceRange (vulkan.imageBarrierOf t' b) in
       (vulkan.levelCount range = mipLevels (desc tex)
        /\ vulkan.layerCount range = arraySize (desc tex))
       \/ (vulkan.levelCount range = 1 /\ vulkan.layerCount range = 1).
Proof.
  intros Hh Hp Hwf Hr Hall Hne. cbn zeta.
  destruct (requireTextureState_first t h tex W S s0 Hh Hp Hwf Hr Hall Hne)
    as (Hb & ts1 & Hh1 & _).
  cbn zeta in Hb, Hh1. split.
  - rewrite Hb. f_equal.
    destruct (isEntireTexture (resolve W (desc tex) false) (desc tex)) eqn:He.
    + apply coalesce_uniform_entire; [|exact He].
      now apply entire_resolved_nonempty.
    + rewrite coalesce_partial by exact He.
      rewrite <- list_fmap_compose. reflexivity.
  - intros b _ Hbh. subst h.
    pose proof (imageBarrierOf_range _ b _ Hh1) as Hrange.
    cbn zeta in Hrange. cbn [desc] in Hrange. cbn zeta.
    destruct (TextureBarrier.entireTexture b);
      destruct Hrange as (_ & H1 & _ & H2); [left|right];
      split; assumption.
Qed.

Lemma requireTextureState_coalesces_entire_texture_only_witness :
  m_TextureBarriers
    (requireTextureState 1%nat Scenario.mips0To1
       ResourceStates.UnorderedAccess Scenario.tracker)
  = m_TextureBarriers Scenario.tracker
    ++ (if isEntireTexture
             (resolve Scenario.mips0To1 Scenario.desc4Mips false)
             Scenario.desc4Mips
        then [TextureBarrier.mk 1%nat 0 0 true ResourceStates.ShaderResource
                ResourceStates.UnorderedAccess]
        else (fun sub =>
                TextureBarrier.mk 1%nat sub.1 sub.2 false
                  ResourceStates.ShaderResource
                  ResourceStates.UnorderedAccess)
               <$> subresourcesOf
                     (resolve Scenario.mips0To1 Scenario.desc4Mips false)).
Proof.
  refine (proj1 (requireTextureState_coalesces_entire_texture_only
                   Scenario.tracker 1%nat Scenario.texture4Mips
                   Scenario.mips0To1 ResourceStates.UnorderedAccess
                   ResourceStates.ShaderResource _ _ _ _ _ _)).
  - reflexivity.
  - reflexivity.
  - unfold wellFormedTexture. cbn. repeat split; lia.
  - unfold resolvedInBounds, withinTexture. vm_compute.
    repeat split; discriminate.
  - intros sub Hin.
    apply (allSubresourcesIn_lookup Scenario.texture4Mips
             (resolve Scenario.mips0To1 Scenario.desc4Mips false)).
    + unfold wellFormedTexture. cbn. repeat split; lia.
    + unfold resolvedInBounds, withinTexture. vm_compute.
      repeat split; discriminate.
    + apply allSubresourcesIn_replicate.
    + exact Hin.
  - discriminate.
Defined.

(** C6, the input at which the claim as stated fails: on the 4-mip
    texture entirely in [ShaderResource], requiring [UnorderedAccess] on
    mips 0-1 appends two records, one per mip (mips 2-3 do remain in
    [ShaderResource]); and no record on that texture becomes a native
    barrier over exactly mips 0-1. *)
Lemma requireTextureState_mips0To1_not_one_record :
  let t' :=
    requireTextureState 1%nat Scenario.mips0To1
      ResourceStates.UnorderedAccess Scenario.tracker in
  m_TextureBarriers t'
  = [ TextureBarrier.mk 1%nat 0 0 false ResourceStates.ShaderResource
        ResourceStates.UnorderedAccess;
      TextureBarrier.mk 1%nat 1 0 false ResourceStates.ShaderResource
        ResourceStates.UnorderedAccess ]
  /\ getTextureSubresourceState 1%nat 0 2 t'
     = ResourceStates.ShaderResource
  /\ getTextureSubresourceState 1%nat 0 3 t'
     = ResourceStates.ShaderResource
  /\ ~ exists b,
         TextureBarrier.texture b = 1%nat
         /\ vulkan.levelCount
              (vulkan.subresourceRange (vulkan.imageBarrierOf t' b)) = 2.
Proof.
  cbn zeta. split; [vm_compute; reflexivity|].
  split; [vm_compute; reflexivity|]. split; [vm_compute; reflexivity|].
  intros (b & Hb & Hc).
  assert (Hh : textures
                 (requireTextureState 1%nat Scenario.mips0To1
                    ResourceStates.UnorderedAccess Scenario.tracker)
                 !! TextureBarrier.texture b
               = Some (mkTexture Scenario.desc4Mips
                         (TextureState.mk
                            [ResourceStates.UnorderedAccess;
                             ResourceStates.UnorderedAccess;
                             ResourceStates.ShaderResource;
                             ResourceStates.ShaderResource]
                            true true false))).
  { rewrite Hb. vm_compute. reflexivity. }
  pose proof (imageBarrierOf_range _ b _ Hh) as Hrange. cbn zeta in Hrange.
  destruct (TextureBarrier.entireTexture b);
    destruct Hrange as (_ & Hl & _); rewrite Hl in Hc; discriminate.
Qed.

(* ------------------------------------------------------------------ *)
(** ** Binding sets that are submitted again *)

(** Whatever the mask, the loop submits every binding set that has UAV
    bindings; what decides is whether the loop runs at all. *)
Lemma bindingSetsToUpdateFrom_uav i mask newBindings p items needTransitions :
  p ∈ newBindings ->
  pointee p = BindingSet items true needTransitions ->
  p ∈ vulkan.bindingSetsToUpdateFrom i mask newBindings.
Proof.
  revert i. induction newBindings as [|q rest IH]; intros i Hin Hp.
  - inversion Hin.
  - cbn. apply elem_of_cons in Hin as [<-|Hin].
    + rewrite Hp, orb_true_r. left.
    + specialize (IH (i + 1) Hin Hp).
      destruct (pointee q) as [? hasUav ?|]; [|exact IH].
      destruct (_ || hasUav); [now right|exact IH].
Qed.

Lemma bindingSetsToUpdate_dirty newBindings oldBindings p items needTransitions :
  p ∈ newBindings ->
  pointee p = BindingSet items true needTransitions ->
  p ∈ vulkan.bindingSetsToUpdate true newBindings oldBindings.
Proof.
  intros Hin Hp. unfold vulkan.bindingSetsToUpdate.
  change (u32 (Z.lnot 0) =? 0) with false. cbn [negb].
  eapply bindingSetsToUpdateFrom_uav; eassumption.
Qed.

Lemma bindingSetsToUpdate_changed newBindings oldBindings p items
    needTransitions :
  arrayDifferenceMask newBindings oldBindings <> 0 ->
  p ∈ newBindings ->
  pointee p = BindingSet items true needTransitions ->
  p ∈ vulkan.bindingSetsToUpdate false newBindings oldBindings.
Proof.
  intros Hmask Hin Hp. unfold vulkan.bindingSetsToUpdate.
  change (0 =? 0) with true. cbn match.
  apply Z.eqb_neq in Hmask. rewrite Hmask. cbn [negb].
  eapply bindingSetsToUpdateFrom_uav; eassumption.
Qed.

(** With the same vector bound as before and no dirty flag, no set is
    submitted, with or without UAV bindings. *)
Lemma bindingSetsToUpdate_unchanged (newBindings : BindingSetVector) :
  arrayDifferenceMask newBindings newBindings = 0
  /\ vulkan.bindingSetsToUpdate false newBindings newBindings = [].
Proof.
  assert (Hmask : arrayDifferenceMask newBindings newBindings = 0).
  { unfold arrayDifferenceMask.
    induction (seq 0 (Nat.max (length newBindings) (length newBindings)))
      as [|i l IH]; cbn; [reflexivity|].
    now destruct (decide _). }
  split; [exact Hmask|].
  unfold vulkan.bindingSetsToUpdate. now rewrite Hmask.
Qed.

(** C1, at the input where the code leaves what the claim says: the
    binding states are not dirty and the compute state binds the very
    binding set, with a UAV binding of texture 2, that the previous
    dispatch bound.  The difference mask is 0, the loop over the binding
    sets is skipped, and no set is passed to
    [setResourceStatesForBindingSet]: [insertComputeResourceBarriers] and
    [insertRayTracingResourceBarriers] leave the command list as it was.
    Passing the set would have placed the UAV barrier on texture 2. *)
Theorem unchanged_uav_binding_set_not_resubmitted :
  let cl := Scenario.vulkanCommandList Scenario.tracker in
  let newBindings := [Scenario.uavBindingSet] in
  vulkan.m_BindingStatesDirty cl = false
  /\ vulkan.bindings (vulkan.m_CurrentComputeState cl) = newBindings
  /\ arrayDifferenceMask newBindings newBindings = 0
  /\ vulkan.bindingSetsToUpdate false newBindings newBindings = []
  /\ vulkan.insertComputeResourceBarriers
       (vulkan.mkComputeState newBindings None) cl = cl
  /\ vulkan.insertRayTracingResourceBarriers
       (vulkan.mk_rt_State newBindings) cl = cl
  /\ m_TextureBarriers
       (vulkan.m_StateTracker
          (vulkan.setResourceStatesForBindingSet
             (Some (pointee Scenario.uavBindingSet)) cl))
     = [TextureBarrier.mk 2%nat 0 0 true ResourceStates.UnorderedAccess
          ResourceStates.UnorderedAccess].
Proof.
  cbn zeta. repeat split; vm_compute; reflexivity.
Qed.

(* ------------------------------------------------------------------ *)
(** ** Copy, write and clear operations *)

Lemma d3d12_commitBarriers_tracker cl :
  d3d12.m_StateTracker (d3d12.commitBarriers cl)
  = clearBarriers (d3d12.m_StateTracker cl).
Proof.
  unfold d3d12.commitBarriers.
  destruct (m_TextureBarriers _) eqn:Et, (m_BufferBarriers _) eqn:Eb;
    try reflexivity.
  symmetry. now apply clearBarriers_id.
Qed.

(** The D3D12 commit records one call holding one native barrier per
    pending record, or nothing when nothing is pending. *)
Lemma d3d12_commitBarriers_commands cl :
  let t := d3d12.m_StateTracker cl in
  d3d12.commandList (d3d12.commitBarriers cl)
  = d3d12.commandList cl
    ++ (if bool_decide (m_TextureBarriers t = [])
           && bool_decide (m_BufferBarriers t = [])
        then []
        else [d3d12.ResourceBarrier
                ((d3d12.textureBarrier <$> m_TextureBarriers t)
                 ++ (d3d12.bufferBarrier <$> m_BufferBarriers t))]).
Proof.
  cbn zeta. unfold d3d12.commitBarriers.
  destruct (m_TextureBarriers _) eqn:Et, (m_BufferBarriers _) eqn:Eb; cbn;
    rewrite ?app_nil_r; reflexivity.
Qed.

Lemma d3d12_referenceBuffer_same h cl :
  d3d12.m_StateTracker (d3d12.referenceBuffer h cl) = d3d12.m_StateTracker cl
  /\ d3d12.commandList (d3d12.referenceBuffer h cl) = d3d12.commandList cl.
Proof.
  unfold d3d12.referenceBuffer.
  destruct (buffers _ !! h) as [buf|]; [|easy].
  now destruct (cpuAccessNone _).
Qed.

Lemma clearBarriers_props t :
  sameStoredStates t (clearBarriers t) /\ nothingPending (clearBarriers t).
Proof. repeat split. Qed.

(** [copyBuffer]: the requires (if automatic barriers are on), then the
    commit, then the native copy. *)
Lemma d3d12_copyBuffer_steps dest destOffset src srcOffset n cl :
  let cl1 :=
    if d3d12.m_EnableAutomaticBarriers cl
    then d3d12.requireBufferState src ResourceStates.CopySource
           (d3d12.requireBufferState dest ResourceStates.CopyDest cl)
    else cl in
  let cl' := d3d12.copyBuffer dest destOffset src srcOffset n cl in
  d3d12.commandList cl'
  = d3d12.commandList (d3d12.commitBarriers cl1)
    ++ [d3d12.CopyBufferRegion dest destOffset src srcOffset n]
  /\ d3d12.m_StateTracker cl' = clearBarriers (d3d12.m_StateTracker cl1).
Proof.
  cbn zeta. unfold d3d12.copyBuffer. cbn [d3d12.record d3d12.commandList
    d3d12.m_StateTracker].
  destruct (d3d12_referenceBuffer_same dest
              (d3d12.referenceBuffer src
                 (d3d12.commitBarriers
                    (if d3d12.m_EnableAutomaticBarriers cl
                     then d3d12.requireBufferState src
                            ResourceStates.CopySource
                            (d3d12.requireBufferState dest
                               ResourceStates.CopyDest cl)
                     else cl)))) as [-> ->].
  destruct (d3d12_referenceBuffer_same src
              (d3d12.commitBarriers
                 (if d3d12.m_EnableAutomaticBarriers cl
                  then d3d12.requireBufferState src
                         ResourceStates.CopySource
                         (d3d12.requireBufferState dest
                            ResourceStates.CopyDest cl)
                  else cl))) as [-> ->].
  split; [reflexivity|apply d3d12_commitBarriers_tracker].
Qed.

Lemma d3d12_copyBuffer_trace dest destOffset src srcOffset n cl :
  let t1 :=
    if d3d12.m_EnableAutomaticBarriers cl
    then requireBufferState src ResourceStates.CopySource
           (requireBufferState dest ResourceStates.CopyDest
              (d3d12.m_StateTracker cl))
    else d3d12.m_StateTracker cl in
  let cl' := d3d12.copyBuffer dest destOffset src srcOffset n cl in
  d3d12.m_StateTracker cl' = clearBarriers t1
  /\ d3d12.commandList cl'
     = d3d12.commandList cl ++ d3d12_flush t1
       ++ [d3d12.CopyBufferRegion dest destOffset src srcOffset n].
Proof.
  cbn zeta.
  destruct (d3d12_copyBuffer_steps dest destOffset src srcOffset n cl)
    as [Hc Ht]. cbn zeta in Hc, Ht.
  rewrite Hc, Ht, d3d12_commitBarriers_commands. cbn zeta.
  rewrite <- app_assoc.
  destruct (d3d12.m_EnableAutomaticBarriers cl); split; reflexivity.
Qed.

Lemma d3d12_writeBuffer_trace b dataSize destOffset alloc cl :
  let t1 :=
    if d3d12.m_EnableAutomaticBarriers cl
    then requireBufferState b ResourceStates.CopyDest (d3d12.m_StateTracker cl)
    else d3d12.m_StateTracker cl in
  let cl' := d3d12.writeBuffer b dataSize destOffset alloc cl in
  match alloc, buffers (d3d12.m_StateTracker cl) !! b with
  | Some a, Some buf =>
    if isVolatile (bufferDesc buf) then
      d3d12.m_StateTracker cl' = d3d12.m_StateTracker cl
      /\ d3d12.commandList cl' = d3d12.commandList cl
    else
      d3d12.m_StateTracker cl' = clearBarriers t1
      /\ d3d12.commandList cl'
         = d3d12.commandList cl ++ d3d12_flush t1
           ++ [d3d12.CopyBufferRegion b destOffset (d3d12.uploadBuffer a)
                 (d3d12.offsetInUploadBuffer a) dataSize]
  | _, _ =>
    d3d12.m_StateTracker cl' = d3d12.m_StateTracker cl
    /\ d3d12.commandList cl' = d3d12.commandList cl
  end.
Proof.
  cbn zeta. unfold d3d12.writeBuffer. destruct alloc as [a|]; [|easy].
  assert (Hu : d3d12.m_StateTracker (d3d12.useUploadBuffer (d3d12.uploadBuffer a) cl)
               = d3d12.m_StateTracker cl
               /\ d3d12.commandList (d3d12.useUploadBuffer (d3d12.uploadBuffer a) cl)
                  = d3d12.commandList cl
               /\ d3d12.m_EnableAutomaticBarriers
                    (d3d12.useUploadBuffer (d3d12.uploadBuffer a) cl)
                  = d3d12.m_EnableAutomaticBarriers cl).
  { unfold d3d12.useUploadBuffer. now destruct (decide _). }
  destruct Hu as (Hut & Huc & Hue). rewrite Hut.
  destruct (buffers (d3d12.m_StateTracker cl) !! b) as [buf|]; [|easy].
  destruct (isVolatile (bufferDesc buf)); [easy|].
  cbn [d3d12.record d3d12.reference d3d12.commandList d3d12.m_StateTracker].
  rewrite d3d12_commitBarriers_tracker, d3d12_commitBarriers_commands.
  cbn zeta. rewrite Hue, <- app_assoc.
  destruct (d3d12.m_EnableAutomaticBarriers cl); cbn; rewrite Hut, Huc;
    split; reflexivity.
Qed.

Lemma d3d12_clearBufferUInt_trace b clearValue heapsChanged cl :
  let t1 :=
    if d3d12.m_EnableAutomaticBarriers cl
    then requireBufferState b ResourceStates.UnorderedAccess
           (d3d12.m_StateTracker cl)
    else d3d12.m_StateTracker cl in
  let cl' := d3d12.clearBufferUInt b clearValue heapsChanged cl in
  match buffers (d3d12.m_StateTracker cl) !! b with
  | Some buf =>
    if canHaveUAVs (bufferDesc buf) then
      d3d12.m_StateTracker cl' = clearBarriers t1
      /\ d3d12.commandList cl'
         = d3d12.commandList cl ++ d3d12_flush t1
           ++ (if heapsChanged then [d3d12.SetDescriptorHeaps] else [])
           ++ [d3d12.ClearUnorderedAccessViewUint b clearValue]
    else
      d3d12.m_StateTracker cl' = d3d12.m_StateTracker cl
      /\ d3d12.commandList cl' = d3d12.commandList cl
  | None =>
    d3d12.m_StateTracker cl' = d3d12.m_StateTracker cl
    /\ d3d12.commandList cl' = d3d12.commandList cl
  end.
Proof.
  cbn zeta. unfold d3d12.clearBufferUInt.
  destruct (buffers (d3d12.m_StateTracker cl) !! b) as [buf|]; [|easy].
  destruct (canHaveUAVs (bufferDesc buf)); [|easy]. cbn [negb].
  destruct heapsChanged;
    cbn [d3d12.record d3d12.reference d3d12.commandList d3d12.m_StateTracker];
    rewrite d3d12_commitBarriers_tracker, d3d12_commitBarriers_commands;
    cbn zeta; rewrite <- ?app_assoc;
    destruct (d3d12.m_EnableAutomaticBarriers cl); cbn; split; reflexivity.
Qed.

Lemma vulkan_copyTextureToStaging_trace dst dstSlice src srcSlice cl :
  let t1 :=
    if vulkan.m_EnableAutomaticBarriers cl
    then requireTextureState src
           (mkTextureSubresourceSet (vulkan.mipLevel srcSlice) 1
              (vulkan.arraySlice srcSlice) 1)
           ResourceStates.CopySource
           (requireBufferState (vulkan.buffer dst) ResourceStates.CopyDest
              (vulkan.m_StateTracker cl))
    else vulkan.m_StateTracker cl in
  let cl' := vulkan.copyTextureToStaging dst dstSlice src srcSlice cl in
  vulkan.m_StateTracker cl' = clearBarriers t1
  /\ vulkan.cmdBuf cl'
     = vulkan.cmdBuf cl ++ vulkan_flush (vulkan.renderPassActive cl) t1
       ++ [vulkan.copyImageToBuffer src (vulkan.buffer dst)
             (vulkan.mipLevel srcSlice) (vulkan.arraySlice srcSlice)].
Proof.
  cbn zeta. unfold vulkan.copyTextureToStaging.
  cbn [vulkan.record vulkan.reference vulkan.referenceStagingBuffer
       vulkan.cmdBuf vulkan.m_StateTracker].
  rewrite vulkan_commitBarriers_tracker, vulkan_commitBarriers_commands.
  cbn zeta. unfold vulkan.anyBarriers. rewrite <- !app_assoc.
  destruct (vulkan.m_EnableAutomaticBarriers cl); cbn; split; reflexivity.
Qed.

Lemma vulkan_copyTextureFromStaging_trace dst dstSlice src srcSlice cl :
  let t1 :=
    if vulkan.m_EnableAutomaticBarriers cl
    then requireTextureState dst
           (mkTextureSubresourceSet (vulkan.mipLevel dstSlice) 1
              (vulkan.arraySlice dstSlice) 1)
           ResourceStates.CopyDest
           (requireBufferState (vulkan.buffer src) ResourceStates.CopySource
              (vulkan.m_StateTracker cl))
    else vulkan.m_StateTracker cl in
  let cl' := vulkan.copyTextureFromStaging dst dstSlice src srcSlice cl in
  vulkan.m_StateTracker cl' = clearBarriers t1
  /\ vulkan.cmdBuf cl'
     = vulkan.cmdBuf cl ++ vulkan_flush (vulkan.renderPassActive cl) t1
       ++ [vulkan.copyBufferToImage (vulkan.buffer src) dst
             (vulkan.mipLevel dstSlice) (vulkan.arraySlice dstSlice)].
Proof.
  cbn zeta. unfold vulkan.copyTextureFromStaging.
  cbn [vulkan.record vulkan.reference vulkan.referenceStagingBuffer
       vulkan.cmdBuf vulkan.m_StateTracker].
  rewrite vulkan_commitBarriers_tracker, vulkan_commitBarriers_commands.
  cbn zeta. unfold vulkan.anyBarriers. rewrite <- !app_assoc.
  destruct (vulkan.m_EnableAutomaticBarriers cl); cbn; split; reflexivity.
Qed.

(** C7, as amended: every copy, write and clear operation that records
    a native command first requires the needed states on its source and
    destination when automatic barriers are enabled, and in either case
    commits before it records the command: the command comes after the
    barriers of everything that was pending, and is recorded with
    nothing pending.  [writeBuffer] to a volatile buffer, a failed upload
    allocation and [clearBufferUInt] on a buffer without UAV support
    record no native command. *)
Theorem copy_write_clear_commit_before_native_command
    (vcl : vulkan.CommandList) (dcl : d3d12.CommandList)
    (staging : vulkan.StagingTexture) (stagingSlice textureSlice : vulkan.TextureSlice)
    (texture : Handle) (dest src b : Handle)
    (destOffset srcOffset n dataSize clearValue : Z)
    (alloc : option d3d12.UploadAllocation) (heapsChanged : bool) :
  (let t1 :=
     if vulkan.m_EnableAutomaticBarriers vcl
     then requireTextureState texture
            (mkTextureSubresourceSet (vulkan.mipLevel textureSlice) 1
               (vulkan.arraySlice textureSlice) 1)
            ResourceStates.CopySource
            (requireBufferState (vulkan.buffer staging)
               ResourceStates.CopyDest (vulkan.m_StateTracker vcl))
     else vulkan.m_StateTracker vcl in
   let cl' :=
     vulkan.copyTextureToStaging staging stagingSlice texture textureSlice vcl in
   nothingPending (vulkan.m_StateTracker cl')
   /\ sameStoredStates t1 (vulkan.m_StateTracker cl')
   /\ vulkan.cmdBuf cl'
      = vulkan.cmdBuf vcl ++ vulkan_flush (vulkan.renderPassActive vcl) t1
        ++ [vulkan.copyImageToBuffer texture (vulkan.buffer staging)
              (vulkan.mipLevel textureSlice) (vulkan.arraySlice textureSlice)])
  /\ (let t1 :=
        if vulkan.m_EnableAutomaticBarriers vcl
        then requireTextureState texture
               (mkTextureSubresourceSet (vulkan.mipLevel textureSlice) 1
                  (vulkan.arraySlice textureSlice) 1)
               ResourceStates.CopyDest
               (requireBufferState (vulkan.buffer staging)
                  ResourceStates.CopySource (vulkan.m_StateTracker vcl))
        else vulkan.m_StateTracker vcl in
      let cl' :=
        vulkan.copyTextureFromStaging texture textureSlice staging
          stagingSlice vcl in
      nothingPending (vulkan.m_StateTracker cl')
      /\ sameStoredStates t1 (vulkan.m_StateTracker cl')
      /\ vulkan.cmdBuf cl'
         = vulkan.cmdBuf vcl ++ vulkan_flush (vulkan.renderPassActive vcl) t1
           ++ [vulkan.copyBufferToImage (vulkan.buffer staging) texture
                 (vulkan.mipLevel textureSlice)
                 (vulkan.arraySlice textureSlice)])
  /\ (let t1 :=
        if d3d12.m_EnableAutomaticBarriers dcl
        then requireBufferState src ResourceStates.CopySource
               (requireBufferState dest ResourceStates.CopyDest
                  (d3d12.m_StateTracker dcl))
        else d3d12.m_StateTracker dcl in
      let cl' := d3d12.copyBuffer dest destOffset src srcOffset n dcl in
      nothingPending (d3d12.m_StateTracker cl')
      /\ sameStoredStates t1 (d3d12.m_StateTracker cl')
      /\ d3d12.commandList cl'
         = d3d12.commandList dcl ++ d3d12_flush t1
           ++ [d3d12.CopyBufferRegion dest destOffset src srcOffset n])
  /\ (let t1 :=
        if d3d12.m_EnableAutomaticBarriers dcl
        then requireBufferState b ResourceStates.CopyDest
               (d3d12.m_StateTracker dcl)
        else d3d12.m_StateTracker dcl in
      let cl' := d3d12.writeBuffer b dataSize destOffset alloc dcl in
      match alloc, buffers (d3d12.m_StateTracker dcl) !! b with
      | Some a, Some buf =>
        if isVolatile (bufferDesc buf) then
          d3d12.commandList cl' = d3d12.commandList dcl
        else
          nothingPending (d3d12.m_StateTracker cl')
          /\ sameStoredStates t1 (d3d12.m_StateTracker cl')
          /\ d3d12.commandList cl'
             = d3d12.commandList dcl ++ d3d12_flush t1
               ++ [d3d12.CopyBufferRegion b destOffset (d3d12.uploadBuffer a)
                     (d3d12.offsetInUploadBuffer a) dataSize]
      | _, _ => d3d12.commandList cl' = d3d12.commandList dcl
      end)
  /\ (let t1 :=
        if d3d12.m_EnableAutomaticBarriers dcl
        then requireBufferState b ResourceStates.UnorderedAccess
               (d3d12.m_StateTracker dcl)
        else d3d12.m_StateTracker dcl in
      let cl' := d3d12.clearBufferUInt b clearValue heapsChanged dcl in
      match buffers (d3d12.m_StateTracker dcl) !! b with
      | Some buf =>
        if canHaveUAVs (bufferDesc buf) then
          nothingPending (d3d12.m_StateTracker cl')
          /\ sameStoredStates t1 (d3d12.m_StateTracker cl')
          /\ d3d12.commandList cl'
             = d3d12.commandList dcl ++ d3d12_flush t1
               ++ (if heapsChanged then [d3d12.SetDescriptorHeaps] else [])
               ++ [d3d12.ClearUnorderedAccessViewUint b clearValue]
        else d3d12.commandList cl' = d3d12.commandList dcl
      | None => d3d12.commandList cl' = d3d12.commandList dcl
      end).
Proof.
  split; [|split; [|split; [|split]]]; cbn zeta.
  - destruct (vulkan_copyTextureToStaging_trace staging stagingSlice texture
                textureSlice vcl) as [Ht Hc].
    cbn zeta in Ht, Hc. rewrite Ht, Hc.
    split; [apply clearBarriers_props|].
    split; [apply clearBarriers_props|reflexivity].
  - destruct (vulkan_copyTextureFromStaging_trace texture textureSlice staging
                stagingSlice vcl) as [Ht Hc].
    cbn zeta in Ht, Hc. rewrite Ht, Hc.
    split; [apply clearBarriers_props|].
    split; [apply clearBarriers_props|reflexivity].
  - destruct (d3d12_copyBuffer_trace dest destOffset src srcOffset n dcl)
      as [Ht Hc].
    cbn zeta in Ht, Hc. rewrite Ht, Hc.
    split; [apply clearBarriers_props|].
    split; [apply clearBarriers_props|reflexivity].
  - pose proof (d3d12_writeBuffer_trace b dataSize destOffset alloc dcl) as H.
    cbn zeta in H. destruct alloc as [a|]; [|apply H].
    destruct (buffers (d3d12.m_StateTracker dcl) !! b) as [buf|]; [|apply H].
    destruct (isVolatile (bufferDesc buf)); [apply H|].
    destruct H as [Ht Hc]. rewrite Ht, Hc.
    split; [apply clearBarriers_props|].
    split; [apply clearBarriers_props|reflexivity].
  - pose proof (d3d12_clearBufferUInt_trace b clearValue heapsChanged dcl) as H.
    cbn zeta in H.
    destruct (buffers (d3d12.m_StateTracker dcl) !! b) as [buf|]; [|apply H].
    destruct (canHaveUAVs (bufferDesc buf)); [|apply H].
    destruct H as [Ht Hc]. rewrite Ht, Hc.
    split; [apply clearBarriers_props|].
    split; [apply clearBarriers_props|reflexivity].
Qed.

(** C7, the input at which the claim as stated fails: with automatic
    barriers disabled, [copyBuffer] records the native copy although
    neither buffer was required in its copy state: both are still
    recorded in [ShaderResource] and no barrier precedes the copy. *)
Lemma copyBuffer_without_requiring_states :
  let cl' :=
    d3d12.copyBuffer 10%nat 0 11%nat 0 16
      (Scenario.d3d12CommandList Scenario.tracker false) in
  d3d12.commandList cl' = [d3d12.CopyBufferRegion 10%nat 0 11%nat 0 16]
  /\ getBufferState 10%nat (d3d12.m_StateTracker cl')
     = ResourceStates.ShaderResource
  /\ getBufferState 11%nat (d3d12.m_StateTracker cl')
     = ResourceStates.ShaderResource
  /\ ResourceStates.ShaderResource <> ResourceStates.CopyDest
  /\ ResourceStates.ShaderResource <> ResourceStates.CopySource.
Proof.
  cbn zeta. repeat split; try discriminate; vm_compute; reflexivity.
Qed.

(** C8, as amended: after [setEnableAutomaticBarriers(false)], the copy
    and write operations require no state: every stored state record is
    left as it was, no transition is synthesized and no message is
    produced.  Every one that records a native command still commits
    before it: whatever was pending is flushed, in front of the command,
    and nothing is pending afterwards.  [writeBuffer] records no native
    command when the upload allocation fails or the buffer is volatile,
    and then does not commit either: the tracker, with what was pending,
    and the commands are left as they were. *)
Theorem disabled_automatic_barriers_only_commit
    (vcl : vulkan.CommandList) (dcl : d3d12.CommandList)
    (staging : vulkan.StagingTexture) (stagingSlice textureSlice : vulkan.TextureSlice)
    (texture : Handle) (dest src b : Handle)
    (destOffset srcOffset n dataSize : Z)
    (alloc : option d3d12.UploadAllocation) :
  let v := vulkan.setEnableAutomaticBarriers false vcl in
  let d := d3d12.setEnableAutomaticBarriers false dcl in
  (let cl' :=
     vulkan.copyTextureToStaging staging stagingSlice texture textureSlice v in
   sameStoredStates (vulkan.m_StateTracker vcl) (vulkan.m_StateTracker cl')
   /\ nothingPending (vulkan.m_StateTracker cl')
   /\ vulkan.cmdBuf cl'
      = vulkan.cmdBuf vcl
        ++ vulkan_flush (vulkan.renderPassActive vcl) (vulkan.m_StateTracker vcl)
        ++ [vulkan.copyImageToBuffer texture (vulkan.buffer staging)
              (vulkan.mipLevel textureSlice) (vulkan.arraySlice textureSlice)])
  /\ (let cl' :=
        vulkan.copyTextureFromStaging texture textureSlice staging
          stagingSlice v in
      sameStoredStates (vulkan.m_StateTracker vcl) (vulkan.m_StateTracker cl')
      /\ nothingPending (vulkan.m_StateTracker cl')
      /\ vulkan.cmdBuf cl'
         = vulkan.cmdBuf vcl
           ++ vulkan_flush (vulkan.renderPassActive vcl)
                (vulkan.m_StateTracker vcl)
           ++ [vulkan.copyBufferToImage (vulkan.buffer staging) texture
                 (vulkan.mipLevel textureSlice)
                 (vulkan.arraySlice textureSlice)])
  /\ (let cl' := d3d12.copyBuffer dest destOffset src srcOffset n d in
      sameStoredStates (d3d12.m_StateTracker dcl) (d3d12.m_StateTracker cl')
      /\ nothingPending (d3d12.m_StateTracker cl')
      /\ d3d12.commandList cl'
         = d3d12.commandList dcl ++ d3d12_flush (d3d12.m_StateTracker dcl)
           ++ [d3d12.CopyBufferRegion dest destOffset src srcOffset n])
  /\ (let cl' := d3d12.writeBuffer b dataSize destOffset alloc d in
      match alloc, buffers (d3d12.m_StateTracker dcl) !! b with
      | Some a, Some buf =>
        if isVolatile (bufferDesc buf) then
          d3d12.m_StateTracker cl' = d3d12.m_StateTracker dcl
          /\ d3d12.commandList cl' = d3d12.commandList dcl
        else
          sameStoredStates (d3d12.m_StateTracker dcl)
            (d3d12.m_StateTracker cl')
          /\ nothingPending (d3d12.m_StateTracker cl')
          /\ d3d12.commandList cl'
             = d3d12.commandList dcl ++ d3d12_flush (d3d12.m_StateTracker dcl)
               ++ [d3d12.CopyBufferRegion b destOffset (d3d12.uploadBuffer a)
                     (d3d12.offsetInUploadBuffer a) dataSize]
      | _, _ =>
        d3d12.m_StateTracker cl' = d3d12.m_StateTracker dcl
        /\ d3d12.commandList cl' = d3d12.commandList dcl
      end).
Proof.
  cbn zeta. split; [|split; [|split]].
  - destruct (vulkan_copyTextureToStaging_trace staging stagingSlice texture
                textureSlice (vulkan.setEnableAutomaticBarriers false vcl))
      as [Ht Hc].
    cbn zeta in Ht, Hc. rewrite Ht, Hc. cbn.
    split; [apply clearBarriers_props|].
    split; [apply clearBarriers_props|reflexivity].
  - destruct (vulkan_copyTextureFromStaging_trace texture textureSlice staging
                stagingSlice (vulkan.setEnableAutomaticBarriers false vcl))
      as [Ht Hc].
    cbn zeta in Ht, Hc. rewrite Ht, Hc. cbn.
    split; [apply clearBarriers_props|].
    split; [apply clearBarriers_props|reflexivity].
  - destruct (d3d12_copyBuffer_trace dest destOffset src srcOffset n
                (d3d12.setEnableAutomaticBarriers false dcl)) as [Ht Hc].
    cbn zeta in Ht, Hc. rewrite Ht, Hc. cbn.
    split; [apply clearBarriers_props|].
    split; [apply clearBarriers_props|reflexivity].
  - pose proof (d3d12_writeBuffer_trace b dataSize destOffset alloc
                  (d3d12.setEnableAutomaticBarriers false dcl)) as H.
    cbn zeta in H.
    cbn [d3d12.setEnableAutomaticBarriers d3d12.m_StateTracker
         d3d12.m_EnableAutomaticBarriers d3d12.commandList] in H.
    destruct alloc as [a|]; [|apply H].
    destruct (buffers (d3d12.m_StateTracker dcl) !! b) as [buf|]; [|apply H].
    destruct (isVolatile (bufferDesc buf)); [apply H|].
    destruct H as [Ht Hc]. rewrite Ht, Hc.
    split; [apply clearBarriers_props|].
    split; [apply clearBarriers_props|reflexivity].
Qed.

(** C8, the input at which the claim as stated fails: automatic barriers
    are disabled and the transition of buffer 10 is pending when
    [writeBuffer] writes to buffer 12, which is volatile.  The write
    does not commit: the transition is still pending afterwards and no
    command was recorded, where [commitBarriers] would have recorded its
    barrier. *)
Lemma writeBuffer_volatile_does_not_commit :
  let cl :=
    d3d12.setEnableAutomaticBarriers false
      (Scenario.d3d12CommandList Scenario.trackerVolatilePending true) in
  let cl' :=
    d3d12.writeBuffer 12%nat 16 0 (Some (d3d12.mkUploadAllocation 40%nat 0 0))
      cl in
  m_BufferBarriers (d3d12.m_StateTracker cl) = [Scenario.buffer10ToCopyDest]
  /\ m_BufferBarriers (d3d12.m_StateTracker cl')
     = [Scenario.buffer10ToCopyDest]
  /\ d3d12.commandList cl' = []
  /\ d3d12.commandList (d3d12.commitBarriers cl)
     = [d3d12.ResourceBarrier
          [d3d12.bufferBarrier Scenario.buffer10ToCopyDest]].
Proof.
  cbn zeta. repeat split; vm_compute; reflexivity.
Qed.

(* ------------------------------------------------------------------ *)
(** ** More on the resolvers *)

(** The clamp in closed form: the unsigned difference between the
    clamped end and the base. *)
Lemma clampCount_closed base num limit :
  is_u32 limit ->
  clampCount base num limit
  = u32 (Z.min (u32 (base + num)) limit - base).
Proof.
  intros Hl. unfold clampCount.
  assert (Hm : is_u32 (Z.min (u32 (base + num)) limit)).
  { pose proof (u32_range (base + num)). unfold is_u32 in *. lia. }
  rewrite <- (u32_small _ Hm) at 1. rewrite u32_to_int_sub, (u32_small _ Hm).
  pose proof (u32_range (Z.min (u32 (base + num)) limit - base)) as Hr.
  rewrite Z.max_r by (unfold is_u32 in Hr; lia).
  apply u32_small. apply u32_range.
Qed.

Lemma u32_add_sub base m : is_u32 m -> u32 (base + u32 (m - base)) = m.
Proof.
  intros Hm. unfold u32. rewrite Zplus_mod_idemp_r.
  replace (base + (m - base)) with m by ring. apply Z.mod_small. exact Hm.
Qed.

Lemma clampCount_idempotent base num limit :
  is_u32 limit ->
  clampCount base (clampCount base num limit) limit
  = clampCount base num limit.
Proof.
  intros Hl. rewrite !(clampCount_closed _ _ _ Hl).
  assert (Hm : is_u32 (Z.min (u32 (base + num)) limit)).
  { pose proof (u32_range (base + num)). unfold is_u32 in *. lia. }
  rewrite (u32_add_sub _ _ Hm). f_equal. f_equal. lia.
Qed.

(** X1: resolving a subresource set that is already resolved against
    the same descriptor changes nothing, whatever the set. *)
Theorem resolve_idempotent (s : TextureSubresourceSet) (d : TextureDesc)
    (singleMipLevel : bool) :
  is_u32 (mipLevels d) -> is_u32 (arraySize d) ->
  resolve (resolve s d singleMipLevel) d singleMipLevel
  = resolve s d singleMipLevel.
Proof.
  intros HM HA. unfold resolve.
  destruct (isArrayDimension (dimension d)) eqn:E; cbn; rewrite ?E; cbn;
    destruct singleMipLevel; rewrite ?clampCount_idempotent by assumption;
    reflexivity.
Qed.

Lemma resolve_idempotent_witness :
  resolve (resolve AllSubresources Scenario.desc4Mips false)
    Scenario.desc4Mips false
  = resolve AllSubresources Scenario.desc4Mips false.
Proof.
  apply (resolve_idempotent AllSubresources Scenario.desc4Mips false);
    unfold is_u32; cbn; lia.
Defined.

(** X2: a set that [isEntireTexture] accepts resolves to all mip levels
    from 0 and, for an array dimension, all array slices from 0 (one
    slice from 0 otherwise). *)
Theorem entire_texture_resolves_to_everything (s : TextureSubresourceSet)
    (d : TextureDesc) :
  is_u32 (baseMipLevel s) -> is_u32 (numMipLevels s) ->
  is_u32 (baseArraySlice s) -> is_u32 (numArraySlices s) ->
  is_u32 (mipLevels d) -> is_u32 (arraySize d) ->
  isEntireTexture s d = true ->
  resolve s d false
  = mkTextureSubresourceSet 0 (mipLevels d) 0
      (if isArrayDimension (dimension d) then arraySize d else 1).
Proof.
  unfold is_u32. intros Hbm Hnm Hba Hna HM HA He.
  unfold isEntireTexture in He.
  destruct (_ || _) eqn:E1 in He; [discriminate|].
  apply orb_false_iff in E1 as [E1 E2]. apply Z.ltb_ge in E1, E2.
  assert (Hb0 : baseMipLevel s = 0) by lia. rewrite Hb0 in E2. cbn in E2.
  rewrite u32_small in E2 by (unfold is_u32; lia).
  unfold resolve. rewrite Hb0.
  rewrite (clampCount_no_wrap 0 (numMipLevels s) (mipLevels d))
    by (unfold is_u32; lia).
  destruct (isArrayDimension (dimension d)) eqn:Earr.
  - cbn in He. destruct (_ || _) eqn:E3 in He; [discriminate|].
    apply orb_false_iff in E3 as [E3 E4]. apply Z.ltb_ge in E3, E4.
    assert (Ha0 : baseArraySlice s = 0) by lia. rewrite Ha0 in E4 |- *.
    cbn in E4. rewrite u32_small in E4 by (unfold is_u32; lia).
    rewrite (clampCount_no_wrap 0 (numArraySlices s) (arraySize d))
      by (unfold is_u32; lia).
    f_equal; lia.
  - f_equal; lia.
Qed.

Lemma entire_texture_resolves_to_everything_witness :
  resolve AllSubresources Scenario.desc4Mips false
  = mkTextureSubresourceSet 0 4 0 1.
Proof.
  apply (entire_texture_resolves_to_everything AllSubresources
           Scenario.desc4Mips); unfold is_u32; try (cbn; lia).
  - vm_compute. split; [discriminate|reflexivity].
  - vm_compute. split; [discriminate|reflexivity].
  - vm_compute. reflexivity.
Defined.

(** X3: resolving does not change whether a set is the entire texture. *)
Theorem isEntireTexture_resolve (s : TextureSubresourceSet) (d : TextureDesc) :
  is_u32 (baseMipLevel s) -> is_u32 (numMipLevels s) ->
  is_u32 (baseArraySlice s) -> is_u32 (numArraySlices s) ->
  is_u32 (mipLevels d) -> is_u32 (arraySize d) ->
  isEntireTexture (resolve s d false) d = isEntireTexture s d.
Proof.
  unfold is_u32. intros Hbm Hnm Hba Hna HM HA.
  assert (Hpart : forall base num limit,
    0 <= base < 2 ^ 32 -> 0 <= num < 2 ^ 32 -> 0 <= limit < 2 ^ 32 ->
    (0 <? base) || (u32 (base + clampCount base num limit) <? limit)
    = (0 <? base) || (u32 (base + num) <? limit)).
  { intros base num limit Hb Hn Hl.
    destruct (0 <? base) eqn:E; [reflexivity|]. apply Z.ltb_ge in E.
    assert (base = 0) by lia. subst base. cbn [orb].
    rewrite (clampCount_no_wrap 0 num limit) by (unfold is_u32; lia).
    rewrite !Z.add_0_l, !u32_small by (unfold is_u32; lia).
    destruct (Z.ltb_spec num limit), (Z.ltb_spec (Z.min num (limit - 0)) limit);
      lia || reflexivity. }
  unfold isEntireTexture, resolve.
  destruct (isArrayDimension (dimension d)) eqn:Earr; cbn;
    rewrite (Hpart _ _ _ Hbm Hnm HM); [|reflexivity].
  now rewrite (Hpart _ _ _ Hba Hna HA).
Qed.

Lemma isEntireTexture_resolve_witness :
  isEntireTexture (resolve Scenario.mips0To1 Scenario.desc4Mips false)
    Scenario.desc4Mips
  = isEntireTexture Scenario.mips0To1 Scenario.desc4Mips.
Proof.
  apply (isEntireTexture_resolve Scenario.mips0To1 Scenario.desc4Mips);
    unfold is_u32; cbn; lia.
Defined.

(** X4: resolving a buffer range that is already resolved against the
    same buffer changes nothing. *)
Theorem BufferRange_resolve_idempotent (r : BufferRange) (d : BufferDesc) :
  is_u64 (byteOffset r) -> is_u64 (rangeByteSize r) -> is_u64 (byteSize d) ->
  BufferRange_resolve (BufferRange_resolve r d) d = BufferRange_resolve r d.
Proof.
  unfold is_u64. intros Ho Hs Hd. unfold BufferRange_resolve.
  set (off := Z.min (byteOffset r) (byteSize d)).
  assert (Hu : u64 (byteSize d - off) = byteSize d - off).
  { unfold u64. apply Z.mod_small. unfold off. lia. }
  assert (Hoff : Z.min off (byteSize d) = off) by (unfold off; lia).
  destruct (rangeByteSize r =? 0) eqn:E; cbn [byteOffset rangeByteSize];
    rewrite Hoff, Hu.
  - destruct (byteSize d - off =? 0) eqn:E2; [reflexivity|].
    f_equal. lia.
  - apply Z.eqb_neq in E.
    destruct (Z.min (rangeByteSize r) (byteSize d - off) =? 0) eqn:E2.
    + apply Z.eqb_eq in E2. f_equal. lia.
    + f_equal. lia.
Qed.

Lemma BufferRange_resolve_idempotent_witness :
  BufferRange_resolve
    (BufferRange_resolve (mkBufferRange 16 100) Scenario.bufferDesc64)
    Scenario.bufferDesc64
  = BufferRange_resolve (mkBufferRange 16 100) Scenario.bufferDesc64.
Proof.
  apply (BufferRange_resolve_idempotent (mkBufferRange 16 100)
           Scenario.bufferDesc64); unfold is_u64; cbn; lia.
Defined.

(** X5: a range resolves to an empty one exactly when its offset is at
    or past the end of the buffer, whatever size was asked for; the
    resolved offset is then the end of the buffer. *)
Theorem BufferRange_resolve_empty_iff_past_end (r : BufferRange)
    (d : BufferDesc) :
  is_u64 (byteOffset r) -> is_u64 (rangeByteSize r) -> is_u64 (byteSize d) ->
  (rangeByteSize (BufferRange_resolve r d) = 0 <-> byteSize d <= byteOffset r)
  /\ (byteSize d <= byteOffset r ->
      BufferRange_resolve r d = mkBufferRange (byteSize d) 0).
Proof.
  unfold is_u64. intros Ho Hs Hd. unfold BufferRange_resolve.
  set (off := Z.min (byteOffset r) (byteSize d)).
  assert (Hu : u64 (byteSize d - off) = byteSize d - off).
  { unfold u64. apply Z.mod_small. unfold off. lia. }
  destruct (rangeByteSize r =? 0) eqn:E; cbn [rangeByteSize]; rewrite Hu;
    [|apply Z.eqb_neq in E]; unfold off; split;
    try (split; lia); intros Hle; f_equal; lia.
Qed.

Lemma BufferRange_resolve_empty_iff_past_end_witness :
  BufferRange_resolve (mkBufferRange 200 8) Scenario.bufferDesc64
  = mkBufferRange 64 0.
Proof.
  refine (proj2 (BufferRange_resolve_empty_iff_past_end
                   (mkBufferRange 200 8) Scenario.bufferDesc64 _ _ _) _);
    unfold is_u64; cbn; lia.
Defined.

(* ------------------------------------------------------------------ *)
(** ** Texture slices *)

Lemma toBlocks_spec v bs :
  1 <= bs -> 0 <= v -> Z.max v bs + bs <= 2 ^ 32 ->
  TextureSlice.toBlocks v bs mod bs = 0
  /\ Z.max v bs <= TextureSlice.toBlocks v bs < Z.max v bs + bs.
Proof.
  intros Hbs Hv Hno. unfold TextureSlice.toBlocks.
  set (v' := Z.max v bs) in *.
  destruct (bs =? 1) eqn:E; cbn [negb].
  - apply Z.eqb_eq in E. subst bs. rewrite Z.mod_1_r. lia.
  - rewrite (u32_small (v' + bs - 1)) by (unfold is_u32, v'; lia).
    pose proof (Z.mul_div_le (v' + bs - 1) bs ltac:(lia)) as Hle.
    pose proof (Z.mul_succ_div_gt (v' + bs - 1) bs ltac:(lia)) as Hgt.
    pose proof (Z.div_pos (v' + bs - 1) bs ltac:(unfold v'; lia) ltac:(lia))
      as Hq.
    rewrite u32_small by (unfold is_u32; nia).
    rewrite Z.mod_mul by lia. split; [reflexivity|]. nia.
Qed.

(** X6: [TextureSlice::resolve] returns a width and a height that are
    whole numbers of blocks: multiples of the format's block size, at
    least one block, and the requested extent (the mip's extent for a
    wildcard) rounded up by less than one block.  The position and the
    subresource are kept, and a wildcard depth of a texture that is not
    3D resolves to 1. *)
Theorem TextureSlice_resolve_whole_blocks (s : TextureSlice.t)
    (desc : TextureDesc) (extent : TextureExtent) (formatInfo : FormatInfo) :
  let bs := blockSize formatInfo in
  let w :=
    if TextureSlice.width s =? u32 (-1)
    then TextureSlice.mipExtent (extentWidth extent) (TextureSlice.mipLevel s)
    else TextureSlice.width s in
  let h :=
    if TextureSlice.height s =? u32 (-1)
    then TextureSlice.mipExtent (extentHeight extent) (TextureSlice.mipLevel s)
    else TextureSlice.height s in
  let r := TextureSlice.resolve s desc extent formatInfo in
  1 <= bs -> 0 <= w -> 0 <= h ->
  Z.max w bs + bs <= 2 ^ 32 -> Z.max h bs + bs <= 2 ^ 32 ->
  TextureSlice.width r mod bs = 0
  /\ Z.max w bs <= TextureSlice.width r < Z.max w bs + bs
  /\ TextureSlice.height r mod bs = 0
  /\ Z.max h bs <= TextureSlice.height r < Z.max h bs + bs
  /\ (TextureSlice.x r, TextureSlice.y r, TextureSlice.z r)
     = (TextureSlice.x s, TextureSlice.y s, TextureSlice.z s)
  /\ (TextureSlice.mipLevel r, TextureSlice.arraySlice r)
     = (TextureSlice.mipLevel s, TextureSlice.arraySlice s)
  /\ (TextureSlice.depth s = u32 (-1) -> dimension desc <> Texture3D ->
      TextureSlice.depth r = 1).
Proof.
  cbn zeta. intros Hbs Hw Hh Hnw Hnh.
  destruct (toBlocks_spec _ _ Hbs Hw Hnw) as [Hw1 Hw2].
  destruct (toBlocks_spec _ _ Hbs Hh Hnh) as [Hh1 Hh2].
  unfold TextureSlice.resolve. cbn.
  repeat (split; [assumption || reflexivity|]).
  intros Hd H3. rewrite Hd. change (u32 (-1) =? u32 (-1)) with true. cbn match.
  now destruct (dimension desc).
Qed.

Lemma TextureSlice_resolve_whole_blocks_witness :
  TextureSlice.width
    (TextureSlice.resolve
       (TextureSlice.mk 0 0 0 (u32 (-1)) (u32 (-1)) (u32 (-1)) 2 0)
       Scenario.desc4Mips (mkTextureExtent 10 10 1) (mkFormatInfo 4 8))
  mod 4 = 0.
Proof.
  refine (proj1 (TextureSlice_resolve_whole_blocks
                   (TextureSlice.mk 0 0 0 (u32 (-1)) (u32 (-1)) (u32 (-1)) 2 0)
                   Scenario.desc4Mips (mkTextureExtent 10 10 1)
                   (mkFormatInfo 4 8) _ _ _ _ _)); vm_compute; discriminate.
Defined.

(* ------------------------------------------------------------------ *)
(** ** Buffer views *)

Lemma view_elements_inside off size e total :
  0 < e -> 0 <= off -> 0 <= size -> off + size <= total ->
  off / e * e <= off
  /\ off / e * e + u32 (size / e) * e <= total.
Proof.
  intros He Hoff Hsize Hle.
  pose proof (Z.mul_div_le off e He) as H1.
  pose proof (Z.mul_div_le size e He) as H2.
  pose proof (Z.div_pos size e Hsize He) as Hq.
  assert (Hu : 0 <= u32 (size / e) <= size / e).
  { unfold u32. pose proof (Z.mod_pos_bound (size / e) (2 ^ 32) ltac:(lia)).
    pose proof (Z.mod_le (size / e) (2 ^ 32) Hq ltac:(lia)). lia. }
  split; [lia|]. nia.
Qed.

Lemma BufferRange_resolve_bounds (range : BufferRange) (desc : BufferDesc) :
  is_u64 (byteOffset range) -> is_u64 (rangeByteSize range) ->
  is_u64 (byteSize desc) ->
  0 <= byteOffset (BufferRange_resolve range desc)
  /\ 0 <= rangeByteSize (BufferRange_resolve range desc)
  /\ byteOffset (BufferRange_resolve range desc)
     + rangeByteSize (BufferRange_resolve range desc)
     <= byteSize desc.
Proof.
  unfold is_u64. intros Ho Hs Hd. unfold BufferRange_resolve.
  set (off := Z.min (byteOffset range) (byteSize desc)).
  assert (Hu : u64 (byteSize desc - off) = byteSize desc - off).
  { unfold u64. apply Z.mod_small. unfold off. lia. }
  destruct (rangeByteSize range =? 0); cbn; rewrite Hu; unfold off; lia.
Qed.

(** X7: [createSRV] and [createUAV] create a view exactly for the
    structured, raw and typed resource types of their kind: for these
    the elements that the view addresses lie inside the buffer (the view
    starts at the resolved offset rounded down to a whole element and
    its elements end at or before the end of the buffer), and for every
    other resource type no view is created. *)
Theorem buffer_view_inside_buffer (desc : BufferDesc)
    (structStride bytesPerBlock : Z) (range : BufferRange)
    (type : ResourceType) :
  is_u64 (byteOffset range) -> is_u64 (rangeByteSize range) ->
  is_u64 (byteSize desc) ->
  let e := BufferViews.elementSize structStride bytesPerBlock type in
  let inside v :=
    BufferViews.FirstElement v * e
    <= byteOffset (BufferRange_resolve range desc)
    /\ BufferViews.FirstElement v * e + BufferViews.NumElements v * e
       <= byteSize desc in
  0 < structStride -> 0 < bytesPerBlock ->
  match BufferViews.createSRV desc structStride bytesPerBlock range type with
  | Some v =>
    (type = StructuredBuffer_SRV \/ type = RawBuffer_SRV
     \/ type = TypedBuffer_SRV)
    /\ inside v
  | None =>
    type <> StructuredBuffer_SRV /\ type <> RawBuffer_SRV
    /\ type <> TypedBuffer_SRV
  end
  /\ match BufferViews.createUAV desc structStride bytesPerBlock range type with
     | Some v =>
       (type = StructuredBuffer_UAV \/ type = RawBuffer_UAV
        \/ type = TypedBuffer_UAV)
       /\ inside v
     | None =>
       type <> StructuredBuffer_UAV /\ type <> RawBuffer_UAV
       /\ type <> TypedBuffer_UAV
     end.
Proof.
  intros Ho Hs Hd. cbn zeta.
  destruct (BufferRange_resolve_bounds range desc Ho Hs Hd) as (Hr1 & Hr2 & H2).
  intros Hstride Hbpb.
  unfold BufferViews.createSRV, BufferViews.createUAV.
  destruct type; cbn; split; try (repeat split; discriminate);
    (split; [tauto|]); apply view_elements_inside; assumption || lia.
Qed.

Lemma buffer_view_inside_buffer_witness :
  match BufferViews.createSRV Scenario.bufferDesc64 12 4
          (mkBufferRange 20 0) StructuredBuffer_SRV with
  | Some v =>
    BufferViews.FirstElement v * 12 <= 20
    /\ BufferViews.FirstElement v * 12 + BufferViews.NumElements v * 12 <= 64
  | None => False
  end.
Proof.
  refine (proj2 (proj1 (buffer_view_inside_buffer Scenario.bufferDesc64 12 4
                          (mkBufferRange 20 0) StructuredBuffer_SRV
                          _ _ _ _ _)));
    unfold is_u64; cbn; lia.
Defined.

(* ------------------------------------------------------------------ *)
(** ** Staging texture footprints *)

Lemma u64_range z : is_u64 (u64 z).
Proof. unfold is_u64, u64. apply Z.mod_pos_bound. lia. Qed.

Lemma u64_small z : is_u64 z -> u64 z = z.
Proof. intros H. apply Z.mod_small. exact H. Qed.

Lemma u64_add_idemp a b : u64 (u64 a + b) = u64 (a + b).
Proof. unfold u64. apply Zplus_mod_idemp_l. Qed.

Lemma alignBufferOffset_no_wrap (x : Z) :
  0 <= x <= 2 ^ 64 - 4 ->
  StagingFootprints.alignBufferOffset x = (x + 3) / 4 * 4.
Proof.
  intros Hx. unfold StagingFootprints.alignBufferOffset.
  change (4 - 1) with 3.
  rewrite (u64_small (x + 3)) by (unfold is_u64; lia).
  pose proof (Z.mul_div_le (x + 3) 4 ltac:(lia)).
  pose proof (Z.div_pos (x + 3) 4 ltac:(lia) ltac:(lia)).
  apply u64_small. unfold is_u64. lia.
Qed.

Lemma alignBufferOffset_of_multiple (x : Z) :
  0 <= x <= 2 ^ 64 - 4 -> x mod 4 = 0 ->
  StagingFootprints.alignBufferOffset x = x.
Proof.
  intros Hx Hm. rewrite (alignBufferOffset_no_wrap x Hx).
  apply Z.mod_divide in Hm; [|lia]. destruct Hm as [k Hk]. rewrite Hk.
  replace (k * 4 + 3) with (3 + k * 4) by ring.
  rewrite Z.div_add by lia. change (3 / 4) with 0. lia.
Qed.

(** X8: [alignBufferOffset] returns the least multiple of 4 that is not
    below the offset. *)
Theorem alignBufferOffset_least_multiple (off : Z) :
  0 <= off <= 2 ^ 64 - 4 ->
  let r := StagingFootprints.alignBufferOffset off in
  r mod 4 = 0 /\ off <= r < off + 4
  /\ StagingFootprints.alignBufferOffset r = r.
Proof.
  intros Hoff. cbn zeta.
  rewrite (alignBufferOffset_no_wrap off Hoff).
  pose proof (Z.mul_div_le (off + 3) 4 ltac:(lia)) as Hle.
  pose proof (Z.mul_succ_div_gt (off + 3) 4 ltac:(lia)) as Hgt.
  assert (Hm : ((off + 3) / 4 * 4) mod 4 = 0) by (apply Z.mod_mul; lia).
  split; [exact Hm|]. split; [lia|].
  apply alignBufferOffset_of_multiple; [|exact Hm].
  split; [lia|]. apply Z.mod_divide in Hm; [|lia]. destruct Hm as [k Hk].
  rewrite Hk in *. lia.
Qed.

Lemma alignBufferOffset_least_multiple_witness :
  StagingFootprints.alignBufferOffset 5 mod 4 = 0.
Proof.
  refine (proj1 (alignBufferOffset_least_multiple 5 _)). lia.
Defined.

Section footprints.
Import StagingFootprints.

Lemma sumBytes_app l k : sumBytes (l ++ k) = sumBytes l + sumBytes k.
Proof.
  unfold sumBytes. induction l as [|x l IH]; cbn; [reflexivity|].
  fold (sumBytes (l ++ k)) in *. fold (sumBytes l) in *.
  unfold sumBytes in IH |- *. rewrite IH. ring.
Qed.

Lemma placeSlices_invariant n layout offset placed :
  placedInvariant offset placed ->
  placedInvariant (placeSlices n layout offset placed).1
    (placeSlices n layout offset placed).2.
Proof.
  revert offset placed. induction n as [|n IH]; intros offset placed Hinv;
    cbn; [exact Hinv|].
  apply IH. destruct Hinv as [Hoff Hall]. split.
  - rewrite sumBytes_app. cbn. rewrite Hoff, u64_add_idemp.
    f_equal. ring.
  - intros k fp Hk.
    destruct (decide (k < length placed)%nat) as [Hlt|Hge].
    + rewrite lookup_app_l in Hk by exact Hlt.
      rewrite take_app_le by lia. now apply Hall.
    + apply lookup_app_Some in Hk as [Hk|[_ Hk]].
      { apply lookup_lt_Some in Hk. lia. }
      destruct (k - length placed)%nat as [|j] eqn:Ej; [|destruct j; discriminate].
      cbn in Hk. injection Hk as <-. cbn.
      assert (k = length placed) by lia. subst k.
      rewrite take_app_length. now rewrite <- Hoff.
Qed.

Lemma placeMips_invariant n formatInfo a w h d offset placed :
  placedInvariant offset placed ->
  placedInvariant (placeMips n formatInfo a w h d offset placed).1
    (placeMips n formatInfo a w h d offset placed).2.
Proof.
  revert w h d offset placed.
  induction n as [|n IH]; intros w h d offset placed Hinv; cbn; [exact Hinv|].
  apply IH. now apply placeSlices_invariant.
Qed.

Lemma placeSlices_appends n layout offset placed :
  exists l,
    (placeSlices n layout offset placed).2 = placed ++ l
    /\ length l = n
    /\ Forall (fun fp => exists o, fp = placeAt o layout) l.
Proof.
  revert offset placed. induction n as [|n IH]; intros offset placed; cbn.
  - exists []. now rewrite app_nil_r.
  - destruct (IH (u64 (offset + totalBytes layout))
                (placed ++ [placeAt (alignBufferOffset offset) layout]))
      as (l & Hl & Hlen & Hall).
    exists (placeAt (alignBufferOffset offset) layout :: l).
    rewrite Hl, <- app_assoc. cbn. repeat split; [lia|].
    constructor; [eauto|exact Hall].
Qed.

Lemma placeMips_appends n formatInfo a w h d offset placed :
  exists l,
    (placeMips n formatInfo a w h d offset placed).2 = placed ++ l
    /\ length l = (n * a)%nat
    /\ Forall (fun fp => exists o w' h' d',
                           fp = placeAt o (layoutOfMip formatInfo w' h' d')) l.
Proof.
  revert w h d offset placed.
  induction n as [|n IH]; intros w h d offset placed; cbn [placeMips].
  - exists []. now rewrite app_nil_r.
  - destruct (placeSlices_appends a (layoutOfMip formatInfo w h d) offset
                placed) as (l1 & Hl1 & Hlen1 & Hall1).
    destruct (IH (Z.max (Z.shiftr w 1) 1) (Z.max (Z.shiftr h 1) 1)
                (Z.max (Z.shiftr d 1) 1)
                (placeSlices a (layoutOfMip formatInfo w h d) offset placed).1
                (placeSlices a (layoutOfMip formatInfo w h d) offset placed).2)
      as (l2 & Hl2 & Hlen2 & Hall2).
    exists (l1 ++ l2). rewrite Hl2, Hl1, <- app_assoc.
    split; [reflexivity|]. split; [rewrite length_app; lia|].
    apply Forall_app. split; [|exact Hall2].
    eapply Forall_impl; [exact Hall1|]. intros fp [o ->]. eauto.
Qed.

(** The footprint of array slice [j] of mip [m] is at index
    [m * arraySize + j] and has the layout of that mip. *)
Lemma placeMips_lookup n formatInfo a w h d offset placed m j :
  (m < n)%nat -> (j < a)%nat ->
  exists o,
    (placeMips n formatInfo a w h d offset placed).2
      !! (length placed + (m * a + j))%nat
    = Some (placeAt o (layoutOfMip formatInfo (mipChain m w) (mipChain m h)
                         (mipChain m d))).
Proof.
  revert w h d offset placed m.
  induction n as [|n IH]; intros w h d offset placed m Hm Hj; [lia|].
  cbn [placeMips].
  destruct (placeSlices_appends a (layoutOfMip formatInfo w h d) offset
              placed) as (l1 & Hl1 & Hlen1 & Hall1).
  destruct m as [|m].
  - destruct (placeMips_appends n formatInfo a (Z.max (Z.shiftr w 1) 1)
                (Z.max (Z.shiftr h 1) 1) (Z.max (Z.shiftr d 1) 1)
                (placeSlices a (layoutOfMip formatInfo w h d) offset placed).1
                (placeSlices a (layoutOfMip formatInfo w h d) offset placed).2)
      as (l2 & Hl2 & _).
    rewrite Hl2, Hl1. cbn [mipChain Nat.mul Nat.add].
    destruct (lookup_lt_is_Some_2 l1 j ltac:(lia)) as [fp Hfp].
    rewrite Forall_lookup in Hall1. destruct (Hall1 _ _ Hfp) as [o ->].
    exists o. rewrite lookup_app_l by (rewrite length_app; lia).
    rewrite lookup_app_r by lia.
    replace (length placed + j - length placed)%nat with j by lia.
    exact Hfp.
  - destruct (IH (Z.max (Z.shiftr w 1) 1) (Z.max (Z.shiftr h 1) 1)
                (Z.max (Z.shiftr d 1) 1)
                (placeSlices a (layoutOfMip formatInfo w h d) offset placed).1
                (placeSlices a (layoutOfMip formatInfo w h d) offset placed).2
                m ltac:(lia) Hj) as [o Ho].
    exists o.
    assert (Hlen : length (placeSlices a (layoutOfMip formatInfo w h d)
                             offset placed).2 = (length placed + a)%nat)
      by (rewrite Hl1, length_app; lia).
    rewrite Hlen in Ho. cbn [mipChain].
    replace (length placed + (S m * a + j))%nat
      with (length placed + a + (m * a + j))%nat by lia.
    exact Ho.
Qed.

End footprints.

Section footprint_theorems.
Import StagingFootprints.

(** X9: [computeCopyableFootprints] places one footprint per
    subresource, and [getCopyableFootprint(mipLevel, arraySlice)] finds,
    for every subresource of the texture, a footprint with the extent
    and the size of that mip level. *)
Theorem getCopyableFootprint_finds_mip_layout (desc : TextureDesc)
    (extent : TextureExtent) (formatInfo : FormatInfo)
    (mipLevel arraySlice : Z) :
  0 <= mipLevel < mipLevels desc ->
  0 <= arraySlice < arraySize desc ->
  (dimension desc = Texture3D -> arraySize desc = 1) ->
  mipLevels desc * arraySize desc <= 2 ^ 32 ->
  let placed := (computeCopyableFootprints desc extent formatInfo).2 in
  let depth0 :=
    match dimension desc with Texture3D => extentDepth extent | _ => 1 end in
  let m := Z.to_nat mipLevel in
  length placed = Z.to_nat (mipLevels desc * arraySize desc)
  /\ exists o,
       getCopyableFootprint desc placed mipLevel arraySlice
       = Some (placeAt o
                 (layoutOfMip formatInfo (mipChain m (extentWidth extent))
                    (mipChain m (extentHeight extent)) (mipChain m depth0))).
Proof.
  intros Hm Ha H3 Hsmall. cbn zeta. unfold computeCopyableFootprints.
  set (a := match dimension desc with Texture3D => 1 | _ => arraySize desc end).
  assert (Ha' : a = arraySize desc).
  { unfold a. destruct (dimension desc); try reflexivity.
    symmetry. now apply H3. }
  rewrite Ha'. split.
  - destruct (placeMips_appends (Z.to_nat (mipLevels desc)) formatInfo
                (Z.to_nat (arraySize desc)) (extentWidth extent)
                (extentHeight extent)
                match dimension desc with
                | Texture3D => extentDepth extent
                | _ => 1
                end 0 []) as (l & -> & Hlen & _).
    cbn. rewrite Hlen, Z2Nat.inj_mul by lia. reflexivity.
  - unfold getCopyableFootprint.
    rewrite u32_small by (unfold is_u32; nia).
    replace (Z.to_nat (mipLevel * arraySize desc + arraySlice))
      with (length (@nil PlacedSubresourceFootprint)
            + (Z.to_nat mipLevel * Z.to_nat (arraySize desc)
               + Z.to_nat arraySlice))%nat
      by (cbn [length]; rewrite Z2Nat.inj_add, Z2Nat.inj_mul by nia; lia).
    apply placeMips_lookup; lia.
Qed.

Lemma getCopyableFootprint_finds_mip_layout_witness :
  length
    (computeCopyableFootprints (mkTextureDesc 3 2 Texture2DArray false false)
       (mkTextureExtent 8 8 1) (mkFormatInfo 1 4)).2
  = Z.to_nat (3 * 2).
Proof.
  refine (proj1 (getCopyableFootprint_finds_mip_layout
                   (mkTextureDesc 3 2 Texture2DArray false false)
                   (mkTextureExtent 8 8 1) (mkFormatInfo 1 4) 1 1 _ _ _ _));
    cbn; try lia. discriminate.
Defined.

Lemma computeCopyableFootprints_invariant (desc : TextureDesc)
    (extent : TextureExtent) (formatInfo : FormatInfo) :
  placedInvariant (computeCopyableFootprints desc extent formatInfo).1
    (computeCopyableFootprints desc extent formatInfo).2.
Proof.
  unfold computeCopyableFootprints.
  apply placeMips_invariant. split; [reflexivity|].
  intros k fp Hk. destruct k; discriminate.
Qed.

(** X10: the size that [computeCopyableFootprints] returns is the plain
    sum of the footprint sizes, with no padding, while each footprint is
    placed at the sum of the sizes before it rounded up to a multiple
    of 4. *)
Theorem computeCopyableFootprints_offsets (desc : TextureDesc)
    (extent : TextureExtent) (formatInfo : FormatInfo) :
  let r := computeCopyableFootprints desc extent formatInfo in
  r.1 = u64 (sumBytes r.2)
  /\ forall k fp,
       r.2 !! k = Some fp ->
       offset fp = alignBufferOffset (u64 (sumBytes (take k r.2))).
Proof.
  cbn zeta. unfold computeCopyableFootprints.
  apply placeMips_invariant. split; [reflexivity|].
  intros k fp Hk. destruct k; discriminate.
Qed.

Lemma layoutOfMip_totalBytes formatInfo w h d :
  bytesPerBlock formatInfo mod 4 = 0 ->
  0 <= totalBytes (layoutOfMip formatInfo w h d)
  /\ totalBytes (layoutOfMip formatInfo w h d) mod 4 = 0.
Proof.
  intros Hb. unfold layoutOfMip. cbn [totalBytes].
  split; [apply u64_range|].
  apply Z.mod_divide in Hb; [|lia]. destruct Hb as [c Hc].
  assert (H4 : forall x, (4 | x) -> (4 | u32 x)).
  { intros x Hx. unfold u32. apply Z.mod_divide; [lia|].
    rewrite Z.mod_mod_divide by (exists (2 ^ 30); reflexivity).
    apply Z.mod_divide; [lia|exact Hx]. }
  assert (H8 : forall x, (4 | x) -> (4 | u64 x)).
  { intros x Hx. unfold u64. apply Z.mod_divide; [lia|].
    rewrite Z.mod_mod_divide by (exists (2 ^ 62); reflexivity).
    apply Z.mod_divide; [lia|exact Hx]. }
  apply Z.mod_divide; [lia|].
  apply H8, Z.divide_mul_r, H4. rewrite Hc, Z.mul_assoc.
  apply Z.divide_factor_r.
Qed.

Lemma sumBytes_bounds (l : list PlacedSubresourceFootprint) :
  Forall (fun fp => 0 <= totalBytes fp /\ totalBytes fp mod 4 = 0) l ->
  0 <= sumBytes l /\ sumBytes l mod 4 = 0.
Proof.
  induction 1 as [|fp l [H0 H4] _ [IH0 IH4]]; cbn; [split; [lia|reflexivity]|].
  fold (sumBytes l). split; [lia|].
  rewrite Z.add_mod, H4, IH4 by lia. reflexivity.
Qed.

Lemma sumBytes_take_drop k (l : list PlacedSubresourceFootprint) :
  sumBytes l = sumBytes (take k l) + sumBytes (drop k l).
Proof. now rewrite <- sumBytes_app, take_drop. Qed.

(** X11: for a format whose blocks take a multiple of 4 bytes, the
    footprints lie back to back: each one starts where the sizes before
    it end, at a multiple of 4, ends at or before the start of every
    later one, and ends inside the returned size. *)
Theorem computed_footprints_disjoint (desc : TextureDesc)
    (extent : TextureExtent) (formatInfo : FormatInfo) :
  bytesPerBlock formatInfo mod 4 = 0 ->
  let r := computeCopyableFootprints desc extent formatInfo in
  sumBytes r.2 < 2 ^ 64 ->
  r.1 = sumBytes r.2
  /\ forall k fk,
       r.2 !! k = Some fk ->
       offset fk = sumBytes (take k r.2)
       /\ offset fk mod 4 = 0
       /\ offset fk + totalBytes fk <= r.1
       /\ forall j fj,
            (j < k)%nat -> r.2 !! j = Some fj ->
            offset fj + totalBytes fj <= offset fk.
Proof.
  intros Hb. cbn zeta. intros Hsum.
  destruct (computeCopyableFootprints_invariant desc extent formatInfo)
    as [Htot Hoff].
  set (r := computeCopyableFootprints desc extent formatInfo) in *.
  assert (Hall : Forall (fun fp => 0 <= totalBytes fp
                                   /\ totalBytes fp mod 4 = 0) r.2).
  { unfold r, computeCopyableFootprints.
    destruct (placeMips_appends (Z.to_nat (mipLevels desc)) formatInfo
                (Z.to_nat match dimension desc with
                          | Texture3D => 1
                          | _ => arraySize desc
                          end)
                (extentWidth extent) (extentHeight extent)
                match dimension desc with
                | Texture3D => extentDepth extent
                | _ => 1
                end 0 []) as (l & -> & _ & Hl).
    cbn. eapply Forall_impl; [exact Hl|].
    intros fp (o & w' & h' & d' & ->).
    now apply layoutOfMip_totalBytes. }
  assert (Hprefix : forall k,
            0 <= sumBytes (take k r.2) <= sumBytes r.2
            /\ sumBytes (take k r.2) mod 4 = 0).
  { intros k.
    destruct (sumBytes_bounds (take k r.2) (Forall_take _ _ _ Hall)).
    destruct (sumBytes_bounds (drop k r.2) (Forall_drop _ _ _ Hall)).
    pose proof (sumBytes_take_drop k r.2). lia. }
  assert (Hexact : forall k fk, r.2 !! k = Some fk ->
            offset fk = sumBytes (take k r.2)).
  { intros k fk Hk. rewrite (Hoff k fk Hk).
    destruct (Hprefix k) as [Hr H4].
    rewrite u64_small by (unfold is_u64; lia).
    assert (Hle : sumBytes (take k r.2) <= 2 ^ 64 - 4).
    { apply Z.mod_divide in H4; [|lia]. destruct H4 as [c Hc]. lia. }
    apply alignBufferOffset_of_multiple; [lia|exact H4]. }
  assert (Hend : forall k fk, r.2 !! k = Some fk ->
            offset fk + totalBytes fk = sumBytes (take (S k) r.2)).
  { intros k fk Hk. rewrite (Hexact k fk Hk), (take_S_r _ _ _ Hk),
      sumBytes_app. cbn. lia. }
  split.
  - rewrite Htot. apply u64_small.
    destruct (sumBytes_bounds _ Hall). unfold is_u64. lia.
  - intros k fk Hk. split; [now apply Hexact|].
    split; [rewrite (Hexact k fk Hk); apply Hprefix|].
    split.
    + rewrite (Hend k fk Hk), Htot, u64_small.
      * apply Hprefix.
      * destruct (sumBytes_bounds _ Hall). unfold is_u64. lia.
    + intros j fj Hjk Hj. rewrite (Hend j fj Hj), (Hexact k fk Hk).
      replace (take (S j) r.2) with (take (S j) (take k r.2))
        by (rewrite take_take; f_equal; lia).
      destruct (sumBytes_bounds (drop (S j) (take k r.2))
                  (Forall_drop _ _ _ (Forall_take _ _ _ Hall))).
      pose proof (sumBytes_take_drop (S j) (take k r.2)). lia.
Qed.

Lemma computed_footprints_disjoint_witness :
  (computeCopyableFootprints (mkTextureDesc 3 2 Texture2DArray false false)
     (mkTextureExtent 8 8 1) (mkFormatInfo 1 4)).1
  = sumBytes
      (computeCopyableFootprints (mkTextureDesc 3 2 Texture2DArray false false)
         (mkTextureExtent 8 8 1) (mkFormatInfo 1 4)).2.
Proof.
  refine (proj1 (computed_footprints_disjoint
                   (mkTextureDesc 3 2 Texture2DArray false false)
                   (mkTextureExtent 8 8 1) (mkFormatInfo 1 4) _ _)).
  - reflexivity.
  - vm_compute. reflexivity.
Defined.

Lemma computeCopyableFootprints_sizes_nonneg (desc : TextureDesc)
    (extent : TextureExtent) (formatInfo : FormatInfo) :
  Forall (fun fp => 0 <= totalBytes fp)
    (computeCopyableFootprints desc extent formatInfo).2.
Proof.
  unfold computeCopyableFootprints.
  destruct (placeMips_appends (Z.to_nat (mipLevels desc)) formatInfo
              (Z.to_nat match dimension desc with
                        | Texture3D => 1
                        | _ => arraySize desc
                        end)
              (extentWidth extent) (extentHeight extent)
              match dimension desc with
              | Texture3D => extentDepth extent
              | _ => 1
              end 0 []) as (l & -> & _ & Hl).
  cbn. eapply Forall_impl; [exact Hl|].
  intros fp (o & w' & h' & d' & ->). cbn. apply u64_range.
Qed.

Lemma sumBytes_nonneg (l : list PlacedSubresourceFootprint) :
  Forall (fun fp => 0 <= totalBytes fp) l -> 0 <= sumBytes l.
Proof.
  induction 1 as [|fp l H0 _ IH]; cbn; [lia|]. fold (sumBytes l). lia.
Qed.

(** X12: the staging buffer is created with the size that
    [computeCopyableFootprints] returns, and the last footprint ends
    inside that size exactly when the sizes of the footprints before it
    add up to a multiple of 4; otherwise its aligned offset pushes its
    end past the size. *)
Theorem last_footprint_inside_iff_aligned (desc : TextureDesc)
    (extent : TextureExtent) (formatInfo : FormatInfo)
    (k : nat) (fp : PlacedSubresourceFootprint) :
  let r := computeCopyableFootprints desc extent formatInfo in
  sumBytes r.2 <= 2 ^ 64 - 4 ->
  r.2 !! k = Some fp ->
  S k = length r.2 ->
  offset fp + totalBytes fp <= r.1 <-> sumBytes (take k r.2) mod 4 = 0.
Proof.
  cbn zeta. intros Hsum Hk Hlast.
  destruct (computeCopyableFootprints_invariant desc extent formatInfo)
    as [Htot Hoff].
  pose proof (computeCopyableFootprints_sizes_nonneg desc extent formatInfo)
    as Hall.
  set (r := computeCopyableFootprints desc extent formatInfo) in *.
  pose proof (sumBytes_nonneg _ Hall) as Hall0.
  pose proof (sumBytes_nonneg _ (Forall_take _ k _ Hall)) as Htake0.
  assert (Hsplit : sumBytes r.2 = sumBytes (take k r.2) + totalBytes fp).
  { rewrite <- (firstn_all r.2) at 1. rewrite <- Hlast, (take_S_r _ _ _ Hk),
      sumBytes_app. cbn. lia. }
  assert (Hfp : 0 <= totalBytes fp).
  { rewrite Forall_lookup in Hall. exact (Hall k fp Hk). }
  rewrite Htot, (Hoff k fp Hk), (u64_small (sumBytes r.2)),
    (u64_small (sumBytes (take k r.2))) by (unfold is_u64; lia).
  rewrite alignBufferOffset_no_wrap by lia.
  pose proof (Z.mul_div_le (sumBytes (take k r.2) + 3) 4 ltac:(lia)) as Hle.
  pose proof (Z.mul_succ_div_gt (sumBytes (take k r.2) + 3) 4 ltac:(lia))
    as Hgt.
  rewrite Hsplit. split.
  - intros Hin. apply Z.mod_divide; [lia|].
    exists ((sumBytes (take k r.2) + 3) / 4). lia.
  - intros Hm. apply Z.mod_divide in Hm; [|lia]. destruct Hm as [c Hc].
    rewrite Hc in *.
    replace (c * 4 + 3) with (3 + c * 4) by ring.
    rewrite Z.div_add by lia. change (3 / 4) with 0. lia.
Qed.

Lemma last_footprint_inside_iff_aligned_witness :
  let r :=
    computeCopyableFootprints (mkTextureDesc 1 2 Texture2DArray false false)
      (mkTextureExtent 3 3 1) (mkFormatInfo 1 1) in
  12 + 9 <= r.1 <-> sumBytes (take 1 r.2) mod 4 = 0.
Proof.
  exact (last_footprint_inside_iff_aligned
           (mkTextureDesc 1 2 Texture2DArray false false)
           (mkTextureExtent 3 3 1) (mkFormatInfo 1 1) 1
           (mk 12 9 3 3 3 3 3 1)
           ltac:(vm_compute; discriminate) eq_refl eq_refl).
Defined.

End footprint_theorems.

(* ------------------------------------------------------------------ *)
(** ** Binding sets: the dirty flag, rebinding, and what is left alone *)

Lemma all_ones_has_bit i :
  0 <= i < 32 ->
  (Z.land (u32 (Z.lnot 0)) (u32 (Z.shiftl 1 i)) =? 0) = false.
Proof.
  intros Hi. apply Z.eqb_neq.
  change (u32 (Z.lnot 0)) with (Z.ones 32).
  rewrite Z.shiftl_1_l, Z.land_comm, Z.land_ones by lia.
  assert (H2 : 0 < 2 ^ i < 2 ^ 32).
  { split; [apply Z.pow_pos_nonneg; lia|apply Z.pow_lt_mono_r; lia]. }
  unfold u32. rewrite Z.mod_mod by lia. rewrite Z.mod_small; lia.
Qed.

Lemma bindingSetsToUpdateFrom_all_ones i (l : BindingSetVector) :
  0 <= i -> i + Z.of_nat (length l) <= 32 ->
  vulkan.bindingSetsToUpdateFrom i (u32 (Z.lnot 0)) l
  = List.filter (fun p => negb (isBindless p)) l.
Proof.
  revert i. induction l as [|p l IH]; intros i Hi Hlen; [reflexivity|].
  cbn [length] in Hlen. cbn [vulkan.bindingSetsToUpdateFrom List.filter].
  rewrite (IH (i + 1)) by lia.
  assert (Hp : isBindless p
               = match pointee p with
                 | DescriptorTable => true
                 | BindingSet _ _ _ => false
                 end) by reflexivity.
  rewrite Hp.
  destruct (pointee p) as [items hasUav needTransitions|]; [|reflexivity].
  rewrite all_ones_has_bit by lia. reflexivity.
Qed.

(** X13: while the binding states are dirty,
    [insertResourceBarriersForBindingSets] passes every set of the new
    vector that is not bindless to [setResourceStatesForBindingSet], in
    the order of the vector, whatever was bound before. *)
Theorem dirty_binding_states_update_every_set
    (newBindings oldBindings : BindingSetVector) :
  (length newBindings <= 32)%nat ->
  vulkan.bindingSetsToUpdate true newBindings oldBindings
  = List.filter (fun p => negb (isBindless p)) newBindings.
Proof.
  intros Hlen. unfold vulkan.bindingSetsToUpdate.
  change (u32 (Z.lnot 0) =? 0) with false. cbn [negb].
  apply bindingSetsToUpdateFrom_all_ones; lia.
Qed.

Lemma dirty_binding_states_update_every_set_witness :
  vulkan.bindingSetsToUpdate true
    [Scenario.uavBindingSet; mkIBindingSetPtr 21%nat DescriptorTable] []
  = [Scenario.uavBindingSet].
Proof.
  apply (dirty_binding_states_update_every_set
           [Scenario.uavBindingSet; mkIBindingSetPtr 21%nat DescriptorTable]
           []).
  cbn. lia.
Defined.

Lemma setBindingStatesDirty_same cl :
  vulkan.setBindingStatesDirty (vulkan.m_BindingStatesDirty cl) cl = cl.
Proof. destruct cl; reflexivity. Qed.

(** X14: with the binding states clean, binding the state that is
    current queues nothing: [insertComputeResourceBarriers] and
    [insertRayTracingResourceBarriers] leave the command list as it is,
    whatever the binding sets hold. *)
Theorem rebinding_current_state_changes_nothing (cl : vulkan.CommandList) :
  vulkan.m_BindingStatesDirty cl = false ->
  vulkan.insertComputeResourceBarriers (vulkan.m_CurrentComputeState cl) cl
  = cl
  /\ vulkan.insertRayTracingResourceBarriers
       (vulkan.m_CurrentRayTracingState cl) cl
     = cl.
Proof.
  intros Hclean.
  assert (Hsets : forall l,
            vulkan.insertResourceBarriersForBindingSets l l cl = cl).
  { intros l. unfold vulkan.insertResourceBarriersForBindingSets.
    rewrite Hclean.
    destruct (bindingSetsToUpdate_unchanged l) as [_ ->]. reflexivity. }
  split.
  - unfold vulkan.insertComputeResourceBarriers. cbn zeta.
    rewrite Hsets, Hclean.
    rewrite bool_decide_eq_true_2 by reflexivity. cbn.
    rewrite <- Hclean at 1.
    destruct (vulkan.indirectParams _); apply setBindingStatesDirty_same.
  - unfold vulkan.insertRayTracingResourceBarriers.
    rewrite Hsets. rewrite <- Hclean at 1. apply setBindingStatesDirty_same.
Qed.

Lemma rebinding_current_state_changes_nothing_witness :
  vulkan.insertComputeResourceBarriers
    (vulkan.m_CurrentComputeState
       (Scenario.vulkanCommandList Scenario.tracker))
    (Scenario.vulkanCommandList Scenario.tracker)
  = Scenario.vulkanCommandList Scenario.tracker.
Proof.
  apply (rebinding_current_state_changes_nothing
           (Scenario.vulkanCommandList Scenario.tracker)).
  reflexivity.
Defined.

Lemma onlyTrackerChanged_refl cl : onlyTrackerChanged cl cl.
Proof. repeat split. Qed.

Lemma onlyTrackerChanged_trans cl1 cl2 cl3 :
  onlyTrackerChanged cl1 cl2 -> onlyTrackerChanged cl2 cl3 ->
  onlyTrackerChanged cl1 cl3.
Proof.
  unfold onlyTrackerChanged. intros H1 H2.
  destruct H1 as (?&?&?&?&?&?&?&?), H2 as (?&?&?&?&?&?&?&?).
  repeat split; congruence.
Qed.

Lemma onlyTrackerChanged_onTracker f cl :
  onlyTrackerChanged cl (vulkan.onTracker f cl).
Proof. repeat split. Qed.

Lemma onlyTrackerChanged_setBindingStatesDirty b cl :
  onlyTrackerChanged cl (vulkan.setBindingStatesDirty b cl).
Proof. repeat split. Qed.

Lemma setResourceStatesForBinding_frame binding cl :
  onlyTrackerChanged cl (vulkan.setResourceStatesForBinding binding cl).
Proof.
  unfold vulkan.setResourceStatesForBinding.
  destruct (type binding);
    try apply onlyTrackerChanged_refl;
    try apply onlyTrackerChanged_onTracker.
  destruct (vulkan.accelStructs cl !! resourceHandle binding);
    [apply onlyTrackerChanged_onTracker|apply onlyTrackerChanged_refl].
Qed.

Lemma foldl_frame {A} (f : vulkan.CommandList -> A -> vulkan.CommandList)
    (l : list A) cl :
  (forall c a, onlyTrackerChanged c (f c a)) ->
  onlyTrackerChanged cl (foldl f cl l).
Proof.
  intros Hf. revert cl. induction l as [|a l IH]; intros cl; cbn.
  - apply onlyTrackerChanged_refl.
  - eapply onlyTrackerChanged_trans; [apply Hf|apply IH].
Qed.

Lemma setResourceStatesForBindingSet_frame bindingSet cl :
  onlyTrackerChanged cl (vulkan.setResourceStatesForBindingSet bindingSet cl).
Proof.
  destruct bindingSet as [[bindings hasUav needTransitions|]|]; cbn;
    try apply onlyTrackerChanged_refl.
  apply foldl_frame. intros c i.
  destruct (bindings !! i);
    [apply setResourceStatesForBinding_frame|apply onlyTrackerChanged_refl].
Qed.

Lemma insertResourceBarriersForBindingSets_frame newBindings oldBindings cl :
  onlyTrackerChanged cl
    (vulkan.insertResourceBarriersForBindingSets newBindings oldBindings cl).
Proof.
  unfold vulkan.insertResourceBarriersForBindingSets.
  apply foldl_frame. intros c p. apply setResourceStatesForBindingSet_frame.
Qed.

(** X15: [insertComputeResourceBarriers] and
    [insertRayTracingResourceBarriers] only queue: they record no
    command, end no render pass, reference no resource and leave the
    automatic-barrier switch and the current states as they are; the
    binding states are clean afterwards. *)
Theorem insert_resource_barriers_only_queue (compute : vulkan.ComputeState)
    (rayTracing : vulkan.rt_State) (cl : vulkan.CommandList) :
  onlyTrackerChanged cl (vulkan.insertComputeResourceBarriers compute cl)
  /\ vulkan.m_BindingStatesDirty
       (vulkan.insertComputeResourceBarriers compute cl) = false
  /\ onlyTrackerChanged cl
       (vulkan.insertRayTracingResourceBarriers rayTracing cl)
  /\ vulkan.m_BindingStatesDirty
       (vulkan.insertRayTracingResourceBarriers rayTracing cl) = false.
Proof.
  split; [|split; [reflexivity|split; [|reflexivity]]].
  - unfold vulkan.insertComputeResourceBarriers. cbn zeta.
    eapply onlyTrackerChanged_trans;
      [|apply onlyTrackerChanged_setBindingStatesDirty].
    eapply onlyTrackerChanged_trans;
      [apply insertResourceBarriersForBindingSets_frame|].
    destruct (vulkan.indirectParams compute);
      [|apply onlyTrackerChanged_refl].
    destruct (_ || _);
      [apply onlyTrackerChanged_onTracker|apply onlyTrackerChanged_refl].
  - unfold vulkan.insertRayTracingResourceBarriers.
    eapply onlyTrackerChanged_trans;
      [apply insertResourceBarriersForBindingSets_frame
      |apply onlyTrackerChanged_setBindingStatesDirty].
Qed.

(* ------------------------------------------------------------------ *)
(** ** Timer queries *)

Section timer_queries.
Import TimerQueries.

(** X16: a timer query created for an allocator index [queryIndex]
    below [2 ^ 30], where the [int] products do not overflow, takes the
    two adjacent slots [2 * queryIndex] and [2 * queryIndex + 1] of the
    pool, and its destructor releases that very index. *)
Theorem timer_query_releases_its_index (queryIndex : Z) (query q : TimerQuery) :
  queryIndex < 2 ^ 30 ->
  createTimerQuery queryIndex query = Some q ->
  0 <= queryIndex
  /\ beginQueryIndex q = 2 * queryIndex
  /\ endQueryIndex q = beginQueryIndex q + 1
  /\ -2 ^ 31 <= beginQueryIndex q /\ endQueryIndex q < 2 ^ 31
  /\ (destroy q).1 = queryIndex.
Proof.
  intros Hbound. unfold createTimerQuery.
  destruct (queryIndex <? 0) eqn:E; [discriminate|].
  apply Z.ltb_ge in E. intros [= <-]. cbn.
  repeat split; try lia. rewrite Z.quot_mul by lia. reflexivity.
Qed.

Lemma timer_query_releases_its_index_witness :
  (destroy (mk 6 7 false false Float32.zero)).1 = 3.
Proof.
  refine (proj2 (proj2 (proj2 (proj2 (proj2
    (timer_query_releases_its_index 3 newQuery
       (mk 6 7 false false Float32.zero) _ _)))))).
  - lia.
  - reflexivity.
Defined.

(** X17: timer queries created for different allocator indices never
    touch each other's slots: every slot that [beginTimerQuery] and
    [endTimerQuery] reset or write for one query is one of its own two,
    and none of them is a slot of the other query. *)
Theorem timer_queries_touch_own_slots_only (i j : Z) (fresh fresh' q q'
    : TimerQuery) (cl : CommandList) (c : Command) (slot : Z) :
  i <> j ->
  createTimerQuery i fresh = Some q ->
  createTimerQuery j fresh' = Some q' ->
  let started := beginTimerQuery q cl in
  let ended := endTimerQuery started.1 started.2 in
  c ∈ cmdBuf ended.2 -> c ∉ cmdBuf cl ->
  slot ∈ slotsTouched c ->
  (slot = beginQueryIndex q \/ slot = endQueryIndex q)
  /\ slot <> beginQueryIndex q' /\ slot <> endQueryIndex q'.
Proof.
  intros Hij Hq Hq'. cbn zeta.
  unfold createTimerQuery in Hq, Hq'.
  destruct (i <? 0) eqn:Ei; [discriminate|].
  destruct (j <? 0) eqn:Ej; [discriminate|].
  injection Hq as <-. injection Hq' as <-.
  unfold beginTimerQuery, endTimerQuery, endRenderPass.
  intros Hc Hold Hslot.
  assert (Hcases : c = endRendering
                   \/ c = resetQueryPool (i * 2) 2
                   \/ c = writeTimestamp (i * 2)
                   \/ c = writeTimestamp (i * 2 + 1)).
  { revert Hc. destruct (renderPassActive cl) eqn:Er; cbn; rewrite ?Er; cbn;
      rewrite ?elem_of_app, ?elem_of_cons, ?elem_of_nil;
      unfold not in Hold; intuition auto. }
  destruct Hcases as [-> | [-> | [-> | ->]]]; cbn in Hslot |- *.
  - inversion Hslot.
  - apply elem_of_seqZ in Hslot. lia.
  - apply list_elem_of_singleton in Hslot. lia.
  - apply list_elem_of_singleton in Hslot. lia.
Qed.

Lemma timer_queries_touch_own_slots_only_witness :
  (6 = 6 \/ 6 = 7) /\ 6 <> 10 /\ 6 <> 11.
Proof.
  refine (timer_queries_touch_own_slots_only 3 5 newQuery newQuery
            (mk 6 7 false false Float32.zero)
            (mk 10 11 false false Float32.zero)
            (mkCommandList true []) (writeTimestamp 6) 6 _ _ _ _ _ _).
  - lia.
  - reflexivity.
  - reflexivity.
  - cbn. repeat constructor.
  - cbn. apply not_elem_of_nil.
  - cbn. repeat constructor.
Defined.

(** X18: once [pollTimerQuery] has returned true, it keeps returning
    true and leaves the query and its time as they are, whatever the
    device would answer. *)
Theorem pollTimerQuery_stays_resolved
    (timestampPeriod timestampPeriod' : Float32.t)
    (device device' : QueryPoolResults) (q q' : TimerQuery) :
  pollTimerQuery timestampPeriod device q = (true, q') ->
  pollTimerQuery timestampPeriod' device' q' = (true, q').
Proof.
  unfold pollTimerQuery.
  destruct (started q) eqn:Es; cbn [negb]; [|discriminate].
  destruct (resolved q) eqn:Er.
  - intros [= <-]. now rewrite Es, Er.
  - destruct device; try discriminate. intros [= <-]. cbn. now rewrite Es.
Qed.

Lemma pollTimerQuery_stays_resolved_witness :
  pollTimerQuery onePerTick eNotReady
    (pollTimerQuery onePerTick (eSuccess 10 15) startedQuery).2
  = (true, (pollTimerQuery onePerTick (eSuccess 10 15) startedQuery).2).
Proof.
  apply (pollTimerQuery_stays_resolved onePerTick onePerTick (eSuccess 10 15)
           eNotReady startedQuery).
  reflexivity.
Defined.

(** X19: the time of a timer query can be fetched once:
    [getTimerQueryTime] leaves the query not started, so the next call
    returns 0 without asking the device. *)
Theorem getTimerQueryTime_second_read_is_zero
    (timestampPeriod timestampPeriod' : Float32.t)
    (answers rest answers' : list QueryPoolResults) (q q' : TimerQuery)
    (t : Float32.t) :
  getTimerQueryTime timestampPeriod answers q = Some (t, q', rest) ->
  getTimerQueryTime timestampPeriod' answers' q'
  = Some (Float32.zero, q', answers').
Proof.
  unfold getTimerQueryTime at 1.
  destruct (started q) eqn:Es; cbn [negb].
  - destruct (if negb (resolved q) then _ else _) as [[q1 rest1]|];
      [|discriminate].
    intros [= _ <- _]. reflexivity.
  - intros [= _ <- _]. unfold getTimerQueryTime. now rewrite Es.
Qed.

Lemma getTimerQueryTime_second_read_is_zero_witness :
  getTimerQueryTime onePerTick [eNotReady]
    (mk 6 7 false true (elapsedTime onePerTick 10 15))
  = Some (Float32.zero, mk 6 7 false true (elapsedTime onePerTick 10 15),
          [eNotReady]).
Proof.
  apply (getTimerQueryTime_second_read_is_zero onePerTick onePerTick
           [eNotReady; eSuccess 10 15] [] [eNotReady] startedQuery
           (mk 6 7 false true (elapsedTime onePerTick 10 15))
           (elapsedTime onePerTick 10 15)).
  reflexivity.
Defined.

Lemma pollUntilResolved_failures timestampPeriod pre (q : TimerQuery) answers :
  started q = true -> resolved q = false ->
  Forall (fun device => isSuccess device = false) pre ->
  pollUntilResolved timestampPeriod (pre ++ answers) q
  = pollUntilResolved timestampPeriod answers q.
Proof.
  intros Hs Hr. induction 1 as [|device pre Hd _ IH]; [reflexivity|].
  cbn. unfold pollTimerQuery at 1. rewrite Hs, Hr. cbn [negb].
  destruct device; [discriminate| |]; cbn; unfold pollTimerQuery;
    rewrite Hs, Hr; cbn [negb fst snd]; exact IH.
Qed.

(** X20: on a started query that is not resolved, [getTimerQueryTime]
    polls until the device reports success: answers of not-ready or
    device-lost are consumed one per round, the call does not return
    while only such answers come, and at the first success it returns
    the [float] that the code computes: the 32-bit difference of the two
    timestamps, converted to [float] and multiplied by
    [1e-9f * timestampPeriod] in single precision.  The conversion
    rounds: the differences [2 ^ 24] and [2 ^ 24 + 1] give the same
    time. *)
Theorem getTimerQueryTime_polls_until_success (timestampPeriod : Float32.t)
    (pre post : list QueryPoolResults) (q : TimerQuery)
    (timestamps0 timestamps1 : Z) :
  started q = true -> resolved q = false ->
  Forall (fun device => isSuccess device = false) pre ->
  let elapsed :=
    Float32.mul (Float32.of_uint32 (u32 (timestamps1 - timestamps0)))
      (Float32.mul Float32.nano timestampPeriod) in
  getTimerQueryTime timestampPeriod pre q = None
  /\ getTimerQueryTime timestampPeriod
       (pre ++ eSuccess timestamps0 timestamps1 :: post) q
     = Some (elapsed,
             mk (beginQueryIndex q) (endQueryIndex q) false true elapsed,
             post)
  /\ Float32.of_uint32 (2 ^ 24 + 1) = Float32.of_uint32 (2 ^ 24).
Proof.
  intros Hs Hr Hpre. cbn zeta. unfold getTimerQueryTime.
  rewrite Hs, Hr. cbn [negb].
  split; [|split].
  - rewrite <- (app_nil_r pre) at 1.
    rewrite (pollUntilResolved_failures _ pre q [] Hs Hr Hpre). reflexivity.
  - rewrite (pollUntilResolved_failures _ pre q _ Hs Hr Hpre).
    cbn [pollUntilResolved]. unfold pollTimerQuery. rewrite Hs, Hr.
    reflexivity.
  - vm_compute. reflexivity.
Qed.

Lemma getTimerQueryTime_polls_until_success_witness :
  getTimerQueryTime onePerTick [eNotReady; eErrorDeviceLost] startedQuery
  = None.
Proof.
  refine (proj1 (getTimerQueryTime_polls_until_success onePerTick
                   [eNotReady; eErrorDeviceLost] [] startedQuery
                   10 15 _ _ _)).
  - reflexivity.
  - reflexivity.
  - repeat constructor.
Defined.

End timer_queries.

(* ------------------------------------------------------------------ *)
(** ** Framebuffers and graphics state *)

Section graphics.
Import Graphics.

Lemma nothingRecorded_refl cl : nothingRecorded cl cl.
Proof. repeat split. Qed.

Lemma nothingRecorded_trans cl1 cl2 cl3 :
  nothingRecorded cl1 cl2 -> nothingRecorded cl2 cl3 ->
  nothingRecorded cl1 cl3.
Proof.
  unfold nothingRecorded. intros (?&?&?&?) (?&?&?&?).
  repeat split; congruence.
Qed.

Lemma onlyTrackerChanged_nothingRecorded cl cl' :
  onlyTrackerChanged cl cl' -> nothingRecorded cl cl'.
Proof. intros (?&?&?&?&?&?&?&?). repeat split; assumption. Qed.

Lemma setTextureState_nothingRecorded h r S cl :
  nothingRecorded cl (setTextureState h r S cl).
Proof. repeat split. Qed.

Lemma setTextureState_references h r S cl :
  vulkan.referencedResources (setTextureState h r S cl)
  = vulkan.referencedResources cl ++ [h].
Proof. reflexivity. Qed.

Lemma colorAttachments_fold (l : list FramebufferAttachment) cl :
  let cl' :=
    foldl (fun cl attachment =>
             setTextureState (texture attachment) (subresources attachment)
               ResourceStates.RenderTarget cl) cl l in
  nothingRecorded cl cl'
  /\ vulkan.referencedResources cl'
     = vulkan.referencedResources cl ++ (texture <$> l).
Proof.
  cbn zeta. revert cl. induction l as [|a l IH]; intros cl; cbn [foldl].
  - split; [apply nothingRecorded_refl|]. cbn. now rewrite app_nil_r.
  - destruct (IH (setTextureState (texture a) (subresources a)
                    ResourceStates.RenderTarget cl)) as [Hn Hr].
    split.
    + eapply nothingRecorded_trans; [|exact Hn].
      apply setTextureState_nothingRecorded.
    + rewrite Hr, setTextureState_references, <- app_assoc. reflexivity.
Qed.

Lemma setResourceStatesForFramebuffer_frame fb cl :
  nothingRecorded cl (setResourceStatesForFramebuffer fb cl)
  /\ vulkan.referencedResources (setResourceStatesForFramebuffer fb cl)
     = vulkan.referencedResources cl ++ attachmentTextures (getDesc fb).
Proof.
  unfold setResourceStatesForFramebuffer, attachmentTextures. cbn zeta.
  destruct (colorAttachments_fold (colorAttachments (getDesc fb)) cl)
    as [Hn Hr]. cbn zeta in Hn, Hr.
  destruct (depthAttachment (getDesc fb)) as [a|].
  - split.
    + eapply nothingRecorded_trans; [exact Hn|].
      apply setTextureState_nothingRecorded.
    + rewrite setTextureState_references, Hr, <- app_assoc. reflexivity.
  - split; [exact Hn|]. now rewrite Hr, app_nil_r.
Qed.

(** X21: [setResourceStatesForFramebuffer] records no command and ends
    no render pass; it references the texture of every colour
    attachment, in order, and then that of the depth attachment if
    there is one. *)
Theorem setResourceStatesForFramebuffer_references_attachments
    (framebuffer : IFramebuffer) (cl : vulkan.CommandList) :
  let cl' := setResourceStatesForFramebuffer framebuffer cl in
  vulkan.cmdBuf cl' = vulkan.cmdBuf cl
  /\ vulkan.renderPassActive cl' = vulkan.renderPassActive cl
  /\ vulkan.referencedResources cl'
     = vulkan.referencedResources cl
       ++ attachmentTextures (getDesc framebuffer).
Proof.
  cbn zeta.
  destruct (setResourceStatesForFramebuffer_frame framebuffer cl)
    as [(Hc & Hp & _) Hr].
  repeat split; assumption.
Qed.

Lemma requireIfChanged_same b S cl :
  vulkan.m_BindingStatesDirty cl = false -> requireIfChanged b b S cl = cl.
Proof.
  intros Hclean. unfold requireIfChanged. destruct b; [|reflexivity].
  rewrite Hclean, bool_decide_eq_true_2 by reflexivity. reflexivity.
Qed.

Lemma framebufferIfChanged_same fb cl :
  vulkan.m_BindingStatesDirty cl = false -> framebufferIfChanged fb fb cl = cl.
Proof.
  intros Hclean. unfold framebufferIfChanged.
  rewrite Hclean, bool_decide_eq_true_2 by reflexivity. reflexivity.
Qed.

(** X22: with the binding states clean, binding the graphics or meshlet
    state that is current, with the same vertex buffers, queues nothing
    and references nothing: the command list stays as it is. *)
Theorem rebinding_current_graphics_state_changes_nothing
    (graphics : GraphicsState) (meshlet : MeshletState)
    (cl : vulkan.CommandList) :
  vulkan.m_BindingStatesDirty cl = false ->
  insertGraphicsResourceBarriers graphics graphics false cl = cl
  /\ insertMeshletResourceBarriers meshlet meshlet cl = cl.
Proof.
  intros Hclean.
  assert (Hsets : forall l,
            vulkan.insertResourceBarriersForBindingSets l l cl = cl).
  { intros l. unfold vulkan.insertResourceBarriersForBindingSets.
    rewrite Hclean.
    destruct (bindingSetsToUpdate_unchanged l) as [_ ->]. reflexivity. }
  split.
  - unfold insertGraphicsResourceBarriers. cbn zeta.
    rewrite Hsets, (requireIfChanged_same _ _ _ Hclean), Hclean. cbn [orb].
    rewrite (framebufferIfChanged_same _ _ Hclean),
      !(requireIfChanged_same _ _ _ Hclean).
    rewrite <- Hclean at 1. apply setBindingStatesDirty_same.
  - unfold insertMeshletResourceBarriers. cbn zeta.
    rewrite Hsets, (framebufferIfChanged_same _ _ Hclean),
      (requireIfChanged_same _ _ _ Hclean).
    rewrite <- Hclean at 1. apply setBindingStatesDirty_same.
Qed.

Lemma rebinding_current_graphics_state_changes_nothing_witness :
  insertGraphicsResourceBarriers exampleGraphicsState exampleGraphicsState
    false (Scenario.vulkanCommandList Scenario.tracker)
  = Scenario.vulkanCommandList Scenario.tracker.
Proof.
  refine (proj1 (rebinding_current_graphics_state_changes_nothing
                   exampleGraphicsState exampleMeshletState
                   (Scenario.vulkanCommandList Scenario.tracker) _)).
  reflexivity.
Defined.

Lemma requireIfChanged_frame b current S cl :
  onlyTrackerChanged cl (requireIfChanged b current S cl).
Proof.
  unfold requireIfChanged. destruct b; [|apply onlyTrackerChanged_refl].
  destruct (_ || _);
    [apply onlyTrackerChanged_onTracker|apply onlyTrackerChanged_refl].
Qed.

Lemma framebufferIfChanged_frame fb current cl :
  nothingRecorded cl (framebufferIfChanged fb current cl).
Proof.
  unfold framebufferIfChanged.
  destruct (_ || _); [|apply nothingRecorded_refl].
  apply setResourceStatesForFramebuffer_frame.
Qed.

(** X23: [insertGraphicsResourceBarriers] and
    [insertMeshletResourceBarriers] only queue: whatever the state
    bound, they record no command, end no render pass and leave the
    automatic-barrier switch as it is; the binding states are clean
    afterwards. *)
Theorem insert_graphics_barriers_record_nothing
    (graphics currentGraphics : GraphicsState) (vertexBuffersDiffer : bool)
    (meshlet currentMeshlet : MeshletState) (cl : vulkan.CommandList) :
  let g :=
    insertGraphicsResourceBarriers graphics currentGraphics
      vertexBuffersDiffer cl in
  let m := insertMeshletResourceBarriers meshlet currentMeshlet cl in
  nothingRecorded cl g /\ vulkan.m_BindingStatesDirty g = false
  /\ nothingRecorded cl m /\ vulkan.m_BindingStatesDirty m = false.
Proof.
  cbn zeta. split; [|split; [reflexivity|split; [|reflexivity]]].
  - unfold insertGraphicsResourceBarriers. cbn zeta.
    eapply nothingRecorded_trans;
      [|apply onlyTrackerChanged_nothingRecorded,
          onlyTrackerChanged_setBindingStatesDirty].
    eapply nothingRecorded_trans;
      [|apply onlyTrackerChanged_nothingRecorded, requireIfChanged_frame].
    eapply nothingRecorded_trans;
      [|apply onlyTrackerChanged_nothingRecorded, requireIfChanged_frame].
    eapply nothingRecorded_trans; [|apply framebufferIfChanged_frame].
    eapply nothingRecorded_trans;
      [apply onlyTrackerChanged_nothingRecorded,
         insertResourceBarriersForBindingSets_frame|].
    eapply nothingRecorded_trans;
      [apply onlyTrackerChanged_nothingRecorded, requireIfChanged_frame|].
    destruct (_ || vertexBuffersDiffer); [|apply nothingRecorded_refl].
    apply onlyTrackerChanged_nothingRecorded, foldl_frame.
    intros c vb. apply onlyTrackerChanged_onTracker.
  - unfold insertMeshletResourceBarriers. cbn zeta.
    eapply nothingRecorded_trans;
      [|apply onlyTrackerChanged_nothingRecorded,
          onlyTrackerChanged_setBindingStatesDirty].
    eapply nothingRecorded_trans;
      [|apply onlyTrackerChanged_nothingRecorded, requireIfChanged_frame].
    eapply nothingRecorded_trans; [|apply framebufferIfChanged_frame].
    apply onlyTrackerChanged_nothingRecorded,
      insertResourceBarriersForBindingSets_frame.
Qed.

End graphics.

(* ------------------------------------------------------------------ *)
(** ** Alignment of the staging footprints *)

(** X24: as long as the footprint sizes add up to at most
    [2 ^ 64 - 4], every footprint that [computeCopyableFootprints]
    places starts at a multiple of 4: the check
    [(layout.offset & 0x3) == 0] of [mapStagingTexture] holds for every
    subresource. *)
Theorem computed_footprint_offsets_aligned (desc : TextureDesc)
    (extent : TextureExtent) (formatInfo : FormatInfo)
    (k : nat) (fp : StagingFootprints.PlacedSubresourceFootprint) :
  let r := StagingFootprints.computeCopyableFootprints desc extent formatInfo in
  StagingFootprints.sumBytes r.2 <= 2 ^ 64 - 4 ->
  r.2 !! k = Some fp ->
  Z.land (StagingFootprints.offset fp) 0x3 = 0.
Proof.
  cbn zeta. intros Hsum Hk.
  destruct (computeCopyableFootprints_invariant desc extent formatInfo)
    as [_ Hoff].
  pose proof (computeCopyableFootprints_sizes_nonneg desc extent formatInfo)
    as Hall.
  set (r := StagingFootprints.computeCopyableFootprints desc extent formatInfo)
    in *.
  pose proof (sumBytes_nonneg _ (Forall_take _ k _ Hall)) as Htake0.
  pose proof (sumBytes_nonneg _ (Forall_drop _ k _ Hall)) as Hdrop0.
  pose proof (sumBytes_take_drop k r.2) as Hsplit.
  rewrite (Hoff k fp Hk), u64_small by (unfold is_u64; lia).
  rewrite alignBufferOffset_no_wrap by lia.
  change 0x3 with (Z.ones 2). rewrite Z.land_ones by lia.
  apply Z.mod_mul. lia.
Qed.

Lemma computed_footprint_offsets_aligned_witness :
  Z.land 12 0x3 = 0.
Proof.
  exact (computed_footprint_offsets_aligned
           (mkTextureDesc 1 2 Texture2DArray false false)
           (mkTextureExtent 3 3 1) (mkFormatInfo 1 1) 1
           (StagingFootprints.mk 12 9 3 3 3 3 3 1)
           ltac:(vm_compute; discriminate) eq_refl).
Defined.

(* ------------------------------------------------------------------ *)
(** ** Upload buffers of [writeBuffer] *)

Lemma d3d12_commitBarriers_upload cl :
  d3d12.m_CurrentUploadBuffer (d3d12.commitBarriers cl)
  = d3d12.m_CurrentUploadBuffer cl
  /\ d3d12.referencedNativeResources (d3d12.commitBarriers cl)
     = d3d12.referencedNativeResources cl.
Proof.
  unfold d3d12.commitBarriers.
  destruct (m_TextureBarriers _), (m_BufferBarriers _); split; reflexivity.
Qed.

Lemma d3d12_writeBuffer_upload b dataSize destOffset a cl :
  let cl1 := d3d12.useUploadBuffer (d3d12.uploadBuffer a) cl in
  let cl' := d3d12.writeBuffer b dataSize destOffset (Some a) cl in
  d3d12.m_CurrentUploadBuffer cl' = d3d12.m_CurrentUploadBuffer cl1
  /\ d3d12.referencedNativeResources cl'
     = d3d12.referencedNativeResources cl1.
Proof.
  cbn zeta. unfold d3d12.writeBuffer.
  destruct (buffers _ !! b) as [buf|]; [|split; reflexivity].
  destruct (isVolatile (bufferDesc buf)); [split; reflexivity|].
  cbn.
  destruct (d3d12.m_EnableAutomaticBarriers _);
    match goal with
    | |- context [d3d12.commitBarriers ?c] =>
      destruct (d3d12_commitBarriers_upload c) as [-> ->]
    end; split; reflexivity.
Qed.

(** X25: [writeBuffer] adds the upload buffer of its allocation to the
    referenced native resources only when it is not the current upload
    buffer, and makes it the current one: of two successive writes that
    are served from the same upload buffer, the second references it no
    more, whichever buffers they write to. *)
Theorem writeBuffer_references_upload_buffer_once
    (b b' : Handle) (dataSize dataSize' destOffset destOffset' : Z)
    (a a' : d3d12.UploadAllocation) (cl : d3d12.CommandList) :
  d3d12.uploadBuffer a' = d3d12.uploadBuffer a ->
  let cl1 := d3d12.writeBuffer b dataSize destOffset (Some a) cl in
  let cl2 := d3d12.writeBuffer b' dataSize' destOffset' (Some a') cl1 in
  d3d12.m_CurrentUploadBuffer cl1 = Some (d3d12.uploadBuffer a)
  /\ d3d12.referencedNativeResources cl1
     = d3d12.referencedNativeResources cl
       ++ (if decide (d3d12.m_CurrentUploadBuffer cl
                      = Some (d3d12.uploadBuffer a))
           then [] else [d3d12.uploadBuffer a])
  /\ d3d12.referencedNativeResources cl2
     = d3d12.referencedNativeResources cl1.
Proof.
  intros Hsame. cbn zeta.
  destruct (d3d12_writeBuffer_upload b dataSize destOffset a cl) as [Hc Hr].
  cbn zeta in Hc, Hr.
  assert (Hcur : d3d12.m_CurrentUploadBuffer
                   (d3d12.writeBuffer b dataSize destOffset (Some a) cl)
                 = Some (d3d12.uploadBuffer a)).
  { rewrite Hc. unfold d3d12.useUploadBuffer.
    destruct (decide _) as [E|E]; [exact E|reflexivity]. }
  split; [exact Hcur|]. split.
  - rewrite Hr. unfold d3d12.useUploadBuffer.
    destruct (decide _); cbn; [now rewrite app_nil_r|reflexivity].
  - destruct (d3d12_writeBuffer_upload b' dataSize' destOffset' a'
                (d3d12.writeBuffer b dataSize destOffset (Some a) cl))
      as [_ Hr']. cbn zeta in Hr'. rewrite Hr'.
    unfold d3d12.useUploadBuffer. rewrite Hsame.
    destruct (decide _) as [E|E]; [reflexivity|]. now destruct E.
Qed.

Lemma writeBuffer_references_upload_buffer_once_witness :
  d3d12.referencedNativeResources
    (d3d12.writeBuffer 11%nat 8 0 (Some (d3d12.mkUploadAllocation 40%nat 16 0))
       (d3d12.writeBuffer 10%nat 16 0
          (Some (d3d12.mkUploadAllocation 40%nat 0 0))
          (Scenario.d3d12CommandList Scenario.tracker true)))
  = d3d12.referencedNativeResources
      (d3d12.writeBuffer 10%nat 16 0
         (Some (d3d12.mkUploadAllocation 40%nat 0 0))
         (Scenario.d3d12CommandList Scenario.tracker true)).
Proof.
  refine (proj2 (proj2 (writeBuffer_references_upload_buffer_once
                          10%nat 11%nat 16 8 0 0
                          (d3d12.mkUploadAllocation 40%nat 0 0)
                          (d3d12.mkUploadAllocation 40%nat 16 0)
                          (Scenario.d3d12CommandList Scenario.tracker true)
                          _))).
  reflexivity.
Defined.

(* ------------------------------------------------------------------ *)
(** ** Blend states *)

Lemma usesConstantColorFrom_spec (targets : list BlendState.RenderTarget)
    (n rt : nat) :
  (rt + n <= length targets)%nat ->
  BlendState.usesConstantColorFrom targets rt n = true
  <-> exists i t,
        (rt <= i < rt + n)%nat /\ targets !! i = Some t
        /\ BlendState.RenderTarget_usesConstantColor t = true.
Proof.
  revert rt. induction n as [|n IH]; intros rt Hlen; cbn.
  - split; [discriminate|]. intros (i & t & Hi & _). lia.
  - destruct (lookup_lt_is_Some_2 targets rt ltac:(lia)) as [t0 Ht0].
    rewrite Ht0.
    destruct (BlendState.RenderTarget_usesConstantColor t0) eqn:E.
    + split; [|reflexivity]. intros _. exists rt, t0.
      split; [lia|]. split; assumption.
    + rewrite (IH (S rt)) by lia. split.
      * intros (i & t & Hi & Ht & Hu). exists i, t.
        split; [lia|]. split; assumption.
      * intros (i & t & Hi & Ht & Hu).
        destruct (decide (i = rt)) as [->|Hne].
        -- rewrite Ht0 in Ht. injection Ht as <-. congruence.
        -- exists i, t. split; [lia|]. split; assumption.
Qed.

(** X26: [BlendState::usesConstantColor] answers true exactly when one
    of the first [numTargets] render targets uses a constant colour
    factor in one of its four blend factors. *)
Theorem usesConstantColor_iff_some_target
    (targets : list BlendState.RenderTarget) (numTargets : Z) :
  0 <= numTargets <= Z.of_nat (length targets) ->
  BlendState.usesConstantColor targets numTargets = true
  <-> exists rt t,
        0 <= Z.of_nat rt < numTargets /\ targets !! rt = Some t
        /\ (BlendState.isConstantColor (BlendState.srcBlend t) = true
            \/ BlendState.isConstantColor (BlendState.destBlend t) = true
            \/ BlendState.isConstantColor (BlendState.srcBlendAlpha t) = true
            \/ BlendState.isConstantColor (BlendState.destBlendAlpha t)
               = true).
Proof.
  intros Hn. unfold BlendState.usesConstantColor.
  rewrite usesConstantColorFrom_spec by lia.
  split; intros (rt & t & Hrt & Ht & Hu); exists rt, t;
    (split; [lia|]); (split; [exact Ht|]);
    unfold BlendState.RenderTarget_usesConstantColor in *;
    rewrite ?orb_true_iff in *; tauto.
Qed.

Lemma usesConstantColor_iff_some_target_witness :
  BlendState.usesConstantColor
    [BlendState.mkRenderTarget (BlendState.OtherBlendFactor 1)
       (BlendState.OtherBlendFactor 2) (BlendState.OtherBlendFactor 1)
       (BlendState.OtherBlendFactor 2);
     BlendState.mkRenderTarget (BlendState.OtherBlendFactor 1)
       BlendState.OneMinusConstantColor (BlendState.OtherBlendFactor 1)
       (BlendState.OtherBlendFactor 2)] 2
  = true.
Proof.
  refine (proj2 (usesConstantColor_iff_some_target _ 2 _) _).
  - cbn. lia.
  - exists 1%nat. eexists. split; [lia|]. split; [reflexivity|].
    right. left. reflexivity.
Defined.
